(** * foa3d: the tiled fiber-orientation pipeline (pipeline.py, output.py)

    A shallow embedding of the functions of [foa3d/pipeline.py] and
    [foa3d/output.py] that decide how output volumes are allocated, filled
    and saved, with the properties the specification states about them.

    Conventions of the embedding:
    - Python exceptions are the [Raise] case of the result type [res];
    - Python floats are idealised as exact numbers: rationals ([Q]) where
      the code only scales, divides and rounds them, reals ([R]) where it
      takes a square root;
    - NumPy integers are 64-bit: [np.prod] and products with its result
      wrap around ([wrap64]);
    - the file system is a finite map from paths to files;
    - functions of modules that are not part of these sources (foa3d.utils,
      foa3d.slicing, foa3d.frangi, foa3d.preprocessing, foa3d.odf) are
      section variables, or are modelled from the specification where a
      property depends on what they return. *)

From Stdlib Require Import ZArith QArith Qround Reals Lra Lia Ascii.
From stdpp Require Import gmap strings list.

(** ** Python results and exceptions *)

Module Py.

Inductive exn : Type :=
| TypeError
| ValueError
| IndexError
| FileNotFoundError.

Inductive res (A : Type) : Type :=
| Ok (a : A)
| Raise (e : exn).

Arguments Ok {A} a.
Arguments Raise {A} e.

Definition bind {A B : Type} (c : res A) (k : A -> res B) : res B :=
  match c with
  | Ok a => k a
  | Raise e => Raise e
  end.

Definition returns {A : Type} (c : res A) : Prop :=
  exists a, c = Ok a.

End Py.

Export Py.

Declare Scope py_scope.
Delimit Scope py_scope with py.
Notation "x <- c ;; k" := (Py.bind c (fun x => k))
  (at level 100, c at next level, right associativity) : py_scope.
Open Scope py_scope.

(** Code with effects: a computation over a state [S] (the file system,
    the output volumes) that returns or raises; what it did to the state
    before raising stays done. *)
Definition eff (S A : Type) : Type := S -> res A * S.

Definition eff_bind {S A B : Type} (c : eff S A) (k : A -> eff S B) : eff S B :=
  fun s =>
    match c s with
    | (Ok a, s') => k a s'
    | (Raise e, s') => (Raise e, s')
    end.

Definition eff_ret {S A : Type} (a : A) : eff S A := fun s => (Ok a, s).

Definition eff_lift {S A : Type} (c : res A) : eff S A := fun s => (c, s).

Definition eff_modify {S : Type} (f : S -> S) : eff S unit := fun s => (Ok tt, f s).

Notation "x <~ c ;; k" := (eff_bind c (fun x => k))
  (at level 100, c at next level, right associativity) : py_scope.
Notation "c ;;; k" := (eff_bind c (fun _ => k))
  (at level 100, right associativity) : py_scope.

(** ** Volumes: shape, element type and backing *)

Inductive dtype : Type := uint8 | float32.

(** [chunks=True] is h5py's automatic chunking. *)
Inductive chunking : Type :=
| AutoChunks
| Chunks (c : list Z).

Inductive backing : Type :=
| MemoryMap (scratch : string)
| DiskHdf5 (file : string) (chunks : chunking).

(** A Python [slice(start, stop, step)]. *)
Record pyslice : Type := Slice {
  sl_start : option Z;
  sl_stop : option Z;
  sl_step : option Z
}.

Open Scope Z_scope.

(** ** NumPy arrays and indexing *)

(** Array data: z-planes of rows of voxels, [a[z][y][x]]. A trailing
    component axis of length 3 is the voxel type ([vec3], [rgb]). *)
Definition ndarray (A : Type) : Type := list (list (list A)).

Module Np.

Definition amap {A B : Type} (f : A -> B) (a : ndarray A) : ndarray B :=
  map (map (map f)) a.

Definition flatten {A : Type} (a : ndarray A) : list A := concat (concat a).

(** [np.max(a)]: a ValueError on an array without elements. *)
Definition max (a : ndarray Z) : res Z :=
  match flatten a with
  | [] => Raise ValueError
  | v :: vs => Ok (fold_left Z.max vs v)
  end.

(** The index range of a slice on an axis of length [n], as Python's
    [slice.indices] computes it: [(start, stop, step)]. *)
Definition slice_indices (s : pyslice) (n : Z) : res (Z * Z * Z) :=
  let step := default 1 (sl_step s) in
  if step =? 0 then Raise ValueError
  else
    let lower := if 0 <? step then 0 else -1 in
    let upper := if 0 <? step then n else n - 1 in
    let clamp (i : Z) := if i <? 0 then Z.max (i + n) lower else Z.min i upper in
    let start :=
      match sl_start s with
      | None => if 0 <? step then lower else upper
      | Some i => clamp i
      end in
    let stop :=
      match sl_stop s with
      | None => if 0 <? step then upper else lower
      | Some i => clamp i
      end in
    Ok (start, stop, step).

(** [len(range(start, stop, step))] *)
Definition range_len (start stop step : Z) : Z :=
  if 0 <? step then
    if start <? stop then (stop - start + step - 1) / step else 0
  else
    if stop <? start then (start - stop - step - 1) / (- step) else 0.

(** [a[s, ...]]: the slice [s] on the first axis. *)
Definition getitem_z {A : Type} (s : pyslice) (a : list A) : res (list A) :=
  ix <- slice_indices s (Z.of_nat (length a));;
  let '(start, stop, step) := ix in
  Ok (omap (fun k : nat => a !! Z.to_nat (start + Z.of_nat k * step))
           (seq 0 (Z.to_nat (range_len start stop step)))).

(** [a[mask] = zero] on one axis after the other: the boolean index has to
    have the shape of the indexed axes, or NumPy raises an IndexError. *)
Fixpoint mask_row {A : Type} (zero : A) (m : list bool) (r : list A) : res (list A) :=
  match m, r with
  | [], [] => Ok []
  | b :: m', v :: r' =>
      rest <- mask_row zero m' r';;
      Ok ((if b then zero else v) :: rest)
  | _, _ => Raise IndexError
  end.

Fixpoint zip_res {A B C : Type} (f : A -> B -> res C) (l : list A) (k : list B)
    : res (list C) :=
  match l, k with
  | [], [] => Ok []
  | a :: l', b :: k' =>
      c <- f a b;;
      rest <- zip_res f l' k';;
      Ok (c :: rest)
  | _, _ => Raise IndexError
  end.

Definition mask_assign {A : Type} (zero : A) (m : ndarray bool) (a : ndarray A)
    : res (ndarray A) :=
  zip_res (zip_res (mask_row zero)) m a.

Definition logical_not (m : ndarray bool) : ndarray bool := amap negb m.

(** NumPy's 64-bit integers wrap around. *)
Definition wrap64 (z : Z) : Z := (z + 2 ^ 63) mod 2 ^ 64 - 2 ^ 63.

(** [np.prod(shape)], accumulated in int64. *)
Definition prod (shape : list Z) : Z :=
  fold_left (fun acc d => wrap64 (acc * d)) shape 1.

End Np.

Definition vec3 : Type := (R * R * R)%type.
Definition rgb : Type := (Z * Z * Z)%type.

Inductive payload : Type :=
| Bytes (a : ndarray Z)
| Vectors (a : ndarray vec3)
| Colors (a : ndarray rgb).

(** An output volume. The data is kept as the sequence of indexed
    assignments [vol[rng] = data] made so far, newest first, over the
    zero fill of a fresh volume. *)
Record volume : Type := Volume {
  vol_backing : backing;
  vol_dtype : dtype;
  vol_shape : list Z;
  vol_writes : list (list pyslice * payload)
}.

(** Python values, as far as the pipeline passes them around. *)
#[warnings="-register-all"] Inductive value : Type :=
| VNone
| VBool (b : bool)
| VStr (s : string)
| VFloat (q : Q)
| VVol (v : volume)
| VTuple (vs : list value).

(** ** Paths and the file system *)

Module Path.

Definition sep : Ascii.ascii := "/"%char.

Definition startswith_sep (p : string) : bool :=
  match p with
  | String c _ => Ascii.eqb c sep
  | EmptyString => false
  end.

Fixpoint endswith_sep (p : string) : bool :=
  match p with
  | EmptyString => false
  | String c EmptyString => Ascii.eqb c sep
  | String _ p' => endswith_sep p'
  end.

(** [os.path.join(a, b)] of posixpath. *)
Definition join (a b : string) : string :=
  if startswith_sep b then b
  else if String.eqb a EmptyString || endswith_sep a then a +:+ b
  else a +:+ "/" +:+ b.

End Path.

Inductive file : Type :=
| TiffFile (data : value) (resolution : Q * Q) (spacing : value)
| NpyFile (data : value)
| NiftiFile (data : value)
| Hdf5File (dset : volume).

Abbreviation filesystem := (gmap string file).

(** [shutil.move(src, dst)] for a file [src] and a target that is not an
    existing directory: the file is renamed, its content untouched. *)
Definition shutil_move (src dst : string) (fs : filesystem) : res filesystem :=
  match fs !! src with
  | Some f => Ok (<[dst := f]> (delete src fs))
  | None => Raise FileNotFoundError
  end.

(** ** Calling a Python function: binding arguments to parameters *)

Module Call.

Record param : Type := Param {
  pname : string;
  pdefault : option value
}.

Definition slots : Type := list (param * option value).

(** Positional arguments fill the parameters from the left; one too many
    is a TypeError. *)
Fixpoint bind_positional (ps : list param) (pos : list value) : res slots :=
  match ps, pos with
  | [], [] => Ok []
  | [], _ :: _ => Raise TypeError
  | p :: ps', [] =>
      rest <- bind_positional ps' [];;
      Ok ((p, None) :: rest)
  | p :: ps', v :: pos' =>
      rest <- bind_positional ps' pos';;
      Ok ((p, Some v) :: rest)
  end.

(** A keyword argument must name a parameter that has no value yet:
    an unexpected keyword and a second value for a parameter are both
    TypeErrors. *)
Fixpoint bind_keyword (k : string) (v : value) (sl : slots) : res slots :=
  match sl with
  | [] => Raise TypeError
  | (p, o) :: rest =>
      if String.eqb (pname p) k then
        match o with
        | None => Ok ((p, Some v) :: rest)
        | Some _ => Raise TypeError
        end
      else
        rest' <- bind_keyword k v rest;;
        Ok ((p, o) :: rest')
  end.

Fixpoint bind_keywords (kw : list (string * value)) (sl : slots) : res slots :=
  match kw with
  | [] => Ok sl
  | (k, v) :: kw' =>
      sl' <- bind_keyword k v sl;;
      bind_keywords kw' sl'
  end.

(** Parameters left without a value take their default; a parameter with
    neither is a TypeError. *)
Fixpoint fill_defaults (sl : slots) : res (list value) :=
  match sl with
  | [] => Ok []
  | (p, Some v) :: rest =>
      vs <- fill_defaults rest;;
      Ok (v :: vs)
  | (p, None) :: rest =>
      match pdefault p with
      | Some d =>
          vs <- fill_defaults rest;;
          Ok (d :: vs)
      | None => Raise TypeError
      end
  end.

Definition bind_args (ps : list param) (pos : list value)
    (kw : list (string * value)) : res (list value) :=
  sl <- bind_positional ps pos;;
  sl' <- bind_keywords kw sl;;
  fill_defaults sl'.

(** A call is well-formed for a signature when its arguments bind. *)
Definition well_formed (ps : list param) (pos : list value)
    (kw : list (string * value)) : Prop :=
  returns (bind_args ps pos kw).

End Call.

(** ** output.py *)

Module Output.

Definition lower_ascii (c : ascii) : ascii :=
  let n := nat_of_ascii c in
  if (65 <=? n)%nat && (n <=? 90)%nat then ascii_of_nat (n + 32) else c.

(** [str.lower()] on ASCII text. *)
Fixpoint lower (s : string) : string :=
  match s with
  | EmptyString => EmptyString
  | String c s' => String (lower_ascii c) (lower s')
  end.

Definition as_str (v : value) : res string :=
  match v with
  | VStr s => Ok s
  | _ => Raise TypeError
  end.

Definition as_float (v : value) : res Q :=
  match v with
  | VFloat q => Ok q
  | _ => Raise TypeError
  end.

(** [a, b, c = v]: None does not unpack, a sequence of another length is a
    ValueError. *)
Definition unpack3 (v : value) : res (value * value * value) :=
  match v with
  | VTuple [a; b; c] => Ok (a, b, c)
  | VTuple _ => Raise ValueError
  | _ => Raise TypeError
  end.

(** [def save_array(fname, save_dir, nd_array, px_size=None, format='tif')] *)
Definition save_array_params : list Call.param :=
  [ Call.Param "fname" None;
    Call.Param "save_dir" None;
    Call.Param "nd_array" None;
    Call.Param "px_size" (Some VNone);
    Call.Param "format" (Some (VStr "tif")) ].

Definition write_file (p : string) (f : file) : eff filesystem unit :=
  eff_modify (fun fs : filesystem => <[p := f]> fs).

(** The body of [save_array]. The encoders (tifffile, numpy, nibabel) are
    the constructors of [file]; their own checks on the data are left out. *)
Definition save_array_body (fname save_dir : string) (nd_array px_size : value)
    (format : string) : eff filesystem unit :=
  let format := lower format in
  if String.eqb format "tif" || String.eqb format "tiff" then
    pxs <~ eff_lift (unpack3 px_size);;
    let '(px_size_z, px_size_y, px_size_x) := pxs in
    x <~ eff_lift (as_float px_size_x);;
    y <~ eff_lift (as_float px_size_y);;
    write_file (Path.join save_dir (fname +:+ "." +:+ format))
               (TiffFile nd_array (/ x, / y)%Q px_size_z)
  else if String.eqb format "npy" then
    write_file (Path.join save_dir (fname +:+ ".npy")) (NpyFile nd_array)
  else if String.eqb format "nii" then
    write_file (Path.join save_dir (fname +:+ ".nii")) (NiftiFile nd_array)
  else
    eff_lift (Raise ValueError).

(** A call of [save_array] with positional and keyword arguments. *)
Definition save_array (pos : list value) (kw : list (string * value))
    : eff filesystem unit :=
  args <~ eff_lift (Call.bind_args save_array_params pos kw);;
  match args with
  | [fname; save_dir; nd_array; px_size; format] =>
      fname <~ eff_lift (as_str fname);;
      save_dir <~ eff_lift (as_str save_dir);;
      format <~ eff_lift (as_str format);;
      save_array_body fname save_dir nd_array px_size format
  | _ => eff_lift (Raise TypeError)
  end.

End Output.


(** ** What the pipeline takes from outside these sources

    The functions of foa3d.slicing, foa3d.preprocessing, foa3d.frangi,
    foa3d.odf and foa3d.utils that the pipeline calls. The tile kernels are
    total here: an exception inside one of them would leave
    [fiber_analysis] before its first write. *)

(** [str.format] of a float and of an int. *)
Class Formatting : Type := {
  format_float : Q -> string;
  format_int : Z -> string
}.

Class TileKernels : Type := {
  image : Type;
  (* foa3d.slicing *)
  slice_channel : image -> list pyslice -> Z -> bool -> ndarray Z;
  crop_slice : forall A : Type, ndarray A -> list pyslice -> option (list (Z * Z)) -> ndarray A;
  (* foa3d.preprocessing *)
  correct_image_anisotropy :
    ndarray Z -> Q * Q * Q -> option (list Q) -> option (list (Z * Z)) ->
    ndarray R * option (list (Z * Z));
  (* foa3d.frangi *)
  frangi_filter :
    ndarray R -> list Q -> Q -> Q -> Q -> bool ->
    ndarray R * ndarray vec3 * ndarray vec3;
  (* foa3d.utils *)
  orient_colormap : ndarray vec3 -> ndarray rgb;
  vector_colormap : ndarray vec3 -> ndarray rgb;
  create_background_mask : ndarray R -> string -> ndarray bool;
  (* [a.astype(np.uint8)] on one float *)
  astype_uint8 : R -> Z
}.

(** foa3d.odf; [vxl_side] is the third-last argument of
    [estimate_odf_coeff] and the last of [generate_odf_background]. *)
Class OdfKernels : Type := {
  get_sph_harm_ncoeff : Z -> Z;
  generate_odf_background : value -> value -> Z -> res value;
  estimate_odf_coeff :
    value -> value -> value -> value -> value -> value -> value ->
    Z -> value -> Z -> res (value * value * value * value * value)
}.

(** ** pipeline.py: allocating the output volumes *)

(** Modelled from the spec: [foa3d.utils.get_item_size] is not part of these
    sources; the spec's decision rule calls its result the [itemsize] of the
    element type. *)
Definition get_item_size (d : dtype) : Z :=
  match d with
  | uint8 => 1
  | float32 => 4
  end.

(** Modelled from the spec: [foa3d.utils.create_hdf5_dset] is not part of
    these sources. By the spec it allocates a chunked disk-resident dataset
    of the shape and element type asked for; it returns the dataset and the
    path of its file, here placed in the scratch directory. *)
Definition create_hdf5_dset (shape : list Z) (d : dtype) (chunks : chunking)
    (name tmp : string) : volume * string :=
  let file_path := Path.join tmp (name +:+ ".h5") in
  (Volume (DiskHdf5 file_path chunks) d shape [], file_path).

(** Modelled from the spec: [foa3d.utils.create_memory_map] is not part of
    these sources. By the spec it allocates an addressable memory-mapped
    buffer backed by a scratch file. *)
Definition create_memory_map (shape : list Z) (d : dtype) (name tmp : string)
    (mmap_mode : string) : volume :=
  Volume (MemoryMap (Path.join tmp (name +:+ ".mmap"))) d shape [].

(** [available] is what [psutil.virtual_memory()[1]] reads at the call. *)
Definition init_volume (available : Z) (shape : list Z) (d : dtype)
    (chunks : chunking) (name tmp : string) (mmap_mode : string)
    (max_ram_mb : option Q) : volume * option string :=
  (* get maximum RAM and initialized array memory size *)
  let max_ram : Q :=
    match max_ram_mb with
    | None => inject_Z available
    | Some mb => (mb * inject_Z (1024 ^ 2))%Q
    end in
  let item_sz := get_item_size d in
  let vol_sz := Np.wrap64 (item_sz * Np.prod shape) in
  (* create memory-mapped array or HDF5 file depending on available memory *)
  if Qle_bool max_ram (inject_Z vol_sz) then
    let '(vol, hdf5_path) := create_hdf5_dset shape d chunks name tmp in
    (vol, Some hdf5_path)
  else
    (create_memory_map shape d name tmp mmap_mode, None).

(** The byte size the decision rule of the spec speaks of. *)
Definition byte_size (d : dtype) (shape : list Z) : Z :=
  get_item_size d * fold_right Z.mul 1 shape.

Definition effective_ram_budget (available : Z) (max_ram_mb : option Q) : Q :=
  match max_ram_mb with
  | None => inject_Z available
  | Some mb => (mb * inject_Z (2 ^ 20))%Q
  end.

Definition is_disk_backed (v : volume) : bool :=
  match vol_backing v with
  | DiskHdf5 _ _ => true
  | MemoryMap _ => false
  end.

(** [vol[rng] = data] on a memory map or an HDF5 dataset. *)
Definition vol_setitem (v : volume) (rng : list pyslice) (data : payload) : volume :=
  Volume (vol_backing v) (vol_dtype v) (vol_shape v) ((rng, data) :: vol_writes v).

Record frangi_volumes : Type := FrangiVolumes {
  fv_fiber_dset_path : option string;
  fv_fiber_vec_img : volume;
  fv_fiber_vec_clr : volume;
  fv_frac_anis_img : volume;
  fv_frangi_img : volume;
  fv_fiber_msk : volume;
  fv_iso_fiber_img : volume;
  fv_neuron_msk : option volume;
  fv_z_sel : pyslice
}.

Definition shape3 (s : Z * Z * Z) : list Z :=
  let '(z, y, x) := s in [z; y; x].

(** [np.ceil(resize_ratio * img_shape).astype(int)] *)
Definition resized_shape (resize_ratio : Q * Q * Q) (img_shape : Z * Z * Z) : Z * Z * Z :=
  let '(rz, ry, rx) := resize_ratio in
  let '(z, y, x) := img_shape in
  (Qceiling (rz * inject_Z z), Qceiling (ry * inject_Z y), Qceiling (rx * inject_Z x)).

(** [available name] is what psutil reads when the volume [name] is
    allocated. *)
Definition init_frangi_volumes (available : string -> Z)
    (img_shape slice_shape : Z * Z * Z) (resize_ratio : Q * Q * Q) (tmp_dir : string)
    (z_min : Z) (z_max : option Z) (lpf_soma_mask : bool) (max_ram_mb : option Q)
    : frangi_volumes :=
  (* adapt output z-axis shape if required *)
  let '(img_shape, z_max) :=
    if negb (z_min =? 0) || bool_decide (z_max <> None) then
      let z_max := default (slice_shape.1.1) z_max in
      ((z_max - z_min, img_shape.1.2, img_shape.2), Some z_max)
    else (img_shape, z_max) in
  let z_sel := Slice (Some z_min) z_max (Some 1) in
  (* output shape *)
  let img_dims := 3 in
  let dset_shape := resized_shape resize_ratio img_shape in
  let slice_shape := (dset_shape.1.1, slice_shape.1.2, slice_shape.2) in
  let alloc (shape chunks : list Z) (d : dtype) (name : string) :=
    init_volume (available name) shape d (Chunks chunks) name tmp_dir "r+" max_ram_mb in
  (* fiber channel arrays *)
  let iso_fiber_img := (alloc (shape3 dset_shape) (shape3 slice_shape) uint8 "iso_fiber").1 in
  let frangi_img := (alloc (shape3 dset_shape) (shape3 slice_shape) uint8 "frangi").1 in
  let fiber_mask := (alloc (shape3 dset_shape) (shape3 slice_shape) uint8 "fiber_msk").1 in
  let frac_anis_img := (alloc (shape3 dset_shape) (shape3 slice_shape) uint8 "frac_anis").1 in
  (* neuron channel array *)
  let neuron_msk :=
    if lpf_soma_mask
    then Some (alloc (shape3 dset_shape) (shape3 slice_shape) uint8 "neuron_msk").1
    else None in
  (* fiber orientation arrays *)
  let vec_dset_shape := shape3 dset_shape ++ [img_dims] in
  let vec_slice_shape := shape3 slice_shape ++ [img_dims] in
  let '(fiber_vec_img, fiber_dset_path) :=
    alloc vec_dset_shape vec_slice_shape float32 "fiber_vec" in
  let fiber_vec_clr := (alloc vec_dset_shape vec_slice_shape uint8 "fiber_cmap").1 in
  FrangiVolumes fiber_dset_path fiber_vec_img fiber_vec_clr frac_anis_img
                frangi_img fiber_mask iso_fiber_img neuron_msk z_sel.

(** A Python pair [(vol, hdf5_path)], as [init_volume] returns it. *)
Definition pair_value (r : volume * option string) : value :=
  VTuple [VVol r.1; from_option VStr VNone r.2].

(** [target[rng] = data] and [target[rng]] with a tuple of slices: a volume
    takes both, a Python tuple neither (it does not support item assignment,
    and its indices must be integers or slices). *)
Definition py_setitem (target : value) (rng : list pyslice) (data : payload) : res value :=
  match target with
  | VVol v => Ok (VVol (vol_setitem v rng data))
  | _ => Raise TypeError
  end.

Definition py_getitem (target : value) (rng : list pyslice) : res (volume * list pyslice) :=
  match target with
  | VVol v => Ok (v, rng)
  | _ => Raise TypeError
  end.

Record odf_volumes : Type := OdfVolumes {
  ov_odf : value;
  ov_bg_mrtrix : value;
  ov_odi_pri : value;
  ov_odi_sec : value;
  ov_odi_tot : value;
  ov_odi_anis : value;
  ov_vec_tensor_eigen : value
}.

(** [np.ceil(np.divide(vec_img_shape, odf_scale)).astype(int)] *)
Definition odi_shape_of (vec_img_shape : list Z) (odf_scale : Z) : list Z :=
  map (fun d => Qceiling (inject_Z d / inject_Z odf_scale)) vec_img_shape.

Section InitOdf.
Context `{Formatting} `{OdfKernels}.

Definition init_odf_volumes (available : string -> Z) (vec_img_shape : list Z)
    (tmp_dir : string) (odf_scale : Z) (odf_degrees : Z) (max_ram_mb : option Q)
    : odf_volumes :=
  let alloc (shape : list Z) (d : dtype) (chunks : chunking) (stem : string) :=
    let name := stem +:+ format_int odf_scale in
    init_volume (available name) shape d chunks name tmp_dir "r+" max_ram_mb in
  (* ODI maps shape *)
  let odi_shape := odi_shape_of vec_img_shape odf_scale in
  (* create downsampled background memory map *)
  let bg_shape := reverse odi_shape in
  let bg_mrtrix := alloc bg_shape uint8 (Chunks (take 2 bg_shape ++ [1])) "bg_tmp" in
  (* create ODF memory map *)
  let num_coeff := get_sph_harm_ncoeff odf_degrees in
  let odf_shape := odi_shape ++ [num_coeff] in
  let odf := alloc odf_shape float32 (Chunks [1; 1; 1; num_coeff]) "odf_tmp" in
  (* create orientation tensor memory map *)
  let vec_tensor_shape := odi_shape ++ [3] in
  let vec_tensor_eigen := alloc vec_tensor_shape float32 (Chunks [1; 1; 1; 3]) "tensor_tmp" in
  (* create ODI memory maps *)
  let odi_pri := alloc odi_shape uint8 AutoChunks "odi_pri_tmp" in
  let odi_sec := alloc odi_shape uint8 AutoChunks "odi_sec_tmp" in
  let odi_tot := alloc odi_shape uint8 AutoChunks "odi_tot_tmp" in
  let odi_anis := alloc odi_shape uint8 AutoChunks "odi_anis_tmp" in
  OdfVolumes (pair_value odf) (pair_value bg_mrtrix) (pair_value odi_pri)
             (pair_value odi_sec) (pair_value odi_tot) (pair_value odi_anis)
             (pair_value vec_tensor_eigen).

End InitOdf.

(** ** pipeline.py: the tile worker *)

(** Modelled from the spec: [foa3d.utils.divide_nonzero] is not part of
    these sources. By the spec a zero denominator is no error: the quotient
    resolves to 0 there. *)
Definition divide_nonzero (n d : R) : R :=
  if Req_dec_T d 0 then 0%R else (n / d)%R.

Definition azip {A B C : Type} (f : A -> B -> C) (a : ndarray A) (b : ndarray B)
    : ndarray C :=
  zip_with (zip_with (zip_with f)) a b.

Definition compute_fractional_anisotropy (eigenval : ndarray vec3) : ndarray R :=
  let e0 := Np.amap (fun v : vec3 => v.1.1) eigenval in
  let e1 := Np.amap (fun v : vec3 => v.1.2) eigenval in
  let e2 := Np.amap (fun v : vec3 => v.2) eigenval in
  let sq := Np.amap (fun x : R => (x ^ 2)%R) in
  let sum_sq := Np.amap (fun v : vec3 => (v.1.1 ^ 2 + v.1.2 ^ 2 + v.2 ^ 2)%R) eigenval in
  Np.amap sqrt
    (Np.amap (Rmult (5 / 10))
       (azip divide_nonzero
          (azip Rplus
             (azip Rplus (sq (azip Rminus e0 e1)) (sq (azip Rminus e0 e2)))
             (sq (azip Rminus e1 e2)))
          sum_sq)).

Record outputs : Type := Outputs {
  fiber_vec_img : volume;
  fiber_vec_clr : volume;
  frac_anis_img : volume;
  frangi_img : volume;
  iso_fiber_img : volume;
  fiber_msk : volume;
  neuron_msk : option volume
}.

Definition set_fiber_vec_img (rng : list pyslice) (d : payload) : eff outputs unit :=
  eff_modify (fun o =>
    Outputs (vol_setitem (fiber_vec_img o) rng d) (fiber_vec_clr o) (frac_anis_img o)
            (frangi_img o) (iso_fiber_img o) (fiber_msk o) (neuron_msk o)).

Definition set_fiber_vec_clr (rng : list pyslice) (d : payload) : eff outputs unit :=
  eff_modify (fun o =>
    Outputs (fiber_vec_img o) (vol_setitem (fiber_vec_clr o) rng d) (frac_anis_img o)
            (frangi_img o) (iso_fiber_img o) (fiber_msk o) (neuron_msk o)).

Definition set_frac_anis_img (rng : list pyslice) (d : payload) : eff outputs unit :=
  eff_modify (fun o =>
    Outputs (fiber_vec_img o) (fiber_vec_clr o) (vol_setitem (frac_anis_img o) rng d)
            (frangi_img o) (iso_fiber_img o) (fiber_msk o) (neuron_msk o)).

Definition set_frangi_img (rng : list pyslice) (d : payload) : eff outputs unit :=
  eff_modify (fun o =>
    Outputs (fiber_vec_img o) (fiber_vec_clr o) (frac_anis_img o)
            (vol_setitem (frangi_img o) rng d) (iso_fiber_img o) (fiber_msk o) (neuron_msk o)).

Definition set_iso_fiber_img (rng : list pyslice) (d : payload) : eff outputs unit :=
  eff_modify (fun o =>
    Outputs (fiber_vec_img o) (fiber_vec_clr o) (frac_anis_img o)
            (frangi_img o) (vol_setitem (iso_fiber_img o) rng d) (fiber_msk o) (neuron_msk o)).

Definition set_fiber_msk (rng : list pyslice) (d : payload) : eff outputs unit :=
  eff_modify (fun o =>
    Outputs (fiber_vec_img o) (fiber_vec_clr o) (frac_anis_img o)
            (frangi_img o) (iso_fiber_img o) (vol_setitem (fiber_msk o) rng d) (neuron_msk o)).

(** [neuron_msk[rng] = d]: None does not support item assignment. *)
Definition set_neuron_msk (rng : list pyslice) (d : payload) : eff outputs unit :=
  fun o =>
    match neuron_msk o with
    | Some v =>
        (Ok tt,
         Outputs (fiber_vec_img o) (fiber_vec_clr o) (frac_anis_img o)
                 (frangi_img o) (iso_fiber_img o) (fiber_msk o)
                 (Some (vol_setitem v rng d)))
    | None => (Raise TypeError, o)
    end.

Section TileWorker.
Context `{TileKernels}.

Definition mask_background (img : ndarray R) (fiber_vec_slice : ndarray vec3)
    (orientcol_slice : ndarray rgb) (frac_anis_slice : option (ndarray R))
    (thresh_method : string) (invert : bool)
    : res (ndarray vec3 * ndarray rgb * option (ndarray R) * ndarray bool) :=
  (* generate background mask *)
  let background := create_background_mask img thresh_method in
  (* invert mask *)
  let background := if invert then Np.logical_not background else background in
  (* apply mask to input arrays *)
  fiber_vec_slice <- Np.mask_assign (0, 0, 0)%R background fiber_vec_slice;;
  orientcol_slice <- Np.mask_assign (0, 0, 0) background orientcol_slice;;
  (* (optional) mask fractional anisotropy *)
  match frac_anis_slice with
  | Some frac_anis_slice =>
      frac_anis_slice <- Np.mask_assign 0%R background frac_anis_slice;;
      Ok (fiber_vec_slice, orientcol_slice, Some frac_anis_slice, background)
  | None =>
      Ok (fiber_vec_slice, orientcol_slice, None, background)
  end.

Definition fiber_analysis (img : image) (rng_in rng_in_neu rng_out : list pyslice)
    (pad_mat : list (Z * Z)) (smooth_sigma : option (list Q)) (scales_px : list Q)
    (px_rsz_ratio : Q * Q * Q) (z_sel : pyslice)
    (ch_neuron ch_fiber : Z) (alpha beta gamma : Q)
    (dark orient_cmap lpf_soma_mask mosaic : bool) : eff outputs unit :=
  (* slice fiber image slice *)
  let fiber_slice := slice_channel img rng_in ch_fiber mosaic in
  (* skip background slice *)
  m <~ eff_lift (Np.max fiber_slice);;
  if negb (m =? 0) then
    (* preprocess fiber slice *)
    let '(iso_fiber_slice, rsz_pad_mat) :=
      correct_image_anisotropy fiber_slice px_rsz_ratio smooth_sigma (Some pad_mat) in
    (* 3D Frangi filter *)
    let '(frangi_slice, fiber_vec_slice, eigenval_slice) :=
      frangi_filter iso_fiber_slice scales_px alpha beta gamma dark in
    (* crop resulting slices *)
    let iso_fiber_slice := crop_slice _ iso_fiber_slice rng_out rsz_pad_mat in
    let frangi_slice := crop_slice _ frangi_slice rng_out rsz_pad_mat in
    let fiber_vec_slice := crop_slice _ fiber_vec_slice rng_out rsz_pad_mat in
    let eigenval_slice := crop_slice _ eigenval_slice rng_out rsz_pad_mat in
    (* generate fractional anisotropy image *)
    let frac_anis_slice := compute_fractional_anisotropy eigenval_slice in
    (* generate RGB orientation color map *)
    let orientcol_slice :=
      if orient_cmap then orient_colormap fiber_vec_slice
      else vector_colormap fiber_vec_slice in
    (* mask background *)
    masked <~ eff_lift (mask_background frangi_slice fiber_vec_slice orientcol_slice
                                        None "li" false);;
    let '(fiber_vec_slice, orientcol_slice, _, fiber_mask_slice) := masked in
    (* (optional) neuronal body masking *)
    soma <~ (if lpf_soma_mask then
               (* get neuron image slice *)
               let neuron_slice := slice_channel img rng_in_neu ch_neuron mosaic in
               (* resize neuron slice (lateral blurring and downsampling) *)
               let iso_neuron_slice :=
                 (correct_image_anisotropy neuron_slice px_rsz_ratio None None).1 in
               (* crop isotropized neuron slice *)
               let iso_neuron_slice := crop_slice _ iso_neuron_slice rng_out None in
               (* mask neuronal bodies *)
               masked <~ eff_lift (mask_background iso_neuron_slice fiber_vec_slice
                                     orientcol_slice (Some frac_anis_slice) "yen" true);;
               let '(fiber_vec_slice, orientcol_slice, frac_anis_masked, neuron_mask_slice) :=
                 masked in
               (* fill memory-mapped output neuron mask *)
               sel <~ eff_lift (Np.getitem_z z_sel neuron_mask_slice);;
               set_neuron_msk rng_out (Bytes (Np.amap (fun b : bool => 255 * Z.b2z b) sel));;;
               eff_ret (fiber_vec_slice, orientcol_slice,
                        default frac_anis_slice frac_anis_masked)
             else eff_ret (fiber_vec_slice, orientcol_slice, frac_anis_slice));;
    let '(fiber_vec_slice, orientcol_slice, frac_anis_slice) := soma in
    (* fill memory-mapped output arrays *)
    let vec_rng_out := rng_out ++ [Slice (Some 0) (Some 3) (Some 1)] in
    sel <~ eff_lift (Np.getitem_z z_sel fiber_vec_slice);;
    set_fiber_vec_img vec_rng_out (Vectors sel);;;
    sel <~ eff_lift (Np.getitem_z z_sel orientcol_slice);;
    set_fiber_vec_clr vec_rng_out (Colors sel);;;
    sel <~ eff_lift (Np.getitem_z z_sel iso_fiber_slice);;
    set_iso_fiber_img rng_out (Bytes (Np.amap astype_uint8 sel));;;
    sel <~ eff_lift (Np.getitem_z z_sel frac_anis_slice);;
    set_frac_anis_img rng_out (Bytes (Np.amap (fun x : R => astype_uint8 (255 * x)%R) sel));;;
    sel <~ eff_lift (Np.getitem_z z_sel frangi_slice);;
    set_frangi_img rng_out (Bytes (Np.amap (fun x : R => astype_uint8 (255 * x)%R) sel));;;
    sel <~ eff_lift (Np.getitem_z z_sel fiber_mask_slice);;
    set_fiber_msk rng_out (Bytes (Np.amap (fun b : bool => 255 * (1 - Z.b2z b)) sel))
  else
    eff_ret tt.

End TileWorker.

(** ** pipeline.py: saving the results *)

Section Saving.
Context `{Formatting}.

(** ['fiber_vec_{0}'.format(img_name)] and the like. *)
Definition frangi_name (stem img_name : string) : string :=
  stem +:+ "_" +:+ img_name.

(** ['odi_pri_sv{0}_{1}'.format(odf_scale_um, img_name)] and the like. *)
Definition odf_name (stem : string) (odf_scale_um : Q) (img_name : string) : string :=
  stem +:+ "_sv" +:+ format_float odf_scale_um +:+ "_" +:+ img_name.

Definition save_frangi_arrays (fiber_dset_path : option string)
    (fiber_vec_img fiber_vec_clr frac_anis_img frangi_img fiber_msk neuron_msk
       px_size : value)
    (save_dir img_name : string) : eff filesystem unit :=
  (* move large fiber orientation dataset to saving directory,
     or save orientation vectors to NumPy file *)
  match fiber_dset_path with
  | Some fiber_dset_path =>
      fun fs =>
        match shutil_move fiber_dset_path
                (Path.join save_dir (frangi_name "fiber_vec" img_name +:+ ".h5")) fs with
        | Ok fs' => (Ok tt, fs')
        | Raise e => (Raise e, fs)
        end
  | None =>
      Output.save_array
        [VStr (frangi_name "fiber_vec" img_name); VStr save_dir; fiber_vec_img]
        [("format", VStr "npy")]
  end;;;
  (* save orientation color map to TIF *)
  Output.save_array
    [VStr (frangi_name "fiber_cmap" img_name); VStr save_dir; fiber_vec_clr; px_size] [];;;
  (* save fractional anisotropy map to TIF *)
  Output.save_array
    [VStr (frangi_name "frac_anis" img_name); VStr save_dir; frac_anis_img; px_size] [];;;
  (* save Frangi-enhanced fiber volume to TIF *)
  Output.save_array
    [VStr (frangi_name "frangi" img_name); VStr save_dir; frangi_img; px_size] [];;;
  (* save masked fiber volume to TIF *)
  Output.save_array
    [VStr (frangi_name "fiber_msk" img_name); VStr save_dir; fiber_msk; px_size] [];;;
  (* save masked neuron volume to TIF *)
  match neuron_msk with
  | VNone => eff_ret tt
  | _ =>
      Output.save_array
        [VStr (frangi_name "neuron_msk" img_name); VStr save_dir; neuron_msk; px_size] []
  end.

Definition save_odf_arrays (odf bg odi_pri odi_sec odi_tot odi_anis px_size : value)
    (save_dir img_name : string) (odf_scale_um : Q) : eff filesystem unit :=
  (* ODF analysis volumes to Nifti files (adjusted view for MRtrix3) *)
  Output.save_array
    [VStr (odf_name "bg_mrtrixview" odf_scale_um img_name); VStr save_dir; bg]
    [("format", VStr "nii")];;;
  Output.save_array
    [VStr (odf_name "odf_mrtrixview" odf_scale_um img_name); VStr save_dir; odf]
    [("format", VStr "nii")];;;
  Output.save_array
    [VStr (odf_name "odi_pri" odf_scale_um img_name); VStr save_dir; odi_pri; px_size]
    [("odi", VBool true)];;;
  Output.save_array
    [VStr (odf_name "odi_sec" odf_scale_um img_name); VStr save_dir; odi_sec; px_size]
    [("odi", VBool true)];;;
  Output.save_array
    [VStr (odf_name "odi_tot" odf_scale_um img_name); VStr save_dir; odi_tot; px_size]
    [("odi", VBool true)];;;
  Output.save_array
    [VStr (odf_name "odi_anis" odf_scale_um img_name); VStr save_dir; odi_anis; px_size]
    [("odi", VBool true)].

End Saving.

(** ** pipeline.py: the ODF stage *)

Definition px_value (px_size : Q * Q * Q) : value :=
  VTuple [VFloat px_size.1.1; VFloat px_size.1.2; VFloat px_size.2].

(** [int(np.ceil(odf_scale_um / px_size_iso[0]))] *)
Definition odf_kernel_size (odf_scale_um : Q) (px_size_iso : Q * Q * Q) : Z :=
  Qceiling (odf_scale_um / px_size_iso.1.1).

Section OdfStage.
Context `{Formatting} `{OdfKernels}.

Definition odf_analysis (available : string -> Z)
    (fiber_vec_img : volume) (iso_fiber_img : option volume)
    (px_size_iso : Q * Q * Q) (save_dir tmp_dir img_name : string)
    (odf_scale_um : Q) (odf_norm : value) (odf_degrees : Z) (max_ram_mb : option Q)
    : eff filesystem unit :=
  (* get info on the input volume of orientation vectors *)
  let vec_img_shape := vol_shape fiber_vec_img in
  (* derive the ODF kernel size in [px] *)
  let odf_scale := odf_kernel_size odf_scale_um px_size_iso in
  (* initialize ODF analysis output volumes *)
  let vols :=
    init_odf_volumes available (removelast vec_img_shape) tmp_dir odf_scale
                     odf_degrees max_ram_mb in
  (* generate downsampled background for MRtrix3 mrview *)
  bg_mrtrix <~ eff_lift
    (match iso_fiber_img with
     | None => generate_odf_background (VVol fiber_vec_img) (ov_bg_mrtrix vols) odf_scale
     | Some iso => generate_odf_background (VVol iso) (ov_bg_mrtrix vols) odf_scale
     end);;
  (* compute ODF coefficients *)
  coeff <~ eff_lift
    (estimate_odf_coeff (VVol fiber_vec_img) (ov_odf vols) (ov_odi_pri vols)
       (ov_odi_sec vols) (ov_odi_tot vols) (ov_odi_anis vols)
       (ov_vec_tensor_eigen vols) odf_scale odf_norm odf_degrees);;
  let '(odf, odi_pri, odi_sec, odi_tot, odi_anis) := coeff in
  (* save memory maps to file *)
  save_odf_arrays odf bg_mrtrix odi_pri odi_sec odi_tot odi_anis
                  (px_value px_size_iso) save_dir img_name odf_scale_um.

End OdfStage.

(** ** Notions the properties are stated with *)

(** The voxel [a[z][y][x]], if the index is in range. *)
Definition voxel {A : Type} (a : ndarray A) (z y x : nat) : option A :=
  match (a : list (list (list A))) !! z with
  | Some plane =>
      match plane !! y with
      | Some row => row !! x
      | None => None
      end
  | None => None
  end.

(** Two arrays have the same (Z, Y, X) shape. *)
Definition same_shape {A B : Type} (a : ndarray A) (b : ndarray B) : Prop :=
  Forall2 (Forall2 (fun (r : list A) (s : list B) => length r = length s)) a b.

(** The fractional anisotropy of one eigenvalue triplet in the words of the
    spec, the quotient being 0 where the denominator is 0. *)
Definition fa_formula (l : vec3) : R :=
  let '(l0, l1, l2) := l in
  let num := ((l0 - l1) ^ 2 + (l0 - l2) ^ 2 + (l1 - l2) ^ 2)%R in
  let den := (l0 ^ 2 + l1 ^ 2 + l2 ^ 2)%R in
  sqrt (5 / 10 * (if Req_dec_T den 0 then 0 else num / den))%R.

(** The output volumes of the tile worker, and a write-back that crops to
    the selected z-range at write time: each pending slice is restricted by
    [z_sel] and then assigned to its volume at the tile's output range. *)
Inductive out_field : Type :=
| FiberVec | FiberClr | FracAnis | Frangi | IsoFiber | FiberMsk | NeuronMsk.

Definition set_field (f : out_field) : list pyslice -> payload -> eff outputs unit :=
  match f with
  | FiberVec => set_fiber_vec_img
  | FiberClr => set_fiber_vec_clr
  | FracAnis => set_frac_anis_img
  | Frangi => set_frangi_img
  | IsoFiber => set_iso_fiber_img
  | FiberMsk => set_fiber_msk
  | NeuronMsk => set_neuron_msk
  end.

Definition crop_payload (z_sel : pyslice) (p : payload) : res payload :=
  match p with
  | Bytes a => a' <- Np.getitem_z z_sel a;; Ok (Bytes a')
  | Vectors a => a' <- Np.getitem_z z_sel a;; Ok (Vectors a')
  | Colors a => a' <- Np.getitem_z z_sel a;; Ok (Colors a')
  end.

Fixpoint write_back (z_sel : pyslice)
    (pending : list (out_field * list pyslice * payload)) : eff outputs unit :=
  match pending with
  | [] => eff_ret tt
  | (f, rng, p) :: rest =>
      p' <~ eff_lift (crop_payload z_sel p);;
      set_field f rng p';;;
      write_back z_sel rest
  end.

(** The z-extent of the image that the output volumes are sized from: the
    forced range's [z_max - z_min], with [z_max] defaulting to the slice
    depth, or the full depth when no range is forced. *)
Definition output_depth (img_shape slice_shape : Z * Z * Z) (z_min : Z)
    (z_max : option Z) : Z :=
  match z_max with
  | Some z_max => z_max - z_min
  | None => if z_min =? 0 then img_shape.1.1 else slice_shape.1.1 - z_min
  end.

(** The TIFF files that [save_frangi_arrays] writes next to the orientation
    vectors. *)
Definition frangi_tif_paths (save_dir img_name : string) : list string :=
  map (fun stem => Path.join save_dir (frangi_name stem img_name +:+ ".tif"))
      ["fiber_cmap"; "frac_anis"; "frangi"; "fiber_msk"; "neuron_msk"].

(** The backings of the output volumes of the tile worker. *)
Definition backings (o : outputs) : list (option backing) :=
  [Some (vol_backing (fiber_vec_img o)); Some (vol_backing (fiber_vec_clr o));
   Some (vol_backing (frac_anis_img o)); Some (vol_backing (frangi_img o));
   Some (vol_backing (iso_fiber_img o)); Some (vol_backing (fiber_msk o));
   vol_backing <$> neuron_msk o].

(** The volume of a value that is a volume, or a tuple that starts with
    one. *)
Definition first_volume (v : value) : option volume :=
  match v with
  | VVol vol => Some vol
  | VTuple (VVol vol :: _) => Some vol
  | _ => None
  end.

(** Two sets of ODF kernels that do the same when called with the cell
    side [s] on the volumes allocated for [s]. *)
Definition agree_at_scale `{Formatting} (K1 K2 : OdfKernels)
    (available : string -> Z) (fiber_vec_img : volume) (tmp_dir : string)
    (s odf_degrees : Z) (max_ram_mb : option Q) : Prop :=
  let vols := @init_odf_volumes _ K1 available (removelast (vol_shape fiber_vec_img))
                tmp_dir s odf_degrees max_ram_mb in
  (forall deg, @get_sph_harm_ncoeff K1 deg = @get_sph_harm_ncoeff K2 deg) /\
  (forall img, @generate_odf_background K1 img (ov_bg_mrtrix vols) s
               = @generate_odf_background K2 img (ov_bg_mrtrix vols) s) /\
  (forall norm,
      @estimate_odf_coeff K1 (VVol fiber_vec_img) (ov_odf vols) (ov_odi_pri vols)
        (ov_odi_sec vols) (ov_odi_tot vols) (ov_odi_anis vols)
        (ov_vec_tensor_eigen vols) s norm odf_degrees
      = @estimate_odf_coeff K2 (VVol fiber_vec_img) (ov_odf vols) (ov_odi_pri vols)
          (ov_odi_sec vols) (ov_odi_tot vols) (ov_odi_anis vols)
          (ov_vec_tensor_eigen vols) s norm odf_degrees).

(** Stand-ins for the outside functions, to run the pipeline on small
    inputs: the image is its own fiber channel, the filters return
    constant data. *)
Definition plain_formatting : Formatting :=
  {| format_float := fun _ => "25.0"; format_int := fun _ => "5" |}.

Definition plain_kernels : TileKernels :=
  {| image := ndarray Z;
     slice_channel := fun img _ _ _ => img;
     crop_slice := fun _ a _ _ => a;
     correct_image_anisotropy := fun a _ _ pad => (Np.amap IZR a, pad);
     frangi_filter := fun a _ _ _ _ _ =>
       (a, Np.amap (fun _ => (0, 0, 1)%R) a, Np.amap (fun _ => (1, 1, 0)%R) a);
     orient_colormap := Np.amap (fun _ => (0, 0, 255));
     vector_colormap := Np.amap (fun _ => (0, 0, 255));
     create_background_mask := fun a _ => Np.amap (fun _ => false) a;
     astype_uint8 := fun _ => 0 |}.

Definition plain_odf_kernels : OdfKernels :=
  {| get_sph_harm_ncoeff := fun deg => (deg + 1) * (deg + 2) / 2;
     generate_odf_background := fun _ bg _ => Ok bg;
     estimate_odf_coeff := fun _ odf pri sec tot anis _ _ _ _ =>
       Ok (odf, pri, sec, tot, anis) |}.

(** ** Python strings *)

Module Str.

(** [s.split(c)] for a one-character separator: never an empty list. *)
Fixpoint split_on (c : ascii) (s : string) : list string :=
  match s with
  | EmptyString => [EmptyString]
  | String a s' =>
      let rest := split_on c s' in
      if Ascii.eqb a c then EmptyString :: rest
      else match rest with
           | h :: t => String a h :: t
           | [] => [String a EmptyString]
           end
  end.

(** [s.replace(old, new)] for a non-empty [old]: the occurrences of [old]
    are found from the left and do not overlap; [skip] counts the
    characters of an occurrence still to be dropped. *)
Fixpoint replace_from (old new s : string) (skip : nat) : string :=
  match s with
  | EmptyString => EmptyString
  | String a s' =>
      match skip with
      | S k => replace_from old new s' k
      | O =>
          if String.prefix old s
          then new +:+ replace_from old new s' (String.length old - 1)
          else String a (replace_from old new s' 0)
      end
  end.

Definition replace (old new s : string) : string := replace_from old new s 0.

(** [os.path.basename(p)]: what follows the last slash. *)
Definition basename (p : string) : string :=
  List.last (split_on "/" p) EmptyString.

Fixpoint has_char (c : ascii) (s : string) : bool :=
  match s with
  | EmptyString => false
  | String a s' => Ascii.eqb a c || has_char c s'
  end.

End Str.

(** ** input.py

    Console output is left out of these functions. *)

Module Input.

Record cli_args : Type := CliArgs {
  image_path : string;
  alpha : Q;
  beta : Q;
  gamma : option Q;
  scales : list Q;
  neuron_mask : bool;
  jobs : option Z;
  ram : option Q;
  mmap : bool;
  px_size_xy : Q;
  px_size_z : Q;
  psf_fwhm_x : Q;
  psf_fwhm_y : Q;
  psf_fwhm_z : Q;
  ch_fiber : Z;
  ch_neuron : Z;
  z_min : Q;
  z_max : option Q;
  odf_res : option (list Q);
  odf_deg : Z
}.

(** [np.delete(a, obj)] for an integer [obj]: a negative index counts from
    the end, an index out of range is an IndexError. *)
Definition np_delete {A : Type} (a : list A) (obj : Z) : res (list A) :=
  let n := Z.of_nat (length a) in
  if (obj <? - n) || (n <=? obj) then Raise IndexError
  else Ok (delete (Z.to_nat (if obj <? 0 then obj + n else obj)) a).

(** [np.multiply(img_shape, px_size)] with a pixel size of three entries:
    shapes of one or three entries broadcast, others are a ValueError. *)
Definition np_multiply (img_shape : list Z) (px_size : Q * Q * Q) : res (list Q) :=
  let '(pz, py, px) := px_size in
  match img_shape with
  | [s] => Ok [inject_Z s * pz; inject_Z s * py; inject_Z s * px]%Q
  | [sz; sy; sx] => Ok [inject_Z sz * pz; inject_Z sy * py; inject_Z sx * px]%Q
  | _ => Raise ValueError
  end.

Section ImageInfo.

Variable img_t : Type.
(** [img.shape], and [foa3d.utils.get_item_bytes], which is not part of
    these sources. *)
Variable shape_of : img_t -> list Z.
Variable get_item_bytes : img_t -> Z.

Definition get_image_info (img : img_t) (px_size : Q * Q * Q) (ch_fiber : option Z)
    (mosaic : bool) (ch_axis : option Z)
    : res (list Z * list Q * Z * option Z) :=
  (* adapt channel axis *)
  let img_shape := shape_of img in
  let ndim := length img_shape in
  let '(ch_axis, ch_fiber) :=
    if (ndim =? 4)%nat then (Some (if mosaic then 1 else -1), ch_fiber)
    else if (ndim =? 3)%nat then (ch_axis, None)
    else (ch_axis, ch_fiber) in
  (* get info on microscopy volume image *)
  img_shape <- match ch_axis with
               | Some ax => np_delete img_shape ax
               | None => Ok img_shape
               end;;
  img_shape_um <- np_multiply img_shape px_size;;
  let img_item_size := get_item_bytes img in
  Ok (img_shape, img_shape_um, img_item_size, ch_fiber).

End ImageInfo.

Definition get_image_file (args : cli_args)
    : res (string * string * string * bool * bool) :=
  (* get microscopy image path and name *)
  let in_mmap := mmap args in
  let img_path := image_path args in
  let img_name := Str.basename img_path in
  let split_name := Str.split_on "." img_name in
  (* check image format *)
  if (length split_name =? 1)%nat then Raise ValueError
  else
    let img_fmt := List.last split_name EmptyString in
    let img_name := Str.replace ("." +:+ img_fmt) EmptyString img_name in
    let mosaic := String.eqb img_fmt "yml" in
    Ok (img_path, img_name, img_fmt, mosaic, in_mmap).

(** Console output aside, [get_resolution] only arranges its arguments. *)
Definition get_resolution (args : cli_args) (vector : bool)
    : (Q * Q * Q) * (Q * Q * Q) :=
  let px_size := (px_size_z args, px_size_xy args, px_size_xy args) in
  let psf_fwhm := (psf_fwhm_z args, psf_fwhm_y args, psf_fwhm_x args) in
  (px_size, psf_fwhm).

(** [int(np.floor(a / b))] and [int(np.ceil(a / b))] for floats, [b] a
    NumPy float: a zero [b] gives nan or an infinity, which [int] refuses
    with a ValueError and an OverflowError. *)
Inductive int_error : Type :=
| NanToInt
| InfToInt.

Definition int_of_quotient (round : Q -> Z) (a b : Q) : int_error + Z :=
  if Qeq_bool b 0 then
    if Qeq_bool a 0 then inl NanToInt else inl InfToInt
  else inr (round (a / b)%Q).

Record pipeline_config : Type := PipelineConfig {
  cfg_alpha : Q;
  cfg_beta : Q;
  cfg_gamma : option Q;
  cfg_scales_um : list Q;
  cfg_smooth_sigma : option (list Q);
  cfg_px_size : Q * Q * Q;
  cfg_px_size_iso : Q * Q * Q;
  cfg_odf_scales_um : option (list Q);
  cfg_odf_degrees : Z;
  cfg_z_min : Z;
  cfg_z_max : option Z;
  cfg_ch_neuron : Z;
  cfg_ch_fiber : Z;
  cfg_lpf_soma_mask : bool;
  cfg_max_ram_mb : option Q;
  cfg_jobs : option Z;
  cfg_img_name : string
}.

Section PipelineConfig.

(** [foa3d.preprocessing.config_anisotropy_correction] and
    [foa3d.utils.get_output_prefix] are not part of these sources. *)
Variable config_anisotropy_correction :
  Q * Q * Q -> Q * Q * Q -> bool -> option (list Q) * (Q * Q * Q).
Variable get_output_prefix : list Q -> Q -> Q -> option Q -> string.

Definition get_pipeline_config (args : cli_args) (vector : bool) (img_name : string)
    : int_error + pipeline_config :=
  (* Frangi filter parameters *)
  let alpha := alpha args in
  let beta := beta args in
  let gamma := gamma args in
  let scales_um := scales args in
  (* pipeline parameters *)
  let lpf_soma_mask := neuron_mask args in
  let ch_neuron := ch_neuron args in
  let ch_fiber := ch_fiber args in
  let max_ram := ram args in
  let max_ram_mb := match max_ram with
                    | None => None
                    | Some r => Some (r * 1000)%Q
                    end in
  let jobs := jobs args in
  (* ODF parameters *)
  let odf_scales_um := odf_res args in
  let odf_degrees := odf_deg args in
  (* microscopy image pixel size and PSF FWHM *)
  let '(px_size, psf_fwhm) := get_resolution args vector in
  (* forced output z-range *)
  match int_of_quotient Qfloor (z_min args) px_size.1.1 with
  | inl e => inl e
  | inr z_min =>
      match
        match z_max args with
        | None => inr None
        | Some z =>
            match int_of_quotient Qceiling z px_size.1.1 with
            | inl e => inl e
            | inr z => inr (Some z)
            end
        end
      with
      | inl e => inl e
      | inr z_max =>
          (* preprocessing configuration *)
          let '(smooth_sigma, px_size_iso) :=
            config_anisotropy_correction px_size psf_fwhm vector in
          (* add pipeline configuration prefix to output filenames *)
          let img_name :=
            if negb vector
            then get_output_prefix scales_um alpha beta gamma +:+ "img" +:+ img_name
            else img_name in
          inr (PipelineConfig alpha beta gamma scales_um smooth_sigma px_size
                 px_size_iso odf_scales_um odf_degrees z_min z_max ch_neuron
                 ch_fiber lpf_soma_mask max_ram_mb jobs img_name)
      end
  end.

End PipelineConfig.

End Input.

(** ** printing.py

    What a function prints is the list of the lines it hands to [print],
    each a template with the numbers formatted into it. *)

Module Printing.

Definition console : Type := list (string * list Q).

Definition print (template : string) (args : list Q) : eff console unit :=
  eff_modify (fun out : console => out ++ [(template, args)]).

(** [a[i]] on a sequence, for an index that is not negative. *)
Definition item {A : Type} (a : list A) (i : nat) : res A :=
  match a !! i with
  | Some v => Ok v
  | None => Raise IndexError
  end.

Definition print_volume_shape (args : Input.cli_args) (volume_shape : list Z)
    (mosaic : bool) : eff console unit :=
  (* retrieve TPFM pixel size *)
  let px_size_z := Input.px_size_z args in
  let px_size_xy := Input.px_size_xy args in
  (* adapt axis order *)
  let channel_axis := if mosaic then 1 else -1 in
  (* get volume shape *)
  volume_shape <~ eff_lift (Input.np_delete volume_shape channel_axis);;
  print "\n                                Z      Y      X" [];;;
  s0 <~ eff_lift (item volume_shape 0);;
  s1 <~ eff_lift (item volume_shape 1);;
  s2 <~ eff_lift (item volume_shape 2);;
  print "  Volume shape         [μm]: ({0:.1f}, {1:.1f}, {2:.1f})"
        [inject_Z s0 * px_size_z; inject_Z s1 * px_size_xy; inject_Z s2 * px_size_xy]%Q.

Definition any_less (a b : Q * Q * Q) : bool :=
  negb (Qle_bool b.1.1 a.1.1) || negb (Qle_bool b.1.2 a.1.2) || negb (Qle_bool b.2 a.2).

(** [np.prod(np.divide(shape_um, px_size))] *)
Definition voxel_count (shape_um px_size : Q * Q * Q) : Q :=
  ((shape_um.1.1 / px_size.1.1) * (shape_um.1.2 / px_size.1.2)
   * (shape_um.2 / px_size.2))%Q.

Definition print_slicing_info (volume_shape_um slice_shape_um px_size : Q * Q * Q)
    (volume_item_size : Z) : eff console unit :=
  (* adjust slice shape *)
  let slice_shape_um :=
    if any_less volume_shape_um slice_shape_um then volume_shape_um
    else slice_shape_um in
  (* get volume memory size *)
  let volume_size := (inject_Z volume_item_size * voxel_count volume_shape_um px_size)%Q in
  (* get slice memory size *)
  let max_slice_size := (inject_Z volume_item_size * voxel_count slice_shape_um px_size)%Q in
  (* print info *)
  print "\n                                Z      Y      X" [];;;
  print "  Total volume shape   [μm]: ({0:.1f}, {1:.1f}, {2:.1f})"
        [volume_shape_um.1.1; volume_shape_um.1.2; volume_shape_um.2];;;
  print "  Total volume size    [MB]: {0}\n"
        [inject_Z (Qceiling (volume_size / inject_Z (1024 ^ 2)))];;;
  print "  Basic slice shape    [μm]: ({0:.1f}, {1:.1f}, {2:.1f})"
        [slice_shape_um.1.1; slice_shape_um.1.2; slice_shape_um.2];;;
  print "  Basic slice size     [MB]: {0}\n"
        [inject_Z (Qceiling (max_slice_size / inject_Z (1024 ^ 2)))].

End Printing.

(** ** pipeline.py: the tiles in turn

    The [Parallel] call of [parallel_frangi_on_slices]: [fiber_analysis] on
    the tiles [0 .. tot_slice_num - 1], here one after the other in the
    order they are submitted; a tile that raises ends the stage. *)

Section TileLoop.
Context `{TileKernels}.

Definition list_item {A : Type} (l : list A) (i : nat) : res A :=
  match l !! i with
  | Some v => Ok v
  | None => Raise IndexError
  end.

Fixpoint frangi_on_tiles (img : image)
    (rng_in_lst rng_in_neu_lst rng_out_lst : list (list pyslice))
    (pad_mat_lst : list (list (Z * Z)))
    (smooth_sigma : option (list Q)) (scales_px : list Q)
    (px_rsz_ratio : Q * Q * Q) (z_sel : pyslice)
    (ch_neuron ch_fiber : Z) (alpha beta gamma : Q)
    (dark orient_cmap lpf_soma_mask mosaic : bool)
    (tiles : list nat) : eff outputs unit :=
  match tiles with
  | [] => eff_ret tt
  | i :: rest =>
      rng_in <~ eff_lift (list_item rng_in_lst i);;
      rng_in_neu <~ eff_lift (list_item rng_in_neu_lst i);;
      rng_out <~ eff_lift (list_item rng_out_lst i);;
      pad_mat <~ eff_lift (list_item pad_mat_lst i);;
      fiber_analysis img rng_in rng_in_neu rng_out pad_mat smooth_sigma scales_px
        px_rsz_ratio z_sel ch_neuron ch_fiber alpha beta gamma
        dark orient_cmap lpf_soma_mask mosaic;;;
      frangi_on_tiles img rng_in_lst rng_in_neu_lst rng_out_lst pad_mat_lst
        smooth_sigma scales_px px_rsz_ratio z_sel ch_neuron ch_fiber
        alpha beta gamma dark orient_cmap lpf_soma_mask mosaic rest
  end.

End TileLoop.

(** ** More notions the properties are stated with *)

(** The array a saved file holds. *)
Definition file_data (f : file) : option value :=
  match f with
  | TiffFile data _ _ => Some data
  | NpyFile data => Some data
  | NiftiFile data => Some data
  | Hdf5File _ => None
  end.

(** The range a tile writes in each output volume: its output range, with
    the three components appended for the vector volumes. *)
Definition field_range (rng_out : list pyslice) (f : out_field) : list pyslice :=
  match f with
  | FiberVec | FiberClr => rng_out ++ [Slice (Some 0) (Some 3) (Some 1)]
  | _ => rng_out
  end.

Definition field_volume (f : out_field) (o : outputs) : option volume :=
  match f with
  | FiberVec => Some (fiber_vec_img o)
  | FiberClr => Some (fiber_vec_clr o)
  | FracAnis => Some (frac_anis_img o)
  | Frangi => Some (frangi_img o)
  | IsoFiber => Some (iso_fiber_img o)
  | FiberMsk => Some (fiber_msk o)
  | NeuronMsk => neuron_msk o
  end.

(** A volume after a tile: as before, or with one more assignment at [rng]. *)
Definition at_most_one_write (rng : list pyslice) (before after : option volume) : Prop :=
  after = before \/
  exists (v : volume) (d : payload),
    before = Some v /\ after = Some (vol_setitem v rng d).

(** The tile [i] of a slicing plan: the four ranges of the plan exist and
    the fiber channel is zero on all of its voxels, of which there is at
    least one. *)
Definition empty_tile `{TileKernels} (img : image)
    (rng_in_lst rng_in_neu_lst rng_out_lst : list (list pyslice))
    (pad_mat_lst : list (list (Z * Z))) (ch_fiber : Z) (mosaic : bool) (i : nat) : Prop :=
  exists rng_in,
    rng_in_lst !! i = Some rng_in /\
    is_Some (rng_in_neu_lst !! i) /\ is_Some (rng_out_lst !! i) /\
    is_Some (pad_mat_lst !! i) /\
    Np.flatten (slice_channel img rng_in ch_fiber mosaic) <> [] /\
    Forall (fun v => v = 0) (Np.flatten (slice_channel img rng_in ch_fiber mosaic)).

Definition scale3 (k : R) (l : vec3) : vec3 :=
  let '(l0, l1, l2) := l in (k * l0, k * l1, k * l2)%R.

Definition swap01 (l : vec3) : vec3 := let '(l0, l1, l2) := l in (l1, l0, l2).

Definition rotate3 (l : vec3) : vec3 := let '(l0, l1, l2) := l in (l1, l2, l0).

(** * Properties *)

(** ** Saving the ODF results (C1) *)

Lemma odi_keyword_unbound (pos : list value) (v : value) :
  Call.bind_args Output.save_array_params pos [("odi", v)] = Raise TypeError.
Proof.
  unfold Call.bind_args.
  destruct (Call.bind_positional Output.save_array_params pos) as [sl|e] eqn:Hpos;
    simpl.
  - destruct pos as [|a0 [|a1 [|a2 [|a3 [|a4 [|a5 pos]]]]]]; simpl in Hpos;
      inversion Hpos; subst; reflexivity.
  - destruct pos as [|a0 [|a1 [|a2 [|a3 [|a4 [|a5 pos]]]]]]; simpl in Hpos;
      inversion Hpos; subst; reflexivity.
Qed.

(** C1, as the code has it: [save_array] has no parameter [odi], so no call
    of the form [save_array(..., odi=True)] binds its arguments; in
    [save_odf_arrays] the two NIfTI files are written, the first of the four
    ODI calls raises a TypeError, and no ODI raster reaches the file
    system. *)
Theorem save_odf_arrays_raises `{Formatting}
    (odf bg odi_pri odi_sec odi_tot odi_anis px_size : value)
    (save_dir img_name : string) (odf_scale_um : Q) (fs : filesystem) :
  (forall pos : list value,
      ~ Call.well_formed Output.save_array_params pos [("odi", VBool true)]) /\
  save_odf_arrays odf bg odi_pri odi_sec odi_tot odi_anis px_size
                  save_dir img_name odf_scale_um fs
  = (Raise TypeError,
     <[Path.join save_dir (odf_name "odf_mrtrixview" odf_scale_um img_name +:+ ".nii")
         := NiftiFile odf]>
       (<[Path.join save_dir (odf_name "bg_mrtrixview" odf_scale_um img_name +:+ ".nii")
           := NiftiFile bg]> fs)).
Proof.
  split.
  - intros pos [args Hargs]. rewrite odi_keyword_unbound in Hargs. discriminate.
  - reflexivity.
Qed.

(** ** Allocation (C2) *)

Lemma init_volume_shape available shape d chunks name tmp mode ram :
  vol_shape (init_volume available shape d chunks name tmp mode ram).1 = shape.
Proof. unfold init_volume. destruct (Qle_bool _ _); reflexivity. Qed.

Lemma pair_value_not_indexable (r : volume * option string)
    (rng : list pyslice) (data : payload) :
  py_setitem (pair_value r) rng data = Raise TypeError /\
  py_getitem (pair_value r) rng = Raise TypeError.
Proof. split; reflexivity. Qed.

(** C2, as the code has it: every one of the seven values that
    [init_odf_volumes] returns is the whole pair [(vol, hdf5_path)] of
    [init_volume], not its first component, and a slice read or write on it
    raises a TypeError. *)
Theorem init_odf_volumes_returns_pairs `{Formatting} `{OdfKernels}
    (available : string -> Z) (vec_img_shape : list Z) (tmp_dir : string)
    (odf_scale odf_degrees : Z) (max_ram_mb : option Q) :
  let vols := init_odf_volumes available vec_img_shape tmp_dir odf_scale
                               odf_degrees max_ram_mb in
  Forall (fun v : value =>
            (exists (vol : volume) (hdf5_path : option string),
                v = pair_value (vol, hdf5_path)) /\
            (forall vol : volume, v <> VVol vol) /\
            (forall rng data, py_setitem v rng data = Raise TypeError) /\
            (forall rng, py_getitem v rng = Raise TypeError))
         [ov_odf vols; ov_bg_mrtrix vols; ov_odi_pri vols; ov_odi_sec vols;
          ov_odi_tot vols; ov_odi_anis vols; ov_vec_tensor_eigen vols].
Proof.
  simpl. repeat apply List.Forall_cons; try apply List.Forall_nil;
    (split; [do 2 eexists; unfold pair_value; simpl; reflexivity
            | split; [intros vol; discriminate | split; reflexivity]]).
Qed.
(** ** The tile worker (C4, C8) *)

Lemma fold_max_zero (vs : list Z) :
  Forall (fun v => v = 0) vs -> fold_left Z.max vs 0 = 0.
Proof.
  induction 1 as [|v vs Hv _ IH]; simpl; [reflexivity |].
  subst v. exact IH.
Qed.

(** C4: when the raw fiber slice of the tile is zero everywhere,
    [fiber_analysis] leaves every output volume as it found it, and (the
    slice having at least one voxel) returns normally. *)
Theorem fiber_analysis_skips_zero_tile `{TileKernels}
    (img : image) (rng_in rng_in_neu rng_out : list pyslice)
    (pad_mat : list (Z * Z)) (smooth_sigma : option (list Q)) (scales_px : list Q)
    (px_rsz_ratio : Q * Q * Q) (z_sel : pyslice)
    (ch_neuron ch_fiber : Z) (alpha beta gamma : Q)
    (dark orient_cmap lpf_soma_mask mosaic : bool) (outs : outputs) :
  Forall (fun v => v = 0) (Np.flatten (slice_channel img rng_in ch_fiber mosaic)) ->
  let run := fiber_analysis img rng_in rng_in_neu rng_out pad_mat smooth_sigma
               scales_px px_rsz_ratio z_sel ch_neuron ch_fiber alpha beta gamma
               dark orient_cmap lpf_soma_mask mosaic outs in
  run.2 = outs /\
  (Np.flatten (slice_channel img rng_in ch_fiber mosaic) <> [] -> run.1 = Ok tt).
Proof.
  intros Hzero run. subst run. unfold fiber_analysis, eff_bind, eff_lift.
  unfold Np.max.
  destruct (Np.flatten (slice_channel img rng_in ch_fiber mosaic)) as [|v vs] eqn:Hflat.
  - split; [reflexivity | congruence].
  - inversion Hzero as [|? ? Hv Hvs]; subst.
    rewrite (fold_max_zero vs Hvs). simpl. split; reflexivity.
Qed.

Lemma fiber_analysis_skips_zero_tile_witness :
  let outs :=
    let v := Volume (MemoryMap "/tmp/v.mmap") uint8 [1; 2; 2] [] in
    Outputs v v v v v v None in
  let run := @fiber_analysis plain_kernels [[[0; 0]; [0; 0]]] [] [] [] [] None [1%Q]
               (1%Q, 1%Q, 1%Q) (Slice (Some 0) None (Some 1)) 0 1
               (5 # 100) 1%Q 100%Q false false false false outs in
  run.2 = outs /\ run.1 = Ok tt.
Proof.
  intros outs run.
  destruct (@fiber_analysis_skips_zero_tile plain_kernels [[[0; 0]; [0; 0]]] [] [] [] []
              None [1%Q] (1%Q, 1%Q, 1%Q) (Slice (Some 0) None (Some 1)) 0 1
              (5 # 100) 1%Q 100%Q false false false false outs) as [Hsame Hret].
  - simpl. repeat constructor.
  - split; [exact Hsame | apply Hret; simpl; discriminate].
Defined.

Lemma omap_lookup_map {A B : Type} (g : A -> B) (a : list A) (ix : nat -> nat)
    (ks : list nat) :
  omap (fun k => map g a !! ix k) ks = map g (omap (fun k => a !! ix k) ks).
Proof.
  induction ks as [|k ks IH]; csimpl; [reflexivity |].
  rewrite IH. change (map g a) with (g <$> a). rewrite list_lookup_fmap.
  destruct (a !! ix k); reflexivity.
Qed.

(** Selecting planes commutes with a conversion applied to every plane. *)
Lemma getitem_z_map {A B : Type} (g : A -> B) (s : pyslice) (a : list A) :
  Np.getitem_z s (map g a) = (l <- Np.getitem_z s a;; Ok (map g l)).
Proof.
  unfold Np.getitem_z. rewrite length_map.
  destruct (Np.slice_indices s (Z.of_nat (length a))) as [[[start stop] step]|e];
    simpl; [| reflexivity].
  f_equal. apply (omap_lookup_map g a (fun k => Z.to_nat (start + Z.of_nat k * step))).
Qed.

Lemma getitem_z_amap {A B : Type} (f : A -> B) (s : pyslice) (a : ndarray A) :
  Np.getitem_z s (Np.amap f a) = (l <- Np.getitem_z s a;; Ok (Np.amap f l)).
Proof. unfold Np.amap. apply getitem_z_map. Qed.

Lemma init_frangi_volumes_z_sel (available : string -> Z)
    (img_shape slice_shape : Z * Z * Z) (resize_ratio : Q * Q * Q) (tmp_dir : string)
    (z_min : Z) (z_max : option Z) (lpf_soma_mask : bool) (max_ram_mb : option Q) :
  fv_z_sel (init_frangi_volumes available img_shape slice_shape resize_ratio tmp_dir
              z_min z_max lpf_soma_mask max_ram_mb)
  = Slice (Some z_min)
          (match z_max with
           | Some z => Some z
           | None => if z_min =? 0 then None else Some slice_shape.1.1
           end)
          (Some 1).
Proof.
  unfold init_frangi_volumes.
  destruct img_shape as [[iz iy] ix], slice_shape as [[sz sy] sx],
    resize_ratio as [[rz ry] rx].
  destruct z_max as [z|]; destruct (z_min =? 0); simpl;
    repeat match goal with
           | |- context [init_volume ?a ?b ?c ?d ?e ?f ?g ?h] =>
               destruct (init_volume a b c d e f g h)
           end; reflexivity.
Qed.

Lemma init_frangi_volumes_depth (available : string -> Z)
    (img_shape slice_shape : Z * Z * Z) (resize_ratio : Q * Q * Q) (tmp_dir : string)
    (z_min : Z) (z_max : option Z) (lpf_soma_mask : bool) (max_ram_mb : option Q) :
  let vols := init_frangi_volumes available img_shape slice_shape resize_ratio tmp_dir
                z_min z_max lpf_soma_mask max_ram_mb in
  let depth := Qceiling (resize_ratio.1.1
                         * inject_Z (output_depth img_shape slice_shape z_min z_max)) in
  Forall (fun v : volume => head (vol_shape v) = Some depth)
         ([fv_fiber_vec_img vols; fv_fiber_vec_clr vols; fv_frac_anis_img vols;
           fv_frangi_img vols; fv_fiber_msk vols; fv_iso_fiber_img vols]
          ++ option_list (fv_neuron_msk vols)).
Proof.
  unfold init_frangi_volumes, output_depth.
  destruct img_shape as [[iz iy] ix], slice_shape as [[sz sy] sx],
    resize_ratio as [[rz ry] rx].
  destruct z_max as [z|]; destruct (z_min =? 0); destruct lpf_soma_mask; simpl;
    repeat match goal with
           | |- context [let '(_, _) := init_volume ?a ?b ?c ?d ?e ?f ?g ?h in _] =>
               let Hs := fresh "Hs" in
               pose proof (init_volume_shape a b c d e f g h) as Hs;
               destruct (init_volume a b c d e f g h); simpl in Hs
           end; simpl;
    repeat apply List.Forall_cons; try apply List.Forall_nil;
    try (rewrite init_volume_shape; reflexivity);
    try (match goal with Hs : vol_shape _ = _ |- _ => rewrite Hs end; reflexivity).
Qed.

Ltac reduce_eff :=
  cbv beta iota zeta delta
    [eff_bind eff_lift eff_ret eff_modify Py.bind set_fiber_vec_img set_fiber_vec_clr
     set_frac_anis_img set_frangi_img set_iso_fiber_img set_fiber_msk set_neuron_msk
     fiber_vec_img fiber_vec_clr frac_anis_img frangi_img iso_fiber_img fiber_msk
     neuron_msk].

Ltac settle_write_back :=
  intros z_sel outs;
  cbn [write_back crop_payload set_field];
  rewrite ?getitem_z_amap;
  destruct outs as [o1 o2 o3 o4 o5 o6 [o7|]];
  reduce_eff;
  try match goal with
      | Hm : negb _ = _ |- _ => rewrite Hm
      end;
  reduce_eff;
  repeat (match goal with
          | |- context [Np.getitem_z z_sel ?a] => destruct (Np.getitem_z z_sel a)
          end; reduce_eff);
  reflexivity.

(** The tile worker, read as "compute, then crop to the z-range while
    writing": whether it raises and what it has pending for the output
    volumes do not depend on [z_sel]. *)
Lemma fiber_analysis_write_back `{TileKernels}
    (img : image) (rng_in rng_in_neu rng_out : list pyslice)
    (pad_mat : list (Z * Z)) (smooth_sigma : option (list Q)) (scales_px : list Q)
    (px_rsz_ratio : Q * Q * Q)
    (ch_neuron ch_fiber : Z) (alpha beta gamma : Q)
    (dark orient_cmap lpf_soma_mask mosaic : bool) :
  exists (status : res unit) (pending : list (out_field * list pyslice * payload)),
    forall (z_sel : pyslice) (outs : outputs),
      fiber_analysis img rng_in rng_in_neu rng_out pad_mat smooth_sigma
        scales_px px_rsz_ratio z_sel ch_neuron ch_fiber alpha beta gamma
        dark orient_cmap lpf_soma_mask mosaic outs
      = match status with
        | Ok _ => write_back z_sel pending outs
        | Raise e => (Raise e, outs)
        end.
Proof.
  unfold fiber_analysis.
  destruct (Np.max (slice_channel img rng_in ch_fiber mosaic)) as [m|e] eqn:Hmax.
  2:{ exists (Raise e), []. settle_write_back. }
  destruct (negb (m =? 0)) eqn:Hm.
  2:{ exists (Ok tt), []. settle_write_back. }
  destruct (correct_image_anisotropy (slice_channel img rng_in ch_fiber mosaic)
              px_rsz_ratio smooth_sigma (Some pad_mat)) as [iso pad] eqn:Hiso.
  destruct (frangi_filter iso scales_px alpha beta gamma dark) as [[fr fv] ev] eqn:Hfr.
  match goal with |- context [mask_background ?a ?b ?c None "li" false] =>
    destruct (mask_background a b c None "li" false) as [[[[fv1 oc1] fa1] bg1]|e] eqn:Hmask
  end.
  2:{ exists (Raise e), []. settle_write_back. }
  set (vec_rng_out := rng_out ++ [Slice (Some 0) (Some 3) (Some 1)]).
  set (frac_anis := compute_fractional_anisotropy (crop_slice vec3 ev rng_out pad)).
  destruct lpf_soma_mask.
  - cbv beta iota delta [eff_bind eff_lift eff_ret].
    match goal with |- context [mask_background ?a ?b ?c ?d "yen" true] =>
      destruct (mask_background a b c d "yen" true) as [[[[fv2 oc2] fa2] bg2]|e] eqn:Hsoma
    end.
    2:{ exists (Raise e), []. settle_write_back. }
    exists (Ok tt),
      [ (NeuronMsk, rng_out, Bytes (Np.amap (fun b : bool => 255 * Z.b2z b) bg2));
        (FiberVec, vec_rng_out, Vectors fv2);
        (FiberClr, vec_rng_out, Colors oc2);
        (IsoFiber, rng_out, Bytes (Np.amap astype_uint8 (crop_slice R iso rng_out pad)));
        (FracAnis, rng_out,
         Bytes (Np.amap (fun x : R => astype_uint8 (255 * x)%R) (default frac_anis fa2)));
        (Frangi, rng_out,
         Bytes (Np.amap (fun x : R => astype_uint8 (255 * x)%R)
                        (crop_slice R fr rng_out pad)));
        (FiberMsk, rng_out, Bytes (Np.amap (fun b : bool => 255 * (1 - Z.b2z b)) bg1)) ].
    settle_write_back.
  - exists (Ok tt),
      [ (FiberVec, vec_rng_out, Vectors fv1);
        (FiberClr, vec_rng_out, Colors oc1);
        (IsoFiber, rng_out, Bytes (Np.amap astype_uint8 (crop_slice R iso rng_out pad)));
        (FracAnis, rng_out,
         Bytes (Np.amap (fun x : R => astype_uint8 (255 * x)%R) frac_anis));
        (Frangi, rng_out,
         Bytes (Np.amap (fun x : R => astype_uint8 (255 * x)%R)
                        (crop_slice R fr rng_out pad)));
        (FiberMsk, rng_out, Bytes (Np.amap (fun b : bool => 255 * (1 - Z.b2z b)) bg1)) ].
    settle_write_back.
Qed.

(** C8: a forced z-range only decides which planes are kept at write-back.
    What [fiber_analysis] computes for a tile (whether it raises, and the
    slices it has pending for the output volumes) is the same for every
    [z_sel]; the selection is applied to each pending slice when it is
    written. [init_frangi_volumes] hands out [slice(z_min, z_max, 1)] and
    sizes every output volume from [z_max - z_min], or from the full depth
    when no range is forced. *)
Theorem z_range_crops_at_write_back `{TileKernels}
    (img : image) (rng_in rng_in_neu rng_out : list pyslice)
    (pad_mat : list (Z * Z)) (smooth_sigma : option (list Q)) (scales_px : list Q)
    (px_rsz_ratio : Q * Q * Q)
    (ch_neuron ch_fiber : Z) (alpha beta gamma : Q)
    (dark orient_cmap lpf_soma_mask mosaic : bool) :
  (exists (status : res unit) (pending : list (out_field * list pyslice * payload)),
     forall (z_sel : pyslice) (outs : outputs),
       fiber_analysis img rng_in rng_in_neu rng_out pad_mat smooth_sigma
         scales_px px_rsz_ratio z_sel ch_neuron ch_fiber alpha beta gamma
         dark orient_cmap lpf_soma_mask mosaic outs
       = match status with
         | Ok _ => write_back z_sel pending outs
         | Raise e => (Raise e, outs)
         end) /\
  (forall (available : string -> Z) (img_shape slice_shape : Z * Z * Z)
          (resize_ratio : Q * Q * Q) (tmp_dir : string) (z_min : Z)
          (z_max : option Z) (lpf : bool) (max_ram_mb : option Q),
     let vols := init_frangi_volumes available img_shape slice_shape resize_ratio
                   tmp_dir z_min z_max lpf max_ram_mb in
     let depth := Qceiling (resize_ratio.1.1
                            * inject_Z (output_depth img_shape slice_shape z_min z_max)) in
     fv_z_sel vols
     = Slice (Some z_min)
             (match z_max with
              | Some z => Some z
              | None => if z_min =? 0 then None else Some slice_shape.1.1
              end)
             (Some 1) /\
     Forall (fun v : volume => head (vol_shape v) = Some depth)
            ([fv_fiber_vec_img vols; fv_fiber_vec_clr vols; fv_frac_anis_img vols;
              fv_frangi_img vols; fv_fiber_msk vols; fv_iso_fiber_img vols]
             ++ option_list (fv_neuron_msk vols))).
Proof.
  split.
  - apply fiber_analysis_write_back.
  - intros. split.
    + apply init_frangi_volumes_z_sel.
    + apply init_frangi_volumes_depth.
Qed.

(** Writing back never changes how a volume is backed. *)
Lemma set_field_backings (f : out_field) (rng : list pyslice) (p : payload)
    (o : outputs) :
  backings (set_field f rng p o).2 = backings o.
Proof.
  destruct o as [o1 o2 o3 o4 o5 o6 [o7|]]; destruct f; reflexivity.
Qed.

Lemma write_back_backings (z_sel : pyslice)
    (pending : list (out_field * list pyslice * payload)) (o : outputs) :
  backings (write_back z_sel pending o).2 = backings o.
Proof.
  revert o. induction pending as [|[[f rng] p] rest IH]; intros o; [reflexivity |].
  cbn [write_back]. unfold eff_bind, eff_lift.
  destruct (crop_payload z_sel p) as [p'|e]; [| reflexivity].
  pose proof (set_field_backings f rng p' o) as Hset.
  destruct (set_field f rng p' o) as [[[]|e] o']; simpl in Hset.
  - rewrite IH. exact Hset.
  - exact Hset.
Qed.

Lemma fiber_analysis_backings `{TileKernels}
    (img : image) (rng_in rng_in_neu rng_out : list pyslice)
    (pad_mat : list (Z * Z)) (smooth_sigma : option (list Q)) (scales_px : list Q)
    (px_rsz_ratio : Q * Q * Q) (z_sel : pyslice)
    (ch_neuron ch_fiber : Z) (alpha beta gamma : Q)
    (dark orient_cmap lpf_soma_mask mosaic : bool) (outs : outputs) :
  backings (fiber_analysis img rng_in rng_in_neu rng_out pad_mat smooth_sigma
              scales_px px_rsz_ratio z_sel ch_neuron ch_fiber alpha beta gamma
              dark orient_cmap lpf_soma_mask mosaic outs).2
  = backings outs.
Proof.
  destruct (fiber_analysis_write_back img rng_in rng_in_neu rng_out pad_mat
              smooth_sigma scales_px px_rsz_ratio ch_neuron ch_fiber alpha beta gamma
              dark orient_cmap lpf_soma_mask mosaic) as (status & pending & Hrun).
  rewrite Hrun. destruct status; [apply write_back_backings | reflexivity].
Qed.

(** ** The backing of a volume (C3) *)

Lemma wrap64_residue (x : Z) : Np.wrap64 x mod 2 ^ 64 = x mod 2 ^ 64.
Proof.
  unfold Np.wrap64. rewrite Zminus_mod_idemp_l. f_equal. lia.
Qed.

Lemma wrap64_congr (x y : Z) :
  x mod 2 ^ 64 = y mod 2 ^ 64 -> Np.wrap64 x = Np.wrap64 y.
Proof.
  intros Hxy. unfold Np.wrap64. f_equal.
  rewrite <- (Zplus_mod_idemp_l x), Hxy, Zplus_mod_idemp_l. reflexivity.
Qed.

Lemma wrap64_small (x : Z) : - 2 ^ 63 <= x < 2 ^ 63 -> Np.wrap64 x = x.
Proof.
  intros Hx. unfold Np.wrap64. rewrite Z.mod_small; lia.
Qed.

Lemma prod_acc_residue (shape : list Z) (a : Z) :
  fold_left (fun acc d => Np.wrap64 (acc * d)) shape a mod 2 ^ 64
  = (a * fold_right Z.mul 1 shape) mod 2 ^ 64.
Proof.
  revert a. induction shape as [|d shape IH]; intros a; simpl.
  - f_equal. lia.
  - rewrite IH. rewrite Zmult_mod, wrap64_residue, <- Zmult_mod. f_equal. lia.
Qed.

Lemma vol_sz_exact (d : dtype) (shape : list Z) :
  - 2 ^ 63 <= byte_size d shape < 2 ^ 63 ->
  Np.wrap64 (get_item_size d * Np.prod shape) = byte_size d shape.
Proof.
  intros Hfit. rewrite <- (wrap64_small _ Hfit). apply wrap64_congr.
  unfold byte_size, Np.prod.
  rewrite Zmult_mod, prod_acc_residue, <- Zmult_mod. f_equal. lia.
Qed.

Lemma max_ram_budget (available : Z) (max_ram_mb : option Q) :
  match max_ram_mb with
  | None => inject_Z available
  | Some mb => (mb * inject_Z (1024 ^ 2))%Q
  end = effective_ram_budget available max_ram_mb.
Proof. destruct max_ram_mb; reflexivity. Qed.

Lemma init_volume_decision (available : Z) (shape : list Z) (d : dtype)
    (chunks : chunking) (name tmp mmap_mode : string) (max_ram_mb : option Q) :
  - 2 ^ 63 <= byte_size d shape < 2 ^ 63 ->
  let r := init_volume available shape d chunks name tmp mmap_mode max_ram_mb in
  (is_disk_backed r.1 = true <->
   (effective_ram_budget available max_ram_mb <= inject_Z (byte_size d shape))%Q) /\
  (is_disk_backed r.1 = true ->
   r = ((create_hdf5_dset shape d chunks name tmp).1,
        Some (create_hdf5_dset shape d chunks name tmp).2)) /\
  (is_disk_backed r.1 = false ->
   r = (create_memory_map shape d name tmp mmap_mode, None)) /\
  (r.2 <> None <-> is_disk_backed r.1 = true) /\
  (forall p, r.2 = Some p -> vol_backing r.1 = DiskHdf5 p chunks).
Proof.
  intros Hfit r. subst r. unfold init_volume.
  rewrite max_ram_budget, (vol_sz_exact d shape Hfit).
  destruct (Qle_bool _ _) eqn:Hle; simpl.
  - apply Qle_bool_iff in Hle.
    repeat split; try tauto; try congruence; try discriminate.
  - assert (~ (effective_ram_budget available max_ram_mb
               <= inject_Z (byte_size d shape))%Q) as Hnle.
    { intros Hq. apply Qle_bool_iff in Hq. congruence. }
    repeat split; try tauto; try congruence; try discriminate.
Qed.

(** C3, as amended: for every shape whose byte size fits NumPy's signed
    64-bit integers, [init_volume] allocates the chunked HDF5 dataset
    exactly when itemsize x prod(shape) >= the effective RAM budget and the
    memory map otherwise; the path it returns is not None exactly in the
    disk-backed case, where it is the path of the dataset's file; an
    indexed assignment to the volume leaves its backing as it is, and so
    does a run of the tile worker on its output volumes. *)
Theorem init_volume_backing (available : Z) (shape : list Z) (d : dtype)
    (chunks : chunking) (name tmp mmap_mode : string) (max_ram_mb : option Q) :
  - 2 ^ 63 <= byte_size d shape < 2 ^ 63 ->
  let r := init_volume available shape d chunks name tmp mmap_mode max_ram_mb in
  (is_disk_backed r.1 = true <->
   (effective_ram_budget available max_ram_mb <= inject_Z (byte_size d shape))%Q) /\
  (is_disk_backed r.1 = true ->
   r = ((create_hdf5_dset shape d chunks name tmp).1,
        Some (create_hdf5_dset shape d chunks name tmp).2)) /\
  (is_disk_backed r.1 = false ->
   r = (create_memory_map shape d name tmp mmap_mode, None)) /\
  (r.2 <> None <-> is_disk_backed r.1 = true) /\
  (forall p, r.2 = Some p -> vol_backing r.1 = DiskHdf5 p chunks) /\
  (forall rng data, vol_backing (vol_setitem r.1 rng data) = vol_backing r.1) /\
  (forall (K : TileKernels) (img : image) (rng_in rng_in_neu rng_out : list pyslice)
          (pad_mat : list (Z * Z)) (smooth_sigma : option (list Q))
          (scales_px : list Q) (px_rsz_ratio : Q * Q * Q) (z_sel : pyslice)
          (ch_neuron ch_fiber : Z) (alpha beta gamma : Q)
          (dark orient_cmap lpf_soma_mask mosaic : bool) (outs : outputs),
      backings (fiber_analysis img rng_in rng_in_neu rng_out pad_mat smooth_sigma
                  scales_px px_rsz_ratio z_sel ch_neuron ch_fiber alpha beta gamma
                  dark orient_cmap lpf_soma_mask mosaic outs).2
      = backings outs).
Proof.
  intros Hfit r.
  destruct (init_volume_decision available shape d chunks name tmp mmap_mode
              max_ram_mb Hfit) as (Hdisk & Hh5 & Hmm & Hpath & Hfile).
  split; [exact Hdisk |]. split; [exact Hh5 |]. split; [exact Hmm |].
  split; [exact Hpath |]. split; [exact Hfile |].
  split; [reflexivity |]. intros. apply fiber_analysis_backings.
Qed.

Lemma init_volume_backing_witness :
  - 2 ^ 63 <= byte_size float32 [4; 8; 8; 3] < 2 ^ 63 /\
  (is_disk_backed
     (init_volume 4096 [4; 8; 8; 3] float32 (Chunks [4; 4; 4; 3])
                  "fiber_vec" "/tmp" "r+" None).1 = true <->
   Qle (effective_ram_budget 4096 None) (inject_Z (byte_size float32 [4; 8; 8; 3]))).
Proof.
  assert (- 2 ^ 63 <= byte_size float32 [4; 8; 8; 3] < 2 ^ 63) as Hfit
    by (vm_compute; split; [discriminate | reflexivity]).
  split; [exact Hfit |].
  exact (proj1 (init_volume_backing 4096 [4; 8; 8; 3] float32 (Chunks [4; 4; 4; 3])
                  "fiber_vec" "/tmp" "r+" None Hfit)).
Defined.

(** C3, as stated, fails where the byte count leaves the 64-bit range:
    for the uint8 shape (2^32, 2^32) the int64 product wraps to 0, so with a
    1 MB budget the size is above the budget, yet the volume is
    memory-mapped and no path is returned. *)
Lemma init_volume_overflow_counterexample :
  let r := init_volume 0 [2 ^ 32; 2 ^ 32] uint8 AutoChunks "vol" "/tmp" "r+" (Some 1%Q) in
  Qle (effective_ram_budget 0 (Some 1%Q)) (inject_Z (byte_size uint8 [2 ^ 32; 2 ^ 32])) /\
  is_disk_backed r.1 = false /\
  r.2 = None.
Proof.
  split; [| split]; [| reflexivity | reflexivity].
  vm_compute. discriminate.
Qed.

(** ** Fractional anisotropy (C5, C6) *)

Lemma zip_with_maps {A B C D : Type} (f : B -> C -> D) (g : A -> B) (h : A -> C)
    (l : list A) :
  zip_with f (map g l) (map h l) = map (fun v => f (g v) (h v)) l.
Proof. induction l as [|v l IH]; simpl; [reflexivity | rewrite IH; reflexivity]. Qed.

Lemma azip_amap {A B C D : Type} (f : B -> C -> D) (g : A -> B) (h : A -> C)
    (a : ndarray A) :
  azip f (Np.amap g a) (Np.amap h a) = Np.amap (fun v => f (g v) (h v)) a.
Proof.
  unfold azip, Np.amap. rewrite zip_with_maps. apply map_ext. intros plane.
  rewrite zip_with_maps. apply map_ext. intros row. apply zip_with_maps.
Qed.

Lemma amap_amap {A B C : Type} (f : B -> C) (g : A -> B) (a : ndarray A) :
  Np.amap f (Np.amap g a) = Np.amap (fun v => f (g v)) a.
Proof.
  unfold Np.amap. rewrite map_map. apply map_ext. intros plane.
  rewrite map_map. apply map_ext. intros row. apply map_map.
Qed.

Lemma amap_ext {A B : Type} (f g : A -> B) (a : ndarray A) :
  (forall v, f v = g v) -> Np.amap f a = Np.amap g a.
Proof.
  intros Hfg. unfold Np.amap. apply map_ext. intros plane.
  apply map_ext. intros row. apply map_ext. exact Hfg.
Qed.

Lemma lookup_map {A B : Type} (f : A -> B) (l : list A) (i : nat) :
  map f l !! i = f <$> l !! i.
Proof. change (map f l) with (f <$> l). apply list_lookup_fmap. Qed.

Lemma voxel_amap {A B : Type} (f : A -> B) (a : ndarray A) (z y x : nat) :
  voxel (Np.amap f a) z y x = f <$> voxel a z y x.
Proof.
  unfold voxel, Np.amap, ndarray in *. rewrite lookup_map.
  destruct (a !! z) as [plane|]; cbn [fmap option_fmap option_map]; [| reflexivity].
  rewrite lookup_map.
  destruct (plane !! y) as [row|]; cbn [fmap option_fmap option_map]; [| reflexivity].
  apply lookup_map.
Qed.

(** The array program computes the formula of the spec voxel by voxel. *)
Lemma compute_fractional_anisotropy_pointwise (eigenval : ndarray vec3) :
  compute_fractional_anisotropy eigenval = Np.amap fa_formula eigenval.
Proof.
  unfold compute_fractional_anisotropy. cbv zeta.
  repeat (rewrite ?azip_amap, ?amap_amap).
  apply amap_ext. intros [[l0 l1] l2]. reflexivity.
Qed.

(** C6: at every voxel [compute_fractional_anisotropy] returns
    sqrt(0.5 * ((l0-l1)^2 + (l0-l2)^2 + (l1-l2)^2) / (l0^2+l1^2+l2^2)), the
    quotient being 0 where the denominator is 0; the result has a voxel
    exactly where the eigenvalue field has one. *)
Theorem compute_fractional_anisotropy_formula (eigenval : ndarray vec3)
    (z y x : nat) :
  voxel (compute_fractional_anisotropy eigenval) z y x
  = fa_formula <$> voxel eigenval z y x.
Proof.
  rewrite compute_fractional_anisotropy_pointwise. apply voxel_amap.
Qed.

Open Scope R_scope.

Lemma sum_sq_pos (l0 l1 l2 : R) :
  l0 ^ 2 + l1 ^ 2 + l2 ^ 2 <> 0 -> 0 < l0 ^ 2 + l1 ^ 2 + l2 ^ 2.
Proof. intros Hne. nra. Qed.

Lemma div_le_of_mult (n d c : R) : 0 < d -> n <= c * d -> n / d <= c.
Proof.
  intros Hd Hn. apply (Rmult_le_reg_r d); [exact Hd |].
  unfold Rdiv. rewrite Rmult_assoc, Rinv_l; lra.
Qed.

Lemma div_nonneg (n d : R) : 0 < d -> 0 <= n -> 0 <= n / d.
Proof.
  intros Hd Hn. unfold Rdiv. apply Rmult_le_pos; [exact Hn |].
  left. apply Rinv_0_lt_compat. exact Hd.
Qed.

(** The quantity under the square root lies in [0, 3/2], and in [0, 1]
    when the pairwise products of the eigenvalues sum to at least 0. *)
Lemma fa_radicand_bounds (l0 l1 l2 : R) :
  let num := (l0 - l1) ^ 2 + (l0 - l2) ^ 2 + (l1 - l2) ^ 2 in
  let den := l0 ^ 2 + l1 ^ 2 + l2 ^ 2 in
  let q := 5 / 10 * (if Req_dec_T den 0 then 0 else num / den) in
  0 <= q <= 3 / 2 /\ (0 <= l0 * l1 + l0 * l2 + l1 * l2 -> q <= 1).
Proof.
  intros num den q. subst q. destruct (Req_dec_T den 0) as [Hz|Hnz].
  - split; [lra | intros _; lra].
  - pose proof (sum_sq_pos l0 l1 l2 Hnz) as Hpos. fold den in Hpos.
    assert (0 <= num) as Hnum.
    { subst num. pose proof (pow2_ge_0 (l0 - l1)). pose proof (pow2_ge_0 (l0 - l2)).
      pose proof (pow2_ge_0 (l1 - l2)). lra. }
    assert (num <= 3 * den) as H3.
    { subst num den. pose proof (pow2_ge_0 (l0 + l1 + l2)). nra. }
    pose proof (div_nonneg num den Hpos Hnum) as Hlo.
    pose proof (div_le_of_mult num den 3 Hpos H3) as Hhi.
    split; [lra |]. intros Hpairs.
    assert (num <= 2 * den) as H2 by (subst num den; nra).
    pose proof (div_le_of_mult num den 2 Hpos H2). lra.
Qed.

(** C5, as amended: at every voxel the fractional anisotropy lies in
    [0, sqrt(3/2)]; it lies in [0, 1] wherever the eigenvalues satisfy
    l0*l1 + l0*l2 + l1*l2 >= 0, as they do when no two of them have opposite
    signs; and the all-zero triplet maps to exactly 0. *)
Theorem fractional_anisotropy_bounds (eigenval : ndarray vec3) (z y x : nat)
    (l0 l1 l2 : R) :
  voxel eigenval z y x = Some (l0, l1, l2) ->
  exists v : R,
    voxel (compute_fractional_anisotropy eigenval) z y x = Some v /\
    0 <= v <= sqrt (3 / 2) /\
    (0 <= l0 * l1 + l0 * l2 + l1 * l2 -> v <= 1) /\
    (l0 = 0 -> l1 = 0 -> l2 = 0 -> v = 0).
Proof.
  intros Hvox. exists (fa_formula (l0, l1, l2)).
  rewrite compute_fractional_anisotropy_pointwise, voxel_amap, Hvox.
  split; [reflexivity |].
  destruct (fa_radicand_bounds l0 l1 l2) as [[Hlo Hhi] Hone].
  unfold fa_formula. repeat split.
  - apply sqrt_pos.
  - apply sqrt_le_1_alt. exact Hhi.
  - intros Hpairs. rewrite <- sqrt_1. apply sqrt_le_1_alt. exact (Hone Hpairs).
  - intros -> -> ->. destruct (Req_dec_T _ _) as [_|Hne].
    + rewrite Rmult_0_r. apply sqrt_0.
    + exfalso. apply Hne. lra.
Qed.

Lemma fractional_anisotropy_bounds_witness :
  exists v : R,
    voxel (compute_fractional_anisotropy [[[(3, 1, 1)]]]) 0 0 0 = Some v /\
    0 <= v <= 1.
Proof.
  destruct (fractional_anisotropy_bounds [[[(3, 1, 1)]]] 0 0 0 3 1 1 eq_refl)
    as (v & Hv & [Hlo _] & Hone & _).
  exists v. split; [exact Hv |]. split; [exact Hlo | apply Hone; lra].
Defined.

(** C5, as stated, fails on eigenvalues of mixed sign: the triplet
    (1, -1, 0) has fractional anisotropy sqrt(3/2), which is above 1. *)
Lemma fractional_anisotropy_mixed_signs_counterexample :
  voxel (compute_fractional_anisotropy [[[(1, -1, 0)]]]) 0 0 0 = Some (sqrt (3 / 2)) /\
  1 < sqrt (3 / 2).
Proof.
  split.
  - rewrite compute_fractional_anisotropy_pointwise, voxel_amap. simpl. f_equal. f_equal.
    destruct (Req_dec_T _ _) as [Hz|Hnz]; [exfalso; lra | field].
  - rewrite <- sqrt_1 at 1. apply sqrt_lt_1_alt. lra.
Qed.

Close Scope R_scope.

(** ** Masking (C7) *)

Lemma mask_row_ok {A : Type} (zero : A) (m : list bool) (r : list A) :
  length m = length r ->
  Np.mask_row zero m r = Ok (zip_with (fun (b : bool) v => if b then zero else v) m r).
Proof.
  revert r. induction m as [|b m IH]; intros [|v r] Hlen; simpl in *;
    try discriminate; [reflexivity |].
  rewrite IH by congruence. reflexivity.
Qed.

Lemma zip_res_ok {A B C : Type} (f : A -> B -> res C) (g : A -> B -> C)
    (P : A -> B -> Prop) (l : list A) (k : list B) :
  (forall a b, P a b -> f a b = Ok (g a b)) ->
  Forall2 P l k ->
  Np.zip_res f l k = Ok (zip_with g l k).
Proof.
  intros Hfg. induction 1 as [|a b l k Hab _ IH]; simpl; [reflexivity |].
  rewrite (Hfg a b Hab), IH. reflexivity.
Qed.

Lemma mask_assign_ok {A : Type} (zero : A) (m : ndarray bool) (a : ndarray A) :
  same_shape m a ->
  Np.mask_assign zero m a = Ok (azip (fun (b : bool) v => if b then zero else v) m a).
Proof.
  intros Hshape. unfold Np.mask_assign, azip.
  apply (zip_res_ok _ _ (Forall2 (fun (r : list bool) (s : list A) => length r = length s)));
    [| exact Hshape].
  intros mp ap Hplane.
  apply (zip_res_ok _ _ (fun (r : list bool) (s : list A) => length r = length s));
    [| exact Hplane].
  intros mr ar Hrow. apply mask_row_ok. exact Hrow.
Qed.

Lemma voxel_azip {A B C : Type} (f : A -> B -> C) (a : ndarray A) (b : ndarray B)
    (z y x : nat) :
  voxel (azip f a b) z y x
  = match voxel a z y x with
    | Some u => f u <$> voxel b z y x
    | None => None
    end.
Proof.
  unfold voxel, azip, ndarray in *. rewrite lookup_zip_with.
  destruct (a !! z) as [pa|]; simpl; [| reflexivity].
  destruct (b !! z) as [pb|]; simpl.
  - rewrite lookup_zip_with.
    destruct (pa !! y) as [ra|]; simpl; [| reflexivity].
    destruct (pb !! y) as [rb|]; simpl.
    + rewrite lookup_zip_with.
      destruct (ra !! x) as [u|]; simpl; [| reflexivity].
      destruct (rb !! x); reflexivity.
    + destruct (ra !! x); reflexivity.
  - destruct (pa !! y) as [ra|]; [| reflexivity].
    destruct (ra !! x); reflexivity.
Qed.

Lemma Forall2_map_l {A B C : Type} (f : A -> B) (P : B -> C -> Prop)
    (l : list A) (k : list C) :
  Forall2 (fun a c => P (f a) c) l k -> Forall2 P (map f l) k.
Proof. induction 1; simpl; constructor; assumption. Qed.

Lemma same_shape_amap_l {A A' B : Type} (f : A -> A') (a : ndarray A) (b : ndarray B) :
  same_shape a b -> same_shape (Np.amap f a) b.
Proof.
  unfold same_shape, Np.amap. intros Hshape. apply Forall2_map_l.
  eapply Forall2_impl; [exact Hshape |]. intros pa pb Hplane.
  apply Forall2_map_l. eapply Forall2_impl; [exact Hplane |].
  intros ra rb Hrow. simpl. rewrite length_map. exact Hrow.
Qed.

(** C7: for arrays of the shape of the image, [mask_background] returns
    as its mask the background voxels of the computed threshold
    ([invert=False]) or their complement ([invert=True]); in the returned
    orientation vectors and colormap, and in the fractional anisotropy when
    one is supplied, a voxel is zero where the mask is set and unchanged
    where it is not. *)
Theorem mask_background_zeroes_mask `{TileKernels}
    (img : ndarray R) (fiber_vec_slice : ndarray vec3) (orientcol_slice : ndarray rgb)
    (frac_anis_slice : option (ndarray R)) (thresh_method : string) (invert : bool) :
  let background := create_background_mask img thresh_method in
  same_shape background fiber_vec_slice ->
  same_shape background orientcol_slice ->
  (forall fa, frac_anis_slice = Some fa -> same_shape background fa) ->
  exists (vec' : ndarray vec3) (col' : ndarray rgb) (fa' : option (ndarray R))
         (mask : ndarray bool),
    mask_background img fiber_vec_slice orientcol_slice frac_anis_slice
                    thresh_method invert
    = Ok (vec', col', fa', mask) /\
    (forall z y x, voxel mask z y x = xorb invert <$> voxel background z y x) /\
    (forall z y x,
        voxel vec' z y x
        = match voxel mask z y x with
          | Some b => (fun v => if b then (0, 0, 0)%R else v) <$> voxel fiber_vec_slice z y x
          | None => None
          end) /\
    (forall z y x,
        voxel col' z y x
        = match voxel mask z y x with
          | Some b => (fun c => if b then (0, 0, 0) else c) <$> voxel orientcol_slice z y x
          | None => None
          end) /\
    match frac_anis_slice, fa' with
    | Some fa, Some fa' =>
        forall z y x,
          voxel fa' z y x
          = match voxel mask z y x with
            | Some b => (fun v => if b then 0%R else v) <$> voxel fa z y x
            | None => None
            end
    | None, None => True
    | _, _ => False
    end.
Proof.
  intros background Hvec Hcol Hfa. unfold mask_background. fold background.
  set (mask := if invert then Np.logical_not background else background).
  assert (forall (B : Type) (b : ndarray B), same_shape background b -> same_shape mask b)
    as Hmask.
  { intros B b Hb. subst mask. destruct invert; [| exact Hb].
    apply same_shape_amap_l. exact Hb. }
  assert (forall z y x, voxel mask z y x = xorb invert <$> voxel background z y x)
    as Hsel.
  { intros z y x. subst mask. destruct invert.
    - unfold Np.logical_not. rewrite voxel_amap. reflexivity.
    - destruct (voxel background z y x) as [[|]|]; reflexivity. }
  rewrite (mask_assign_ok _ mask fiber_vec_slice (Hmask _ _ Hvec)). simpl.
  rewrite (mask_assign_ok _ mask orientcol_slice (Hmask _ _ Hcol)). simpl.
  destruct frac_anis_slice as [fa|].
  - rewrite (mask_assign_ok _ mask fa (Hmask _ _ (Hfa fa eq_refl))). simpl.
    do 4 eexists. split; [reflexivity |].
    split; [exact Hsel |]. repeat split; intros z y x; apply voxel_azip.
  - do 4 eexists. split; [reflexivity |].
    split; [exact Hsel |]. repeat split; intros z y x; apply voxel_azip.
Qed.

Lemma mask_background_zeroes_mask_witness :
  exists (vec' : ndarray vec3) (col' : ndarray rgb) (fa' : option (ndarray R))
         (mask : ndarray bool),
    @mask_background plain_kernels [[[1%R; 2%R]]] [[[(1, 0, 0)%R; (0, 1, 0)%R]]]
      [[[(255, 0, 0); (0, 255, 0)]]] (Some [[[1%R; 1%R]]]) "yen" true
    = Ok (vec', col', fa', mask) /\
    voxel mask 0 0 1 = Some true /\
    voxel vec' 0 0 1 = Some (0, 0, 0)%R.
Proof.
  destruct (@mask_background_zeroes_mask plain_kernels [[[1%R; 2%R]]]
              [[[(1, 0, 0)%R; (0, 1, 0)%R]]] [[[(255, 0, 0); (0, 255, 0)]]]
              (Some [[[1%R; 1%R]]]) "yen" true)
    as (vec' & col' & fa' & mask & Hrun & Hmask & Hvec & _).
  - repeat constructor.
  - repeat constructor.
  - intros fa [= <-]. repeat constructor.
  - exists vec', col', fa', mask. split; [exact Hrun |].
    assert (voxel mask 0 0 1 = Some true) as Hsel by (rewrite Hmask; reflexivity).
    split; [exact Hsel |]. rewrite Hvec, Hsel. reflexivity.
Defined.

(** ** Saving the Frangi results (C9) *)

Lemma append_inj_l (p a b : string) : p +:+ a = p +:+ b -> a = b.
Proof.
  induction p as [|c p IH]; simpl; intros Heq; [exact Heq |].
  injection Heq as Heq. exact (IH Heq).
Qed.

Lemma join_inj (d a b : string) :
  Path.startswith_sep a = false -> Path.startswith_sep b = false ->
  Path.join d a = Path.join d b -> a = b.
Proof.
  unfold Path.join. intros -> ->.
  destruct (String.eqb d EmptyString || Path.endswith_sep d); intros Heq.
  - exact (append_inj_l _ _ _ Heq).
  - apply append_inj_l in Heq. simpl in Heq. injection Heq as Heq. exact Heq.
Qed.

(** Two file names under the same directory that differ after a common
    stem give different paths. *)
Ltac paths_differ :=
  let Heq := fresh "Heq" in
  intros Heq; apply join_inj in Heq; [| reflexivity | reflexivity];
  unfold frangi_name in Heq; simpl in Heq;
  first [ discriminate Heq
        | injection Heq as Heq; apply append_inj_l in Heq; discriminate Heq ].

Lemma save_tif (fname save_dir : string) (nd_array : value) (px : Q * Q * Q)
    (fs : filesystem) :
  Output.save_array [VStr fname; VStr save_dir; nd_array; px_value px] [] fs
  = (Ok tt,
     <[Path.join save_dir (fname +:+ ".tif")
         := TiffFile nd_array (/ px.2, / px.1.2)%Q (VFloat px.1.1)]> fs).
Proof. destruct px as [[pz py] px]. reflexivity. Qed.

Lemma save_npy (fname save_dir : string) (nd_array : value) (fs : filesystem) :
  Output.save_array [VStr fname; VStr save_dir; nd_array] [("format", VStr "npy")] fs
  = (Ok tt, <[Path.join save_dir (fname +:+ ".npy") := NpyFile nd_array]> fs).
Proof. reflexivity. Qed.

(** What the five TIFF saves after the orientation vectors do. *)
Lemma save_frangi_tifs (fiber_vec_clr frac_anis_img frangi_img fiber_msk neuron_msk : value)
    (px : Q * Q * Q) (save_dir img_name : string) (fs : filesystem) :
  exists fs' : filesystem,
    (Output.save_array
       [VStr (frangi_name "fiber_cmap" img_name); VStr save_dir; fiber_vec_clr; px_value px] [];;;
     Output.save_array
       [VStr (frangi_name "frac_anis" img_name); VStr save_dir; frac_anis_img; px_value px] [];;;
     Output.save_array
       [VStr (frangi_name "frangi" img_name); VStr save_dir; frangi_img; px_value px] [];;;
     Output.save_array
       [VStr (frangi_name "fiber_msk" img_name); VStr save_dir; fiber_msk; px_value px] [];;;
     match neuron_msk with
     | VNone => eff_ret tt
     | _ =>
         Output.save_array
           [VStr (frangi_name "neuron_msk" img_name); VStr save_dir; neuron_msk; px_value px] []
     end) fs = (Ok tt, fs') /\
    forall p : string, p ∉ frangi_tif_paths save_dir img_name -> fs' !! p = fs !! p.
Proof.
  assert (forall (p : string) (f1 f2 f3 f4 : file) (m : filesystem),
             p ∉ frangi_tif_paths save_dir img_name ->
             (<[Path.join save_dir (frangi_name "fiber_msk" img_name +:+ ".tif") := f4]>
                (<[Path.join save_dir (frangi_name "frangi" img_name +:+ ".tif") := f3]>
                   (<[Path.join save_dir (frangi_name "frac_anis" img_name +:+ ".tif") := f2]>
                      (<[Path.join save_dir (frangi_name "fiber_cmap" img_name +:+ ".tif") := f1]>
                         m)))) !! p = m !! p) as Hfour.
  { intros p f1 f2 f3 f4 m Hp. unfold frangi_tif_paths in Hp. simpl in Hp.
    rewrite !lookup_insert_ne; [reflexivity | | | |];
      intros <-; apply Hp; set_solver. }
  unfold eff_bind. rewrite !save_tif.
  destruct neuron_msk;
    try (rewrite save_tif; eexists; split; [reflexivity |];
         intros p Hp; rewrite lookup_insert_ne;
         [apply Hfour; exact Hp
         | intros <-; apply Hp; unfold frangi_tif_paths; simpl; set_solver]).
  eexists; split; [reflexivity |]. intros p Hp. apply Hfour. exact Hp.
Qed.

Lemma fiber_vec_h5_not_tif (save_dir img_name : string) :
  Path.join save_dir (frangi_name "fiber_vec" img_name +:+ ".h5")
  ∉ frangi_tif_paths save_dir img_name.
Proof.
  unfold frangi_tif_paths. simpl. rewrite !not_elem_of_cons.
  repeat split; try paths_differ. apply not_elem_of_nil.
Qed.

Lemma fiber_vec_npy_not_tif (save_dir img_name : string) :
  Path.join save_dir (frangi_name "fiber_vec" img_name +:+ ".npy")
  ∉ frangi_tif_paths save_dir img_name.
Proof.
  unfold frangi_tif_paths. simpl. rewrite !not_elem_of_cons.
  repeat split; try paths_differ. apply not_elem_of_nil.
Qed.

Lemma fiber_vec_h5_not_npy (save_dir img_name : string) :
  Path.join save_dir (frangi_name "fiber_vec" img_name +:+ ".npy")
  <> Path.join save_dir (frangi_name "fiber_vec" img_name +:+ ".h5").
Proof. paths_differ. Qed.

(** C9: with a dataset path, [save_frangi_arrays] moves that file, as it
    is, to [<save_dir>/fiber_vec_<img_name>.h5] (the file is gone from where
    it was, and no .npy file is written); without one, it saves the
    orientation array through [save_array] as
    [<save_dir>/fiber_vec_<img_name>.npy] and moves nothing. *)
Theorem save_frangi_arrays_fiber_vec
    (fiber_vec_img fiber_vec_clr frac_anis_img frangi_img fiber_msk neuron_msk : value)
    (px : Q * Q * Q) (save_dir img_name : string) (fs : filesystem) :
  let h5 := Path.join save_dir ("fiber_vec_" +:+ img_name +:+ ".h5") in
  let npy := Path.join save_dir ("fiber_vec_" +:+ img_name +:+ ".npy") in
  (forall (fiber_dset_path : string) (f : file),
      fs !! fiber_dset_path = Some f ->
      exists fs' : filesystem,
        save_frangi_arrays (Some fiber_dset_path) fiber_vec_img fiber_vec_clr
          frac_anis_img frangi_img fiber_msk neuron_msk (px_value px)
          save_dir img_name fs = (Ok tt, fs') /\
        fs' !! h5 = Some f /\
        fs' !! npy = delete fiber_dset_path fs !! npy /\
        (fiber_dset_path <> h5 ->
         fiber_dset_path ∉ frangi_tif_paths save_dir img_name ->
         fs' !! fiber_dset_path = None)) /\
  (exists fs' : filesystem,
      save_frangi_arrays None fiber_vec_img fiber_vec_clr
        frac_anis_img frangi_img fiber_msk neuron_msk (px_value px)
        save_dir img_name fs = (Ok tt, fs') /\
      fs' !! npy = Some (NpyFile fiber_vec_img) /\
      fs' !! h5 = fs !! h5).
Proof.
  intros h5 npy.
  change h5 with (Path.join save_dir (frangi_name "fiber_vec" img_name +:+ ".h5")).
  change npy with (Path.join save_dir (frangi_name "fiber_vec" img_name +:+ ".npy")).
  clear h5 npy. split.
  - intros src f Hsrc. unfold save_frangi_arrays.
    unfold eff_bind at 1. unfold shutil_move. rewrite Hsrc.
    destruct (save_frangi_tifs fiber_vec_clr frac_anis_img frangi_img fiber_msk
                neuron_msk px save_dir img_name
                (<[Path.join save_dir (frangi_name "fiber_vec" img_name +:+ ".h5") := f]>
                   (delete src fs))) as (fs' & Hrun & Hkeep).
    exists fs'. split; [exact Hrun |]. split; [| split].
    + rewrite Hkeep by apply fiber_vec_h5_not_tif. apply lookup_insert_eq.
    + rewrite Hkeep by apply fiber_vec_npy_not_tif.
      apply lookup_insert_ne. intros Heq. symmetry in Heq.
      exact (fiber_vec_h5_not_npy _ _ Heq).
    + intros Hne Hnot. rewrite (Hkeep _ Hnot).
      rewrite lookup_insert_ne by congruence. apply lookup_delete_eq.
  - unfold save_frangi_arrays. unfold eff_bind at 1. rewrite save_npy.
    destruct (save_frangi_tifs fiber_vec_clr frac_anis_img frangi_img fiber_msk
                neuron_msk px save_dir img_name
                (<[Path.join save_dir (frangi_name "fiber_vec" img_name +:+ ".npy")
                     := NpyFile fiber_vec_img]> fs)) as (fs' & Hrun & Hkeep).
    exists fs'. split; [exact Hrun |]. split.
    + rewrite Hkeep by apply fiber_vec_npy_not_tif. apply lookup_insert_eq.
    + rewrite Hkeep by apply fiber_vec_h5_not_tif.
      apply lookup_insert_ne. apply fiber_vec_h5_not_npy.
Qed.

Lemma save_frangi_arrays_fiber_vec_witness :
  let dset := Hdf5File (Volume (DiskHdf5 "/tmp/fiber_vec.h5" AutoChunks) float32
                               [1; 1; 1; 3] []) in
  exists fs' : filesystem,
    save_frangi_arrays (Some "/tmp/fiber_vec.h5") VNone VNone VNone VNone VNone VNone
      (px_value (1%Q, 1%Q, 1%Q)) "/out" "vol" {["/tmp/fiber_vec.h5" := dset]}
    = (Ok tt, fs') /\
    fs' !! "/out/fiber_vec_vol.h5" = Some dset.
Proof.
  intros dset.
  destruct (proj1 (save_frangi_arrays_fiber_vec VNone VNone VNone VNone VNone VNone
                     (1%Q, 1%Q, 1%Q) "/out" "vol" {["/tmp/fiber_vec.h5" := dset]})
              "/tmp/fiber_vec.h5" dset (lookup_singleton_eq _ _))
    as (fs' & Hrun & Hh5 & _).
  exists fs'. split; [exact Hrun | exact Hh5].
Defined.

(** ** The ODF scale (C10) *)

Lemma odf_kernel_size_ceiling (odf_scale_um : Q) (px_size_iso : Q * Q * Q) :
  (0 < odf_scale_um)%Q -> (0 < px_size_iso.1.1)%Q ->
  let s := odf_kernel_size odf_scale_um px_size_iso in
  (inject_Z (s - 1) < odf_scale_um / px_size_iso.1.1)%Q /\
  (odf_scale_um / px_size_iso.1.1 <= inject_Z s)%Q /\
  1 <= s.
Proof.
  intros Hum Hpx s. subst s. unfold odf_kernel_size.
  set (q := (odf_scale_um / px_size_iso.1.1)%Q).
  split; [apply Qceiling_lt | split; [apply Qle_ceiling |]].
  assert (0 < q)%Q as Hq.
  { subst q. apply Qlt_shift_div_l; [exact Hpx |]. rewrite Qmult_0_l. exact Hum. }
  assert (0 < inject_Z (Qceiling q))%Q as Hpos
    by (eapply Qlt_le_trans; [exact Hq | apply Qle_ceiling]).
  change 0%Q with (inject_Z 0) in Hpos. rewrite <- Zlt_Qlt in Hpos. lia.
Qed.

Lemma init_odf_volumes_shapes `{Formatting} `{OdfKernels}
    (available : string -> Z) (vec_img_shape : list Z) (tmp_dir : string)
    (odf_scale odf_degrees : Z) (max_ram_mb : option Q) :
  let vols := init_odf_volumes available vec_img_shape tmp_dir odf_scale
                               odf_degrees max_ram_mb in
  let cells := map (fun d => Qceiling (inject_Z d / inject_Z odf_scale)) vec_img_shape in
  vol_shape <$> first_volume (ov_odi_pri vols) = Some cells /\
  vol_shape <$> first_volume (ov_odi_sec vols) = Some cells /\
  vol_shape <$> first_volume (ov_odi_tot vols) = Some cells /\
  vol_shape <$> first_volume (ov_odi_anis vols) = Some cells /\
  vol_shape <$> first_volume (ov_odf vols)
    = Some (cells ++ [get_sph_harm_ncoeff odf_degrees]) /\
  vol_shape <$> first_volume (ov_vec_tensor_eigen vols) = Some (cells ++ [3]) /\
  vol_shape <$> first_volume (ov_bg_mrtrix vols) = Some (reverse cells).
Proof.
  simpl. unfold odi_shape_of. rewrite !init_volume_shape. repeat split.
Qed.

Lemma init_odf_volumes_kernels `{Formatting} (K1 K2 : OdfKernels)
    (available : string -> Z) (vec_img_shape : list Z) (tmp_dir : string)
    (odf_scale odf_degrees : Z) (max_ram_mb : option Q) :
  (forall deg, @get_sph_harm_ncoeff K1 deg = @get_sph_harm_ncoeff K2 deg) ->
  @init_odf_volumes _ K1 available vec_img_shape tmp_dir odf_scale odf_degrees max_ram_mb
  = @init_odf_volumes _ K2 available vec_img_shape tmp_dir odf_scale odf_degrees max_ram_mb.
Proof. intros Hn. unfold init_odf_volumes. rewrite Hn. reflexivity. Qed.

(** C10: for a positive super-voxel side and pixel size, the scale of
    [odf_analysis] is the least integer not below
    [odf_scale_um / px_size_iso[0]], and at least 1; the ODF, ODI, tensor
    and background volumes are sized by dividing the vector volume's shape
    by that integer, rounding up; and [odf_analysis] consults the ODF
    kernels only with that integer as the cell side, on the volumes
    allocated for it. *)
Theorem odf_scale_rounds_up `{Formatting} (odf_scale_um : Q) (px_size_iso : Q * Q * Q) :
  (0 < odf_scale_um)%Q -> (0 < px_size_iso.1.1)%Q ->
  let s := odf_kernel_size odf_scale_um px_size_iso in
  ((inject_Z (s - 1) < odf_scale_um / px_size_iso.1.1)%Q /\
   (odf_scale_um / px_size_iso.1.1 <= inject_Z s)%Q /\
   1 <= s) /\
  (forall (K : OdfKernels) (available : string -> Z) (vec_img_shape : list Z)
          (tmp_dir : string) (odf_degrees : Z) (max_ram_mb : option Q),
     let vols := init_odf_volumes available vec_img_shape tmp_dir s
                                  odf_degrees max_ram_mb in
     let cells := map (fun d => Qceiling (inject_Z d / inject_Z s)) vec_img_shape in
     vol_shape <$> first_volume (ov_odi_pri vols) = Some cells /\
     vol_shape <$> first_volume (ov_odi_sec vols) = Some cells /\
     vol_shape <$> first_volume (ov_odi_tot vols) = Some cells /\
     vol_shape <$> first_volume (ov_odi_anis vols) = Some cells /\
     vol_shape <$> first_volume (ov_odf vols)
       = Some (cells ++ [get_sph_harm_ncoeff odf_degrees]) /\
     vol_shape <$> first_volume (ov_vec_tensor_eigen vols) = Some (cells ++ [3]) /\
     vol_shape <$> first_volume (ov_bg_mrtrix vols) = Some (reverse cells)) /\
  (forall (K1 K2 : OdfKernels) (available : string -> Z)
          (fiber_vec_img : volume) (iso_fiber_img : option volume)
          (save_dir tmp_dir img_name : string) (odf_norm : value)
          (odf_degrees : Z) (max_ram_mb : option Q) (fs : filesystem),
     agree_at_scale K1 K2 available fiber_vec_img tmp_dir s odf_degrees max_ram_mb ->
     @odf_analysis _ K1 available fiber_vec_img iso_fiber_img px_size_iso save_dir
        tmp_dir img_name odf_scale_um odf_norm odf_degrees max_ram_mb fs
     = @odf_analysis _ K2 available fiber_vec_img iso_fiber_img px_size_iso save_dir
         tmp_dir img_name odf_scale_um odf_norm odf_degrees max_ram_mb fs).
Proof.
  intros Hum Hpx s. split; [| split].
  - exact (odf_kernel_size_ceiling odf_scale_um px_size_iso Hum Hpx).
  - intros K available vec_img_shape tmp_dir odf_degrees max_ram_mb.
    apply init_odf_volumes_shapes.
  - intros K1 K2 available fiber_vec_img iso_fiber_img save_dir tmp_dir img_name
           odf_norm odf_degrees max_ram_mb fs (Hn & Hgen & Hest).
    unfold odf_analysis. fold s.
    rewrite <- (init_odf_volumes_kernels K1 K2 _ _ _ _ _ _ Hn).
    set (vols := @init_odf_volumes _ K1 available (removelast (vol_shape fiber_vec_img))
                   tmp_dir s odf_degrees max_ram_mb) in *.
    unfold eff_bind, eff_lift.
    rewrite <- (Hest odf_norm).
    destruct iso_fiber_img as [iso|]; rewrite <- Hgen; reflexivity.
Qed.

Lemma odf_scale_rounds_up_witness :
  let s := odf_kernel_size 25 (36 # 10, 36 # 10, 36 # 10) in
  let vols := @init_odf_volumes plain_formatting plain_odf_kernels (fun _ => 0)
                [10; 20; 30] "/tmp" s 6 None in
  ((inject_Z (s - 1) < 25 / (36 # 10))%Q /\ (25 / (36 # 10) <= inject_Z s)%Q /\ 1 <= s) /\
  vol_shape <$> first_volume (ov_odi_pri vols) = Some [2; 3; 5].
Proof.
  destruct (@odf_scale_rounds_up plain_formatting 25 (36 # 10, 36 # 10, 36 # 10)
              eq_refl eq_refl) as (Hceil & Hshapes & _).
  split; [exact Hceil |].
  exact (proj1 (Hshapes plain_odf_kernels (fun _ => 0) [10; 20; 30] "/tmp" 6 None)).
Defined.

(** * Further properties of the code *)

(** ** output.py: [save_array] *)

Lemma save_array_positional (fname save_dir : string) (nd_array px_size : value)
    (format : string) (fs : filesystem) :
  Output.save_array [VStr fname; VStr save_dir; nd_array; px_size; VStr format] [] fs
  = Output.save_array_body fname save_dir nd_array px_size format fs.
Proof. reflexivity. Qed.

Lemma tif_is_supported (f : string) :
  f ∈ ["tif"; "tiff"] -> f ∈ ["tif"; "tiff"; "npy"; "nii"].
Proof.
  intros Hin. apply elem_of_cons in Hin as [-> | Hin]; [apply list_elem_of_here |].
  apply elem_of_cons in Hin as [-> | Hin];
    [apply list_elem_of_further, list_elem_of_here |].
  destruct (not_elem_of_nil _ Hin).
Qed.

Lemma save_array_body_cases (fname save_dir : string) (nd_array px_size : value)
    (format : string) (fs : filesystem) :
  let f := Output.lower format in
  let r := Output.save_array_body fname save_dir nd_array px_size format fs in
  (exists file : file,
      (f ∈ ["tif"; "tiff"; "npy"; "nii"]) /\
      file_data file = Some nd_array /\
      r = (Ok tt, <[Path.join save_dir (fname +:+ "." +:+ f) := file]> fs)) \/
  ((f ∈ ["tif"; "tiff"]) /\
   (exists e, r = (Raise e, fs) /\ (e = TypeError \/ e = ValueError)) /\
   (px_size = VNone -> r = (Raise TypeError, fs))) \/
  ((f ∉ ["tif"; "tiff"; "npy"; "nii"]) /\ r = (Raise ValueError, fs)).
Proof.
  intros f r. subst r. unfold Output.save_array_body. fold f.
  destruct (String.eqb_spec f "tif") as [Htif|Htif];
    [| destruct (String.eqb_spec f "tiff") as [Htiff|Htiff]].
  3: destruct (String.eqb_spec f "npy") as [Hnpy|Hnpy];
    [| destruct (String.eqb_spec f "nii") as [Hnii|Hnii]].
  1, 2: cbn [orb];
    assert (f ∈ ["tif"; "tiff"]) as Hin
      by (first [rewrite Htif | rewrite Htiff]; rewrite !elem_of_cons; auto);
    pose proof (tif_is_supported f Hin) as Hin4;
    unfold eff_bind, eff_lift;
    destruct px_size as [| | | |v|[|pz [|py [|px [|more rest]]]]]; simpl;
      try (right; left; split; [exact Hin |];
           split; [eexists; split; [reflexivity | auto] | first [reflexivity | discriminate]]);
    destruct px; simpl;
      try (right; left; split; [exact Hin |];
           split; [eexists; split; [reflexivity | auto] | discriminate]);
    destruct py; simpl;
      try (right; left; split; [exact Hin |];
           split; [eexists; split; [reflexivity | auto] | discriminate]);
    left; eexists; split; [exact Hin4 | split; [| reflexivity]]; reflexivity.
  - simpl. left. exists (NpyFile nd_array). rewrite Hnpy.
    split; [rewrite !elem_of_cons; auto | split; reflexivity].
  - simpl. left. exists (NiftiFile nd_array). rewrite Hnii.
    split; [rewrite !elem_of_cons; auto | split; reflexivity].
  - simpl. right. right. split; [| reflexivity].
    rewrite !not_elem_of_cons. repeat split; try assumption. apply not_elem_of_nil.
Qed.



(** X2: when [save_array] returns, it has written exactly one file,
    [<save_dir>/<fname>.<format in lower case>], which holds the array;
    every other path of the file system is as before. *)
Theorem save_array_writes_one_file (fname save_dir : string) (nd_array px_size : value)
    (format : string) (fs : filesystem) :
  let r := Output.save_array [VStr fname; VStr save_dir; nd_array; px_size; VStr format]
                             [] fs in
  let target := Path.join save_dir (fname +:+ "." +:+ Output.lower format) in
  r.1 = Ok tt ->
  (exists file : file, r.2 !! target = Some file /\ file_data file = Some nd_array) /\
  (forall p : string, p <> target -> r.2 !! p = fs !! p) /\
  Output.lower format ∈ ["tif"; "tiff"; "npy"; "nii"].
Proof.
  intros r target. subst r. rewrite save_array_positional.
  destruct (save_array_body_cases fname save_dir nd_array px_size format fs)
    as [(file & Hin & Hdata & Hr) | [(Hin & (e' & Hr & He') & Hnone) | (Hnot & Hr)]];
    rewrite Hr; simpl; try discriminate.
  intros _. split; [| split].
  - exists file. split; [apply lookup_insert_eq | exact Hdata].
  - intros p Hp. apply lookup_insert_ne. intros Heq. apply Hp. symmetry. exact Heq.
  - exact Hin.
Qed.

Lemma save_array_writes_one_file_witness :
  exists file : file,
    (Output.save_array [VStr "fiber_vec"; VStr "/out"; VNone; VNone; VStr "NPY"] []
       (∅ : filesystem)).2 !! "/out/fiber_vec.npy" = Some file /\
    file_data file = Some VNone.
Proof.
  exact (proj1 (save_array_writes_one_file "fiber_vec" "/out" VNone VNone "NPY" ∅
                  eq_refl)).
Defined.

(** ** pipeline.py: what the save functions leave behind *)

Ltac tif_lookup :=
  repeat (rewrite lookup_insert_ne by paths_differ); apply lookup_insert_eq.

Lemma save_frangi_tifs_content
    (fiber_vec_clr frac_anis_img frangi_img fiber_msk neuron_msk : value)
    (px : Q * Q * Q) (save_dir img_name : string) (fs fs' : filesystem) :
  let tif stem := Path.join save_dir (frangi_name stem img_name +:+ ".tif") in
  let tagged arr := TiffFile arr (/ px.2, / px.1.2)%Q (VFloat px.1.1) in
  (Output.save_array
     [VStr (frangi_name "fiber_cmap" img_name); VStr save_dir; fiber_vec_clr; px_value px] [];;;
   Output.save_array
     [VStr (frangi_name "frac_anis" img_name); VStr save_dir; frac_anis_img; px_value px] [];;;
   Output.save_array
     [VStr (frangi_name "frangi" img_name); VStr save_dir; frangi_img; px_value px] [];;;
   Output.save_array
     [VStr (frangi_name "fiber_msk" img_name); VStr save_dir; fiber_msk; px_value px] [];;;
   match neuron_msk with
   | VNone => eff_ret tt
   | _ =>
       Output.save_array
         [VStr (frangi_name "neuron_msk" img_name); VStr save_dir; neuron_msk; px_value px] []
   end) fs = (Ok tt, fs') ->
  fs' !! tif "fiber_cmap" = Some (tagged fiber_vec_clr) /\
  fs' !! tif "frac_anis" = Some (tagged frac_anis_img) /\
  fs' !! tif "frangi" = Some (tagged frangi_img) /\
  fs' !! tif "fiber_msk" = Some (tagged fiber_msk) /\
  fs' !! tif "neuron_msk"
  = match neuron_msk with
    | VNone => fs !! tif "neuron_msk"
    | _ => Some (tagged neuron_msk)
    end.
Proof.
  intros tif tagged. subst tif tagged. cbv beta.
  unfold eff_bind. rewrite !save_tif.
  destruct neuron_msk; rewrite ?save_tif; unfold eff_ret;
    intros [= <-]; repeat split; tif_lookup || (rewrite !lookup_insert_ne by paths_differ; reflexivity).
Qed.

Lemma neuron_tif_not_fiber_vec (save_dir img_name : string) :
  Path.join save_dir (frangi_name "neuron_msk" img_name +:+ ".tif")
  <> Path.join save_dir (frangi_name "fiber_vec" img_name +:+ ".h5") /\
  Path.join save_dir (frangi_name "neuron_msk" img_name +:+ ".tif")
  <> Path.join save_dir (frangi_name "fiber_vec" img_name +:+ ".npy").
Proof. split; paths_differ. Qed.

Lemma save_frangi_arrays_after_vectors (fiber_dset_path : option string)
    (fiber_vec_img fiber_vec_clr frac_anis_img frangi_img fiber_msk neuron_msk : value)
    (px : Q * Q * Q) (save_dir img_name : string) (fs fs1 : filesystem) :
  let tif stem := Path.join save_dir (frangi_name stem img_name +:+ ".tif") in
  let tagged arr := TiffFile arr (/ px.2, / px.1.2)%Q (VFloat px.1.1) in
  (exists src f, fiber_dset_path = Some src /\ fs !! src = Some f /\
                 fs1 = <[Path.join save_dir (frangi_name "fiber_vec" img_name +:+ ".h5") := f]>
                         (delete src fs)) \/
  (fiber_dset_path = None /\
   fs1 = <[Path.join save_dir (frangi_name "fiber_vec" img_name +:+ ".npy")
             := NpyFile fiber_vec_img]> fs) ->
  exists fs2 : filesystem,
    save_frangi_arrays fiber_dset_path fiber_vec_img fiber_vec_clr
      frac_anis_img frangi_img fiber_msk neuron_msk (px_value px)
      save_dir img_name fs = (Ok tt, fs2) /\
    fs2 !! tif "fiber_cmap" = Some (tagged fiber_vec_clr) /\
    fs2 !! tif "frac_anis" = Some (tagged frac_anis_img) /\
    fs2 !! tif "frangi" = Some (tagged frangi_img) /\
    fs2 !! tif "fiber_msk" = Some (tagged fiber_msk) /\
    fs2 !! tif "neuron_msk"
    = match neuron_msk with
      | VNone => fs1 !! tif "neuron_msk"
      | _ => Some (tagged neuron_msk)
      end.
Proof.
  intros tif tagged Hvec.
  destruct (save_frangi_tifs fiber_vec_clr frac_anis_img frangi_img fiber_msk
              neuron_msk px save_dir img_name fs1) as (fs2 & Hrun & _).
  exists fs2. split.
  - destruct Hvec as [(src & f & -> & Hsrc & ->) | (-> & ->)];
      unfold save_frangi_arrays; unfold eff_bind at 1.
    + unfold shutil_move. rewrite Hsrc. exact Hrun.
    + rewrite save_npy. exact Hrun.
  - exact (save_frangi_tifs_content _ _ _ _ _ _ _ _ _ _ Hrun).
Qed.

(** X3: [save_frangi_arrays] with a dataset path whose file is not there
    raises FileNotFoundError and saves nothing. When it returns, the
    colormap, anisotropy, Frangi and fiber-mask TIFFs hold the arrays it was
    given, tagged with the resolution (1/px_x, 1/px_y) and the spacing px_z
    of the (Z, Y, X) pixel size; the neuron mask is saved the same way when
    it is not None, and its path is left alone when it is None. *)
Theorem save_frangi_arrays_outcome (fiber_dset_path : option string)
    (fiber_vec_img fiber_vec_clr frac_anis_img frangi_img fiber_msk neuron_msk : value)
    (px : Q * Q * Q) (save_dir img_name : string) (fs : filesystem) :
  let run := save_frangi_arrays fiber_dset_path fiber_vec_img fiber_vec_clr
               frac_anis_img frangi_img fiber_msk neuron_msk (px_value px)
               save_dir img_name fs in
  let tif stem := Path.join save_dir (frangi_name stem img_name +:+ ".tif") in
  let tagged arr := TiffFile arr (/ px.2, / px.1.2)%Q (VFloat px.1.1) in
  (forall src, fiber_dset_path = Some src -> fs !! src = None ->
               run = (Raise FileNotFoundError, fs)) /\
  (run.1 = Ok tt ->
   run.2 !! tif "fiber_cmap" = Some (tagged fiber_vec_clr) /\
   run.2 !! tif "frac_anis" = Some (tagged frac_anis_img) /\
   run.2 !! tif "frangi" = Some (tagged frangi_img) /\
   run.2 !! tif "fiber_msk" = Some (tagged fiber_msk) /\
   (neuron_msk <> VNone -> run.2 !! tif "neuron_msk" = Some (tagged neuron_msk)) /\
   (neuron_msk = VNone -> fiber_dset_path <> Some (tif "neuron_msk") ->
    run.2 !! tif "neuron_msk" = fs !! tif "neuron_msk")).
Proof.
  intros run tif tagged.
  assert (forall src, fiber_dset_path = Some src -> fs !! src = None ->
                      run = (Raise FileNotFoundError, fs)) as Hmiss.
  { intros src -> Hmissing. subst run. unfold save_frangi_arrays.
    unfold eff_bind at 1. unfold shutil_move. rewrite Hmissing. reflexivity. }
  split; [exact Hmiss |]. intros Hok.
  assert (exists fs1 : filesystem,
             ((exists src f, fiber_dset_path = Some src /\ fs !! src = Some f /\
                 fs1 = <[Path.join save_dir (frangi_name "fiber_vec" img_name +:+ ".h5") := f]>
                         (delete src fs)) \/
              (fiber_dset_path = None /\
               fs1 = <[Path.join save_dir (frangi_name "fiber_vec" img_name +:+ ".npy")
                         := NpyFile fiber_vec_img]> fs)) /\
             (fiber_dset_path <> Some (tif "neuron_msk") ->
              fs1 !! tif "neuron_msk" = fs !! tif "neuron_msk")) as (fs1 & Hvec & Hsame).
  { destruct fiber_dset_path as [src|].
    - destruct (fs !! src) as [f|] eqn:Hsrc.
      + eexists. split;
          [left; exists src, f; split; [reflexivity | split; [exact Hsrc | reflexivity]] |].
        intros Hne.
        rewrite lookup_insert_ne
          by (apply not_eq_sym, (neuron_tif_not_fiber_vec save_dir img_name)).
        apply lookup_delete_ne. congruence.
      + rewrite (Hmiss src eq_refl Hsrc) in Hok. discriminate.
    - eexists. split; [right; split; reflexivity |]. intros _.
      apply lookup_insert_ne, not_eq_sym, (neuron_tif_not_fiber_vec save_dir img_name). }
  destruct (save_frangi_arrays_after_vectors fiber_dset_path fiber_vec_img fiber_vec_clr
              frac_anis_img frangi_img fiber_msk neuron_msk px save_dir img_name fs fs1
              Hvec) as (fs2 & Hrun & H1 & H2 & H3 & H4 & H5).
  subst run tif tagged. cbv beta in *. rewrite Hrun. cbn [fst snd].
  repeat split; try assumption.
  - intros Hn. rewrite H5. destruct neuron_msk; try reflexivity; contradiction.
  - intros -> Hne. rewrite H5. exact (Hsame Hne).
Qed.

Lemma save_frangi_arrays_outcome_witness :
  save_frangi_arrays (Some "/tmp/fiber_vec.h5") VNone VNone VNone VNone VNone VNone
    (px_value (1%Q, 1%Q, 1%Q)) "/out" "vol" (∅ : filesystem)
  = (Raise FileNotFoundError, ∅).
Proof.
  exact (proj1 (save_frangi_arrays_outcome (Some "/tmp/fiber_vec.h5") VNone VNone VNone
                  VNone VNone VNone (1%Q, 1%Q, 1%Q) "/out" "vol" ∅)
               "/tmp/fiber_vec.h5" eq_refl (lookup_empty _)).
Defined.

(** ** pipeline.py: the ODF stage cannot finish *)



(** ** pipeline.py: what a tile writes *)

Ltac settle_frame :=
  match goal with o : outputs |- _ =>
    destruct o as [o1 o2 o3 o4 o5 o6 [o7|]]
  end;
  reduce_eff;
  try match goal with
      | Hm : negb _ = _ |- _ => rewrite Hm
      end;
  reduce_eff;
  repeat (match goal with
          | |- context [Np.getitem_z ?z ?a] => destruct (Np.getitem_z z a)
          end; reduce_eff);
  (split;
   [ intros f; destruct f; unfold at_most_one_write; cbn;
     first [ left; reflexivity | right; do 2 eexists; split; reflexivity ]
   | first [ intros _; reflexivity | intros Hlpf; discriminate Hlpf ] ]).

(** X5: a call of [fiber_analysis] assigns to each output volume at most
    once, and only at the tile's output range (with the three vector
    components appended for the orientation and colormap volumes); shape,
    element type and backing of the volumes stay as they are, and without
    soma masking the neuron mask is not touched at all. *)
Theorem fiber_analysis_frame `{TileKernels}
    (img : image) (rng_in rng_in_neu rng_out : list pyslice)
    (pad_mat : list (Z * Z)) (smooth_sigma : option (list Q)) (scales_px : list Q)
    (px_rsz_ratio : Q * Q * Q) (z_sel : pyslice)
    (ch_neuron ch_fiber : Z) (alpha beta gamma : Q)
    (dark orient_cmap lpf_soma_mask mosaic : bool) (outs : outputs) :
  let o' := (fiber_analysis img rng_in rng_in_neu rng_out pad_mat smooth_sigma
               scales_px px_rsz_ratio z_sel ch_neuron ch_fiber alpha beta gamma
               dark orient_cmap lpf_soma_mask mosaic outs).2 in
  (forall f : out_field,
      at_most_one_write (field_range rng_out f) (field_volume f outs) (field_volume f o')) /\
  (lpf_soma_mask = false -> neuron_msk o' = neuron_msk outs).
Proof.
  intros o'. subst o'. unfold fiber_analysis.
  destruct (Np.max (slice_channel img rng_in ch_fiber mosaic)) as [m|e] eqn:Hmax;
    [| settle_frame].
  destruct (negb (m =? 0)) eqn:Hm; [| settle_frame].
  destruct (correct_image_anisotropy (slice_channel img rng_in ch_fiber mosaic)
              px_rsz_ratio smooth_sigma (Some pad_mat)) as [iso pad] eqn:Hiso.
  destruct (frangi_filter iso scales_px alpha beta gamma dark) as [[fr fv] ev] eqn:Hfr.
  match goal with |- context [mask_background ?a ?b ?c None "li" false] =>
    destruct (mask_background a b c None "li" false) as [[[[fv1 oc1] fa1] bg1]|e] eqn:Hmask
  end; [| settle_frame].
  destruct lpf_soma_mask.
  - cbv beta iota delta [eff_bind eff_lift eff_ret].
    match goal with |- context [mask_background ?a ?b ?c ?d "yen" true] =>
      destruct (mask_background a b c d "yen" true) as [[[[fv2 oc2] fa2] bg2]|e] eqn:Hsoma
    end; settle_frame.
  - settle_frame.
Qed.

(** ** pipeline.py: more on [mask_background] *)

Lemma mask_row_inv {A : Type} (zero : A) (m : list bool) (r : list A) :
  match Np.mask_row zero m r with
  | Ok _ => length m = length r
  | Raise e => e = IndexError /\ length m <> length r
  end.
Proof.
  revert r. induction m as [|b m IH]; intros [|v r]; simpl;
    try (split; [reflexivity | discriminate]); [reflexivity |].
  specialize (IH r). destruct (Np.mask_row zero m r); simpl.
  - congruence.
  - destruct IH as [-> Hne]. split; [reflexivity | congruence].
Qed.

Lemma zip_res_inv {A B C : Type} (f : A -> B -> res C) (P : A -> B -> Prop)
    (l : list A) (k : list B) :
  (forall a b, match f a b with
               | Ok _ => P a b
               | Raise e => e = IndexError /\ ~ P a b
               end) ->
  match Np.zip_res f l k with
  | Ok _ => Forall2 P l k
  | Raise e => e = IndexError /\ ~ Forall2 P l k
  end.
Proof.
  intros Hf. revert k. induction l as [|a l IH]; intros [|b k]; simpl;
    try (split; [reflexivity | intros Hall; inversion Hall]); [constructor |].
  specialize (Hf a b). destruct (f a b) as [c|e]; simpl.
  - specialize (IH k). destruct (Np.zip_res f l k) as [cs|e]; simpl.
    + constructor; assumption.
    + destruct IH as [-> Hnot]. split; [reflexivity |].
      intros Hall. inversion Hall; subst. contradiction.
  - destruct Hf as [-> Hnot]. split; [reflexivity |].
    intros Hall. inversion Hall; subst. contradiction.
Qed.

Lemma mask_assign_inv {A : Type} (zero : A) (m : ndarray bool) (a : ndarray A) :
  match Np.mask_assign zero m a with
  | Ok _ => same_shape m a
  | Raise e => e = IndexError /\ ~ same_shape m a
  end.
Proof.
  unfold Np.mask_assign, same_shape.
  apply (zip_res_inv _ (Forall2 (fun (r : list bool) (s : list A) => length r = length s))).
  intros mp ap.
  apply (zip_res_inv _ (fun (r : list bool) (s : list A) => length r = length s)).
  intros mr ar. apply mask_row_inv.
Qed.

Lemma Forall2_map_l_inv {A B C : Type} (f : A -> B) (P : B -> C -> Prop)
    (l : list A) (k : list C) :
  Forall2 P (map f l) k -> Forall2 (fun a c => P (f a) c) l k.
Proof.
  revert k. induction l as [|a l IH]; intros k Hall; simpl in Hall;
    inversion Hall; subst; constructor; auto.
Qed.

Lemma same_shape_amap_l_inv {A A' B : Type} (f : A -> A') (a : ndarray A)
    (b : ndarray B) :
  same_shape (Np.amap f a) b -> same_shape a b.
Proof.
  unfold same_shape, Np.amap. intros Hshape. apply Forall2_map_l_inv in Hshape.
  eapply Forall2_impl; [exact Hshape |]. intros pa pb Hplane. simpl in Hplane.
  apply Forall2_map_l_inv in Hplane. eapply Forall2_impl; [exact Hplane |].
  intros ra rb Hrow. simpl in Hrow. rewrite length_map in Hrow. exact Hrow.
Qed.

(** X6: [mask_background] returns exactly when the orientation vectors, the
    colormap and, if given, the fractional anisotropy have the (Z, Y, X)
    shape of the mask computed from the image; in every other case it
    raises an IndexError. *)
Theorem mask_background_returns_iff `{TileKernels}
    (img : ndarray R) (fiber_vec_slice : ndarray vec3) (orientcol_slice : ndarray rgb)
    (frac_anis_slice : option (ndarray R)) (thresh_method : string) (invert : bool) :
  let background := create_background_mask img thresh_method in
  let run := mask_background img fiber_vec_slice orientcol_slice frac_anis_slice
                             thresh_method invert in
  (returns run <->
   same_shape background fiber_vec_slice /\
   same_shape background orientcol_slice /\
   (forall fa, frac_anis_slice = Some fa -> same_shape background fa)) /\
  (forall e, run = Raise e -> e = IndexError).
Proof.
  intros background run. subst run. unfold mask_background. fold background.
  set (mask := if invert then Np.logical_not background else background).
  assert (forall (B : Type) (b : ndarray B), same_shape mask b <-> same_shape background b)
    as Hmask.
  { intros B b. subst mask. destruct invert; [| reflexivity].
    split; [apply same_shape_amap_l_inv | apply same_shape_amap_l]. }
  pose proof (mask_assign_inv (0, 0, 0)%R mask fiber_vec_slice) as Hvec.
  destruct (Np.mask_assign (0, 0, 0)%R mask fiber_vec_slice) as [vec'|e]; simpl.
  2:{ destruct Hvec as [-> Hnot]. split; [| intros e [= <-]; reflexivity].
      split; [intros [? [=]] | intros (Hv & _); exfalso; apply Hnot, Hmask, Hv]. }
  pose proof (mask_assign_inv (0, 0, 0) mask orientcol_slice) as Hcol.
  destruct (Np.mask_assign (0, 0, 0) mask orientcol_slice) as [col'|e]; simpl.
  2:{ destruct Hcol as [-> Hnot]. split; [| intros e [= <-]; reflexivity].
      split; [intros [? [=]] | intros (_ & Hc & _); exfalso; apply Hnot, Hmask, Hc]. }
  destruct frac_anis_slice as [fa|].
  - pose proof (mask_assign_inv 0%R mask fa) as Hfa.
    destruct (Np.mask_assign 0%R mask fa) as [fa'|e]; simpl.
    + split; [| discriminate].
      split; [| intros _; eexists; reflexivity].
      intros _. repeat split; try (apply Hmask; assumption).
      intros fa0 [= <-]. apply Hmask. exact Hfa.
    + destruct Hfa as [-> Hnot]. split; [| intros e [= <-]; reflexivity].
      split; [intros [? [=]] |].
      intros (_ & _ & Hf). exfalso. apply Hnot, Hmask, (Hf fa eq_refl).
  - split; [| discriminate].
    split; [| intros _; eexists; reflexivity].
    intros _. repeat split; try (apply Hmask; assumption). discriminate.
Qed.

Lemma mask_background_returns_iff_witness :
  ~ returns (@mask_background plain_kernels [[[1%R; 2%R]]] [[[(1, 0, 0)%R]]]
               [[[(255, 0, 0); (0, 255, 0)]]] None "li" false).
Proof.
  intros Hret.
  destruct (proj1 (proj1 (@mask_background_returns_iff plain_kernels [[[1%R; 2%R]]]
                            [[[(1, 0, 0)%R]]] [[[(255, 0, 0); (0, 255, 0)]]]
                            None "li" false)) Hret) as (Hvec & _).
  inversion Hvec as [|? ? ? ? Hplane _]; subst.
  inversion Hplane as [|? ? ? ? Hrow _]; subst.
  discriminate Hrow.
Defined.

Lemma zip_with_mask_idem {A : Type} (zero : A) (m : list bool) (r : list A) :
  zip_with (fun (b : bool) v => if b then zero else v) m
           (zip_with (fun (b : bool) v => if b then zero else v) m r)
  = zip_with (fun (b : bool) v => if b then zero else v) m r.
Proof.
  revert r. induction m as [|b m IH]; intros [|v r]; simpl; try reflexivity.
  rewrite IH. destruct b; reflexivity.
Qed.

Lemma zip_with_idem {A B : Type} (f : A -> B -> B) (l : list A) (k : list B) :
  (forall a b, f a (f a b) = f a b) ->
  zip_with f l (zip_with f l k) = zip_with f l k.
Proof.
  intros Hf. revert k. induction l as [|a l IH]; intros [|b k]; simpl; try reflexivity.
  rewrite IH, Hf. reflexivity.
Qed.

Lemma azip_mask_idem {A : Type} (zero : A) (m : ndarray bool) (a : ndarray A) :
  azip (fun (b : bool) v => if b then zero else v) m
       (azip (fun (b : bool) v => if b then zero else v) m a)
  = azip (fun (b : bool) v => if b then zero else v) m a.
Proof.
  unfold azip. apply zip_with_idem. intros mp ap.
  apply zip_with_idem. intros mr ar. apply zip_with_mask_idem.
Qed.

Lemma Forall2_zip_with_r {A B : Type} (P : A -> B -> Prop) (f : A -> B -> B)
    (l : list A) (k : list B) :
  (forall a b, P a b -> P a (f a b)) ->
  Forall2 P l k -> Forall2 P l (zip_with f l k).
Proof. intros Hf. induction 1; simpl; constructor; auto. Qed.

Lemma same_shape_azip {A : Type} (f : bool -> A -> A) (m : ndarray bool) (a : ndarray A) :
  same_shape m a -> same_shape m (azip f m a).
Proof.
  unfold same_shape, azip. apply Forall2_zip_with_r. intros mp ap.
  apply Forall2_zip_with_r. intros mr ar Hlen.
  rewrite length_zip_with. lia.
Qed.

Lemma mask_assign_idem {A : Type} (zero : A) (m : ndarray bool) (a a' : ndarray A) :
  Np.mask_assign zero m a = Ok a' -> Np.mask_assign zero m a' = Ok a'.
Proof.
  intros Hrun. pose proof (mask_assign_inv zero m a) as Hshape.
  rewrite Hrun in Hshape. rewrite (mask_assign_ok zero m a Hshape) in Hrun.
  injection Hrun as <-.
  rewrite (mask_assign_ok zero m _ (same_shape_azip _ m a Hshape)).
  rewrite azip_mask_idem. reflexivity.
Qed.

(** X7: masking is idempotent: [mask_background] on the arrays it has
    returned, with the same image, threshold and inversion, returns them
    unchanged. *)
Theorem mask_background_idempotent `{TileKernels}
    (img : ndarray R) (fiber_vec_slice : ndarray vec3) (orientcol_slice : ndarray rgb)
    (frac_anis_slice : option (ndarray R)) (thresh_method : string) (invert : bool)
    (vec' : ndarray vec3) (col' : ndarray rgb) (fa' : option (ndarray R))
    (mask : ndarray bool) :
  mask_background img fiber_vec_slice orientcol_slice frac_anis_slice
                  thresh_method invert = Ok (vec', col', fa', mask) ->
  mask_background img vec' col' fa' thresh_method invert = Ok (vec', col', fa', mask).
Proof.
  unfold mask_background.
  set (m := if invert then Np.logical_not (create_background_mask img thresh_method)
            else create_background_mask img thresh_method).
  destruct (Np.mask_assign (0, 0, 0)%R m fiber_vec_slice) as [v1|e] eqn:Hv;
    simpl; [| discriminate].
  destruct (Np.mask_assign (0, 0, 0) m orientcol_slice) as [c1|e] eqn:Hc;
    simpl; [| discriminate].
  destruct frac_anis_slice as [fa|].
  - destruct (Np.mask_assign 0%R m fa) as [f1|e] eqn:Hf; simpl; [| discriminate].
    intros [= <- <- <- <-].
    rewrite (mask_assign_idem _ _ _ _ Hv). simpl.
    rewrite (mask_assign_idem _ _ _ _ Hc). simpl.
    rewrite (mask_assign_idem _ _ _ _ Hf). reflexivity.
  - intros [= <- <- <- <-].
    rewrite (mask_assign_idem _ _ _ _ Hv). simpl.
    rewrite (mask_assign_idem _ _ _ _ Hc). reflexivity.
Qed.

Lemma mask_background_idempotent_witness :
  @mask_background plain_kernels [[[1%R; 2%R]]] [[[(0, 0, 0)%R; (0, 0, 0)%R]]]
    [[[(0, 0, 0); (0, 0, 0)]]] None "yen" true
  = Ok ([[[(0, 0, 0)%R; (0, 0, 0)%R]]], [[[(0, 0, 0); (0, 0, 0)]]], None,
        [[[true; true]]]).
Proof.
  apply (@mask_background_idempotent plain_kernels [[[1%R; 2%R]]]
           [[[(1, 0, 0)%R; (0, 1, 0)%R]]] [[[(255, 0, 0); (0, 255, 0)]]] None "yen" true).
  reflexivity.
Defined.

(** ** pipeline.py: more on the fractional anisotropy *)

Open Scope R_scope.

Lemma sum_sq_zero (a b c : R) : a ^ 2 + b ^ 2 + c ^ 2 = 0 -> a = 0 /\ b = 0 /\ c = 0.
Proof.
  intros Hsum. pose proof (pow2_ge_0 a). pose proof (pow2_ge_0 b).
  pose proof (pow2_ge_0 c).
  assert (a ^ 2 = 0) as Ha by lra. assert (b ^ 2 = 0) as Hb by lra.
  assert (c ^ 2 = 0) as Hc by lra.
  repeat split; nra.
Qed.

Lemma fa_formula_zero_iff (l0 l1 l2 : R) :
  fa_formula (l0, l1, l2) = 0 <-> l0 = l1 /\ l1 = l2.
Proof.
  unfold fa_formula.
  set (num := (l0 - l1) ^ 2 + (l0 - l2) ^ 2 + (l1 - l2) ^ 2).
  set (den := l0 ^ 2 + l1 ^ 2 + l2 ^ 2).
  destruct (fa_radicand_bounds l0 l1 l2) as [[Hlo _] _]. fold num den in Hlo.
  split.
  - intros Hsqrt. apply sqrt_eq_0 in Hsqrt; [| exact Hlo].
    destruct (Req_dec_T den 0) as [Hz|Hnz].
    + subst den. destruct (sum_sq_zero _ _ _ Hz) as (-> & -> & ->). split; reflexivity.
    + assert (num / den = 0) as Hq by lra.
      assert (num = 0) as Hnum.
      { replace num with (num / den * den) by (field; exact Hnz). rewrite Hq. ring. }
      subst num. destruct (sum_sq_zero _ _ _ Hnum) as (H01 & H02 & H12).
      split; lra.
  - intros [-> ->].
    assert (num = 0) as -> by (subst num; ring).
    destruct (Req_dec_T den 0); [rewrite Rmult_0_r |
      unfold Rdiv; rewrite Rmult_0_l, Rmult_0_r]; apply sqrt_0.
Qed.

(** X8: the fractional anisotropy of a voxel is 0 exactly when its three
    eigenvalues are equal (the all-zero triplet included). *)
Theorem fractional_anisotropy_zero_iff (eigenval : ndarray vec3) (z y x : nat)
    (l0 l1 l2 : R) :
  voxel eigenval z y x = Some (l0, l1, l2) ->
  (voxel (compute_fractional_anisotropy eigenval) z y x = Some 0 <-> l0 = l1 /\ l1 = l2).
Proof.
  intros Hvox. rewrite compute_fractional_anisotropy_pointwise, voxel_amap, Hvox.
  cbn [fmap option_fmap option_map]. split.
  - intros [= Hv]. apply fa_formula_zero_iff. exact Hv.
  - intros Heq. f_equal. apply fa_formula_zero_iff. exact Heq.
Qed.

Lemma fractional_anisotropy_zero_iff_witness :
  voxel (compute_fractional_anisotropy [[[(2, 2, 2)]]]) 0 0 0 = Some 0.
Proof.
  apply (proj2 (fractional_anisotropy_zero_iff [[[(2, 2, 2)]]] 0 0 0 2 2 2 eq_refl)).
  split; reflexivity.
Defined.

Lemma fa_formula_scale (k : R) (l : vec3) :
  k <> 0 -> fa_formula (scale3 k l) = fa_formula l.
Proof.
  intros Hk. destruct l as [[l0 l1] l2]. unfold fa_formula, scale3.
  assert ((k * l0) ^ 2 + (k * l1) ^ 2 + (k * l2) ^ 2
          = k ^ 2 * (l0 ^ 2 + l1 ^ 2 + l2 ^ 2)) as Hden by ring.
  assert (k ^ 2 <> 0) as Hk2 by (apply pow_nonzero; exact Hk).
  destruct (Req_dec_T ((k * l0) ^ 2 + (k * l1) ^ 2 + (k * l2) ^ 2) 0) as [Hz'|Hnz'];
    destruct (Req_dec_T (l0 ^ 2 + l1 ^ 2 + l2 ^ 2) 0) as [Hz|Hnz].
  - reflexivity.
  - exfalso. rewrite Hden in Hz'. apply Rmult_integral in Hz'. tauto.
  - exfalso. apply Hnz'. rewrite Hden, Hz. ring.
  - f_equal. f_equal. field. split; assumption.
Qed.

Lemma fa_formula_swap01 (l : vec3) : fa_formula (swap01 l) = fa_formula l.
Proof.
  destruct l as [[l0 l1] l2]. unfold fa_formula, swap01.
  replace (l1 ^ 2 + l0 ^ 2 + l2 ^ 2) with (l0 ^ 2 + l1 ^ 2 + l2 ^ 2) by ring.
  replace ((l1 - l0) ^ 2 + (l1 - l2) ^ 2 + (l0 - l2) ^ 2)
    with ((l0 - l1) ^ 2 + (l0 - l2) ^ 2 + (l1 - l2) ^ 2) by ring.
  reflexivity.
Qed.

Lemma fa_formula_rotate3 (l : vec3) : fa_formula (rotate3 l) = fa_formula l.
Proof.
  destruct l as [[l0 l1] l2]. unfold fa_formula, rotate3.
  replace (l1 ^ 2 + l2 ^ 2 + l0 ^ 2) with (l0 ^ 2 + l1 ^ 2 + l2 ^ 2) by ring.
  replace ((l1 - l2) ^ 2 + (l1 - l0) ^ 2 + (l2 - l0) ^ 2)
    with ((l0 - l1) ^ 2 + (l0 - l2) ^ 2 + (l1 - l2) ^ 2) by ring.
  reflexivity.
Qed.

(** X9: the fractional anisotropy field does not change when every
    eigenvalue triplet is scaled by the same non-zero factor, nor when the
    eigenvalues of every triplet are reordered (swapping two of them and
    rotating the three generate all orders). *)
Theorem fractional_anisotropy_invariant (eigenval : ndarray vec3) (k : R) :
  k <> 0 ->
  compute_fractional_anisotropy (Np.amap (scale3 k) eigenval)
  = compute_fractional_anisotropy eigenval /\
  compute_fractional_anisotropy (Np.amap swap01 eigenval)
  = compute_fractional_anisotropy eigenval /\
  compute_fractional_anisotropy (Np.amap rotate3 eigenval)
  = compute_fractional_anisotropy eigenval.
Proof.
  intros Hk. rewrite !compute_fractional_anisotropy_pointwise, !amap_amap.
  repeat split; apply amap_ext; intros l.
  - apply fa_formula_scale. exact Hk.
  - apply fa_formula_swap01.
  - apply fa_formula_rotate3.
Qed.

Lemma fractional_anisotropy_invariant_witness :
  compute_fractional_anisotropy (Np.amap (scale3 (-2)) [[[(3, 1, 0)]]])
  = compute_fractional_anisotropy [[[(3, 1, 0)]]].
Proof.
  apply (fractional_anisotropy_invariant [[[(3, 1, 0)]]] (-2)). lra.
Defined.

Close Scope R_scope.

(** ** pipeline.py: the volumes of the Frangi stage *)

Lemma init_volume_path available shape d chunks name tmp mode ram :
  (init_volume available shape d chunks name tmp mode ram).2
  = match vol_backing (init_volume available shape d chunks name tmp mode ram).1 with
    | DiskHdf5 p _ => Some p
    | MemoryMap _ => None
    end.
Proof. unfold init_volume. destruct (Qle_bool _ _); reflexivity. Qed.

Lemma init_volume_fresh available shape d chunks name tmp mode ram :
  vol_dtype (init_volume available shape d chunks name tmp mode ram).1 = d /\
  vol_writes (init_volume available shape d chunks name tmp mode ram).1 = [].
Proof. unfold init_volume. destruct (Qle_bool _ _); split; reflexivity. Qed.

(** How [init_frangi_volumes] builds its result from [init_volume]. *)
Lemma init_frangi_volumes_allocations (available : string -> Z)
    (img_shape slice_shape : Z * Z * Z) (resize_ratio : Q * Q * Q) (tmp_dir : string)
    (z_min : Z) (z_max : option Z) (lpf_soma_mask : bool) (max_ram_mb : option Q) :
  exists (shape chunks : list Z),
    let alloc d name :=
      init_volume (available name) shape d (Chunks chunks) name tmp_dir "r+" max_ram_mb in
    let alloc4 d name :=
      init_volume (available name) (shape ++ [3]) d (Chunks (chunks ++ [3])) name tmp_dir
                  "r+" max_ram_mb in
    init_frangi_volumes available img_shape slice_shape resize_ratio tmp_dir
                        z_min z_max lpf_soma_mask max_ram_mb
    = FrangiVolumes (alloc4 float32 "fiber_vec").2 (alloc4 float32 "fiber_vec").1
        (alloc4 uint8 "fiber_cmap").1 (alloc uint8 "frac_anis").1
        (alloc uint8 "frangi").1 (alloc uint8 "fiber_msk").1 (alloc uint8 "iso_fiber").1
        (if lpf_soma_mask then Some (alloc uint8 "neuron_msk").1 else None)
        (fv_z_sel (init_frangi_volumes available img_shape slice_shape resize_ratio
                     tmp_dir z_min z_max lpf_soma_mask max_ram_mb)).
Proof.
  unfold init_frangi_volumes.
  destruct img_shape as [[iz iy] ix], slice_shape as [[sz sy] sx],
    resize_ratio as [[rz ry] rx].
  destruct (negb (z_min =? 0) || bool_decide (z_max <> None)); cbv zeta;
    cbn [shape3 resized_shape fst snd].
  - exists [Qceiling (rz * inject_Z (default sz z_max - z_min));
            Qceiling (ry * inject_Z iy); Qceiling (rx * inject_Z ix)],
           [Qceiling (rz * inject_Z (default sz z_max - z_min)); sy; sx].
    cbn [app].
    destruct (init_volume (available "fiber_vec") _ float32 _ _ _ _ _); reflexivity.
  - exists [Qceiling (rz * inject_Z iz);
            Qceiling (ry * inject_Z iy); Qceiling (rx * inject_Z ix)],
           [Qceiling (rz * inject_Z iz); sy; sx].
    cbn [app].
    destruct (init_volume (available "fiber_vec") _ float32 _ _ _ _ _); reflexivity.
Qed.

(** X10: of the volumes of [init_frangi_volumes], the dataset path is not
    None exactly when the orientation vectors are an HDF5 dataset, and is
    then the path of its file; the neuron mask exists exactly when soma
    masking is on; the orientation vectors are float32 and everything else
    uint8; the scalar volumes share one shape, the two vector volumes have
    that shape with a trailing 3; and no volume has been written to. *)
Theorem init_frangi_volumes_layout (available : string -> Z)
    (img_shape slice_shape : Z * Z * Z) (resize_ratio : Q * Q * Q) (tmp_dir : string)
    (z_min : Z) (z_max : option Z) (lpf_soma_mask : bool) (max_ram_mb : option Q) :
  let vols := init_frangi_volumes available img_shape slice_shape resize_ratio tmp_dir
                z_min z_max lpf_soma_mask max_ram_mb in
  let scalars := [fv_frac_anis_img vols; fv_frangi_img vols; fv_fiber_msk vols;
                  fv_iso_fiber_img vols] ++ option_list (fv_neuron_msk vols) in
  let shape := vol_shape (fv_iso_fiber_img vols) in
  fv_fiber_dset_path vols
  = match vol_backing (fv_fiber_vec_img vols) with
    | DiskHdf5 p _ => Some p
    | MemoryMap _ => None
    end /\
  (fv_neuron_msk vols <> None <-> lpf_soma_mask = true) /\
  vol_dtype (fv_fiber_vec_img vols) = float32 /\
  Forall (fun v => vol_dtype v = uint8) (fv_fiber_vec_clr vols :: scalars) /\
  Forall (fun v => vol_shape v = shape) scalars /\
  vol_shape (fv_fiber_vec_img vols) = shape ++ [3] /\
  vol_shape (fv_fiber_vec_clr vols) = shape ++ [3] /\
  Forall (fun v => vol_writes v = [])
         (fv_fiber_vec_img vols :: fv_fiber_vec_clr vols :: scalars).
Proof.
  intros vols scalars shape. subst scalars shape vols.
  destruct (init_frangi_volumes_allocations available img_shape slice_shape resize_ratio
              tmp_dir z_min z_max lpf_soma_mask max_ram_mb) as (shape & chunks & Heq).
  cbv zeta in Heq. rewrite Heq. cbn [fv_fiber_dset_path fv_fiber_vec_img fv_fiber_vec_clr
    fv_frac_anis_img fv_frangi_img fv_fiber_msk fv_iso_fiber_img fv_neuron_msk].
  rewrite !init_volume_shape.
  split; [apply init_volume_path |].
  split; [destruct lpf_soma_mask; split; congruence |].
  split; [apply init_volume_fresh |].
  destruct lpf_soma_mask; cbn [option_list app];
    repeat split; repeat apply List.Forall_cons; try apply List.Forall_nil;
    try apply init_volume_shape; apply init_volume_fresh.
Qed.

(** X11: under a RAM budget given by the caller, if the uint8 colormap is
    put on disk then so are the float32 orientation vectors (they take
    four times the bytes), so a path for [save_frangi_arrays] to move is
    returned. The byte sizes are taken to fit NumPy's 64-bit integers. *)
Theorem colormap_on_disk_implies_vectors (available : string -> Z)
    (img_shape slice_shape : Z * Z * Z) (resize_ratio : Q * Q * Q) (tmp_dir : string)
    (z_min : Z) (z_max : option Z) (lpf_soma_mask : bool) (budget_mb : Q) :
  let vols := init_frangi_volumes available img_shape slice_shape resize_ratio tmp_dir
                z_min z_max lpf_soma_mask (Some budget_mb) in
  let shape := vol_shape (fv_fiber_vec_img vols) in
  0 <= byte_size uint8 shape ->
  byte_size float32 shape < 2 ^ 63 ->
  is_disk_backed (fv_fiber_vec_clr vols) = true ->
  is_disk_backed (fv_fiber_vec_img vols) = true /\ fv_fiber_dset_path vols <> None.
Proof.
  intros vols shape. subst shape vols.
  destruct (init_frangi_volumes_allocations available img_shape slice_shape resize_ratio
              tmp_dir z_min z_max lpf_soma_mask (Some budget_mb))
    as (shape & chunks & Heq).
  cbv zeta in Heq. rewrite Heq.
  cbn [fv_fiber_dset_path fv_fiber_vec_img fv_fiber_vec_clr].
  rewrite !init_volume_shape. intros Hpos Hfit Hclr.
  assert (byte_size float32 (shape ++ [3]) = 4 * byte_size uint8 (shape ++ [3])) as H4
    by (unfold byte_size; simpl; lia).
  destruct (init_volume_decision (available "fiber_cmap") (shape ++ [3]) uint8
              (Chunks (chunks ++ [3])) "fiber_cmap" tmp_dir "r+" (Some budget_mb))
    as (Hc & _); [lia |].
  destruct (init_volume_decision (available "fiber_vec") (shape ++ [3]) float32
              (Chunks (chunks ++ [3])) "fiber_vec" tmp_dir "r+" (Some budget_mb))
    as (Hv & _ & _ & Hp & _); [lia |].
  apply Hc in Hclr.
  assert (is_disk_backed
            (init_volume (available "fiber_vec") (shape ++ [3]) float32
               (Chunks (chunks ++ [3])) "fiber_vec" tmp_dir "r+" (Some budget_mb)).1
          = true) as Hdisk.
  { apply Hv. eapply Qle_trans; [exact Hclr |].
    rewrite <- Zle_Qle. lia. }
  split; [exact Hdisk | apply Hp; exact Hdisk].
Qed.

Lemma colormap_on_disk_implies_vectors_witness :
  let vols := init_frangi_volumes (fun _ => 0) (4, 512, 512) (4, 512, 512)
                (1%Q, 1%Q, 1%Q) "/tmp" 0 None false (Some 1%Q) in
  is_disk_backed (fv_fiber_vec_img vols) = true /\ fv_fiber_dset_path vols <> None.
Proof.
  apply (colormap_on_disk_implies_vectors (fun _ => 0) (4, 512, 512) (4, 512, 512)
           (1%Q, 1%Q, 1%Q) "/tmp" 0 None false 1%Q).
  - vm_compute. discriminate.
  - vm_compute. reflexivity.
  - vm_compute. reflexivity.
Defined.

(** ** pipeline.py: the z-selection at write-back *)

Lemma omap_lookup_range {A : Type} (a : list A) (f : nat -> nat) (n : nat) :
  forall s c : nat,
    (forall k, (s <= k)%nat -> f k = (c + (k - s))%nat) ->
    (c + n <= length a)%nat ->
    omap (fun k => a !! f k) (seq s n) = take n (drop c a).
Proof.
  induction n as [|n IH]; intros s c Hf Hlen; [reflexivity |].
  csimpl. rewrite (Hf s) by lia. replace (c + (s - s))%nat with c by lia.
  destruct (lookup_lt_is_Some_2 a c) as [x Hx]; [lia |].
  rewrite Hx. rewrite (drop_S a x c Hx). cbn [take]. f_equal.
  apply IH; [| lia]. intros k Hk. rewrite (Hf k) by lia. lia.
Qed.

(** [a[lo:hi]] for [0 <= lo <= hi <= len(a)]. *)
Lemma getitem_z_range {A : Type} (a : list A) (lo hi : Z) :
  0 <= lo <= hi -> hi <= Z.of_nat (length a) ->
  Np.getitem_z (Slice (Some lo) (Some hi) (Some 1)) a
  = Ok (take (Z.to_nat (hi - lo)) (drop (Z.to_nat lo) a)).
Proof.
  intros Hlo Hhi. unfold Np.getitem_z, Np.slice_indices. cbn.
  destruct (Z.ltb_spec lo 0) as [?|_]; [lia |].
  destruct (Z.ltb_spec hi 0) as [?|_]; [lia |].
  rewrite !Z.min_l by lia. f_equal.
  assert ((if lo <? hi then (hi - lo + 1 - 1) `div` 1 else 0) = hi - lo) as ->.
  { destruct (Z.ltb_spec lo hi); [| lia]. rewrite Z.div_1_r. lia. }
  apply omap_lookup_range; [| lia].
  intros k _. lia.
Qed.

(** [a[lo:]] for [0 <= lo <= len(a)]. *)
Lemma getitem_z_from {A : Type} (a : list A) (lo : Z) :
  0 <= lo <= Z.of_nat (length a) ->
  Np.getitem_z (Slice (Some lo) None (Some 1)) a = Ok (drop (Z.to_nat lo) a).
Proof.
  intros Hlo. unfold Np.getitem_z, Np.slice_indices. cbn.
  destruct (Z.ltb_spec lo 0) as [?|_]; [lia |].
  rewrite Z.min_l by lia. f_equal.
  assert ((if lo <? Z.of_nat (length a)
           then (Z.of_nat (length a) - lo + 1 - 1) `div` 1 else 0)
          = Z.of_nat (length a) - lo) as ->.
  { destruct (Z.ltb_spec lo (Z.of_nat (length a))); [| lia]. rewrite Z.div_1_r. lia. }
  rewrite (omap_lookup_range a _ _ 0%nat (Z.to_nat lo)); [| intros k _; lia | lia].
  apply take_ge. rewrite length_drop. lia.
Qed.

(** X12: when no z-range is forced ([z_min = 0], [z_max = None]), the
    selection that [init_frangi_volumes] hands to the tile workers keeps
    every plane of a slice, so the write-back writes the slices whole. *)
Theorem unforced_z_sel_keeps_all_planes {A : Type} (available : string -> Z)
    (img_shape slice_shape : Z * Z * Z) (resize_ratio : Q * Q * Q) (tmp_dir : string)
    (lpf_soma_mask : bool) (max_ram_mb : option Q) (a : list A) :
  Np.getitem_z
    (fv_z_sel (init_frangi_volumes available img_shape slice_shape resize_ratio
                 tmp_dir 0 None lpf_soma_mask max_ram_mb)) a
  = Ok a.
Proof.
  rewrite init_frangi_volumes_z_sel. cbn [Z.eqb].
  rewrite getitem_z_from by lia. reflexivity.
Qed.

(** X13: with a forced range [0 <= z_min <= z_max] inside a slice of the
    tile worker ([z_max] being the slice depth of the plan when only
    [z_min] is forced), the selection keeps the planes [z_min .. z_max-1];
    their number is the depth the output volumes are sized from, and is
    the allocated depth itself when the z-axis is not resized. *)
Theorem forced_z_sel_fills_the_volume {A : Type} (available : string -> Z)
    (img_shape slice_shape : Z * Z * Z) (resize_ratio : Q * Q * Q) (tmp_dir : string)
    (z_min : Z) (z_max : option Z) (lpf_soma_mask : bool) (max_ram_mb : option Q)
    (a : list A) :
  let vols := init_frangi_volumes available img_shape slice_shape resize_ratio
                tmp_dir z_min z_max lpf_soma_mask max_ram_mb in
  let stop := default slice_shape.1.1 z_max in
  z_min <> 0 \/ z_max <> None ->
  0 <= z_min <= stop -> stop <= Z.of_nat (length a) ->
  let planes := take (Z.to_nat (stop - z_min)) (drop (Z.to_nat z_min) a) in
  Np.getitem_z (fv_z_sel vols) a = Ok planes /\
  Z.of_nat (length planes) = output_depth img_shape slice_shape z_min z_max /\
  (resize_ratio.1.1 == 1 ->
   head (vol_shape (fv_iso_fiber_img vols)) = Some (Z.of_nat (length planes))).
Proof.
  intros vols stop Hforced Hlo Hhi planes. subst vols.
  assert (Z.of_nat (length planes) = output_depth img_shape slice_shape z_min z_max)
    as Hcount.
  { subst planes. rewrite length_take, length_drop. unfold output_depth. subst stop.
    destruct z_max as [z|]; cbv [default from_option Datatypes.id] in *; [lia |].
    destruct (Z.eqb_spec z_min 0) as [->|_]; [destruct Hforced; congruence | lia]. }
  split; [| split; [exact Hcount |]].
  - rewrite init_frangi_volumes_z_sel. subst planes stop.
    destruct z_max as [z|]; cbv [default from_option Datatypes.id] in *.
    + apply getitem_z_range; lia.
    + destruct (Z.eqb_spec z_min 0) as [->|_]; [destruct Hforced; congruence |].
      apply getitem_z_range; lia.
  - intros Hratio. rewrite Hcount.
    pose proof (init_frangi_volumes_depth available img_shape slice_shape resize_ratio
                  tmp_dir z_min z_max lpf_soma_mask max_ram_mb) as Hdepth.
    cbv zeta in Hdepth. apply Forall_app in Hdepth as [Hdepth _].
    rewrite !Forall_cons in Hdepth. destruct Hdepth as (_ & _ & _ & _ & _ & Hiso & _).
    rewrite Hiso. f_equal.
    rewrite (Qceiling_comp _ (inject_Z (output_depth img_shape slice_shape z_min z_max))).
    + apply Qceiling_Z.
    + rewrite Hratio. apply Qmult_1_l.
Qed.

Lemma forced_z_sel_fills_the_volume_witness :
  Np.getitem_z
    (fv_z_sel (init_frangi_volumes (fun _ => 0) (5, 8, 8) (5, 8, 8) (1%Q, 1%Q, 1%Q)
                 "/tmp" 1 (Some 3) false None)) [10; 11; 12; 13; 14]
  = Ok [11; 12].
Proof.
  refine (proj1 (forced_z_sel_fills_the_volume (fun _ => 0) (5, 8, 8) (5, 8, 8)
                   (1%Q, 1%Q, 1%Q) "/tmp" 1 (Some 3) false None [10; 11; 12; 13; 14]
                   _ _ _)).
  - left. discriminate.
  - cbn. lia.
  - cbn. lia.
Defined.

(** ** pipeline.py: the tiles of [parallel_frangi_on_slices] *)

Lemma fiber_analysis_zero_tile `{TileKernels}
    (img : image) (rng_in rng_in_neu rng_out : list pyslice)
    (pad_mat : list (Z * Z)) (smooth_sigma : option (list Q)) (scales_px : list Q)
    (px_rsz_ratio : Q * Q * Q) (z_sel : pyslice)
    (ch_neuron ch_fiber : Z) (alpha beta gamma : Q)
    (dark orient_cmap lpf_soma_mask mosaic : bool) (outs : outputs) :
  Np.max (slice_channel img rng_in ch_fiber mosaic) = Ok 0 ->
  fiber_analysis img rng_in rng_in_neu rng_out pad_mat smooth_sigma
    scales_px px_rsz_ratio z_sel ch_neuron ch_fiber alpha beta gamma
    dark orient_cmap lpf_soma_mask mosaic outs = (Ok tt, outs).
Proof.
  intros Hmax. unfold fiber_analysis, eff_bind, eff_lift.
  rewrite Hmax. reflexivity.
Qed.

Lemma max_zero_slice (a : ndarray Z) :
  Np.flatten a <> [] -> Forall (fun v => v = 0) (Np.flatten a) -> Np.max a = Ok 0.
Proof.
  intros Hne Hzero. unfold Np.max.
  destruct (Np.flatten a) as [|v vs]; [congruence |].
  inversion Hzero as [|? ? Hv Hvs]; subst.
  rewrite (fold_max_zero vs Hvs). reflexivity.
Qed.

(** X14: when the fiber channel is zero on every tile of the plan, the
    tile loop of [parallel_frangi_on_slices] returns normally and leaves
    all output volumes as they were allocated, in whatever order the
    tiles are taken. *)
Theorem frangi_on_tiles_skips_empty_image `{TileKernels}
    (img : image) (rng_in_lst rng_in_neu_lst rng_out_lst : list (list pyslice))
    (pad_mat_lst : list (list (Z * Z)))
    (smooth_sigma : option (list Q)) (scales_px : list Q)
    (px_rsz_ratio : Q * Q * Q) (z_sel : pyslice)
    (ch_neuron ch_fiber : Z) (alpha beta gamma : Q)
    (dark orient_cmap lpf_soma_mask mosaic : bool)
    (tiles : list nat) (outs : outputs) :
  Forall (empty_tile img rng_in_lst rng_in_neu_lst rng_out_lst pad_mat_lst
            ch_fiber mosaic) tiles ->
  frangi_on_tiles img rng_in_lst rng_in_neu_lst rng_out_lst pad_mat_lst
    smooth_sigma scales_px px_rsz_ratio z_sel ch_neuron ch_fiber
    alpha beta gamma dark orient_cmap lpf_soma_mask mosaic tiles outs
  = (Ok tt, outs).
Proof.
  induction 1 as [|i tiles Hi _ IH]; [reflexivity |].
  destruct Hi as (rng_in & Hin & [rng_neu Hneu] & [rng_out Hout] & [pad Hpad] & Hne & Hzero).
  cbn [frangi_on_tiles]. unfold eff_bind at 1, eff_lift at 1, list_item at 1.
  rewrite Hin.
  unfold eff_bind at 1, eff_lift at 1, list_item at 1. rewrite Hneu.
  unfold eff_bind at 1, eff_lift at 1, list_item at 1. rewrite Hout.
  unfold eff_bind at 1, eff_lift at 1, list_item at 1. rewrite Hpad.
  unfold eff_bind at 1.
  rewrite fiber_analysis_zero_tile by (apply max_zero_slice; assumption).
  exact IH.
Qed.

Lemma frangi_on_tiles_skips_empty_image_witness :
  let v := Volume (MemoryMap "/tmp/v.mmap") uint8 [1; 2; 2] [] in
  let outs := Outputs v v v v v v None in
  @frangi_on_tiles plain_kernels [[[0; 0]; [0; 0]]] [[]; []] [[]; []] [[]; []] [[]; []]
    None [1%Q] (1%Q, 1%Q, 1%Q) (Slice (Some 0) None (Some 1)) 0 1
    (5 # 100) 1%Q 100%Q false false false false [1; 0]%nat outs
  = (Ok tt, outs).
Proof.
  intros v outs.
  apply (@frangi_on_tiles_skips_empty_image plain_kernels).
  repeat apply List.Forall_cons; try apply List.Forall_nil;
    (exists []; repeat split; try (eexists; reflexivity);
     [simpl; discriminate | simpl; repeat constructor]).
Defined.

(** X15: however many tiles are processed, in whatever order, and whether
    the loop returns or a tile raises, every output volume is still held
    by the backing it was allocated with. *)
Theorem frangi_on_tiles_backings `{TileKernels}
    (img : image) (rng_in_lst rng_in_neu_lst rng_out_lst : list (list pyslice))
    (pad_mat_lst : list (list (Z * Z)))
    (smooth_sigma : option (list Q)) (scales_px : list Q)
    (px_rsz_ratio : Q * Q * Q) (z_sel : pyslice)
    (ch_neuron ch_fiber : Z) (alpha beta gamma : Q)
    (dark orient_cmap lpf_soma_mask mosaic : bool)
    (tiles : list nat) (outs : outputs) :
  backings (frangi_on_tiles img rng_in_lst rng_in_neu_lst rng_out_lst pad_mat_lst
              smooth_sigma scales_px px_rsz_ratio z_sel ch_neuron ch_fiber
              alpha beta gamma dark orient_cmap lpf_soma_mask mosaic tiles outs).2
  = backings outs.
Proof.
  revert outs. induction tiles as [|i tiles IH]; intros outs; [reflexivity |].
  cbn [frangi_on_tiles].
  unfold eff_bind at 1, eff_lift at 1.
  destruct (list_item rng_in_lst i) as [rng_in|]; [| reflexivity].
  unfold eff_bind at 1, eff_lift at 1.
  destruct (list_item rng_in_neu_lst i) as [rng_neu|]; [| reflexivity].
  unfold eff_bind at 1, eff_lift at 1.
  destruct (list_item rng_out_lst i) as [rng_out|]; [| reflexivity].
  unfold eff_bind at 1, eff_lift at 1.
  destruct (list_item pad_mat_lst i) as [pad|]; [| reflexivity].
  unfold eff_bind at 1.
  pose proof (fiber_analysis_backings img rng_in rng_neu rng_out pad smooth_sigma
                scales_px px_rsz_ratio z_sel ch_neuron ch_fiber alpha beta gamma
                dark orient_cmap lpf_soma_mask mosaic outs) as Hstep.
  destruct (fiber_analysis img rng_in rng_neu rng_out pad smooth_sigma
              scales_px px_rsz_ratio z_sel ch_neuron ch_fiber alpha beta gamma
              dark orient_cmap lpf_soma_mask mosaic outs) as [[[]|e] o1]; cbn [snd] in Hstep.
  - rewrite IH. exact Hstep.
  - exact Hstep.
Qed.

(** ** input.py: the image file *)

Lemma append_nil_l (s : string) : EmptyString +:+ s = s.
Proof. reflexivity. Qed.

Lemma append_cons (a : ascii) (s t : string) : String a s +:+ t = String a (s +:+ t).
Proof. reflexivity. Qed.

Ltac norm_append := rewrite ?append_cons, ?append_nil_l in *.

Lemma split_on_cons (c : ascii) (s : string) :
  exists h t, Str.split_on c s = h :: t.
Proof.
  induction s as [|a s (h & t & IH)]; cbn [Str.split_on]; [eauto |].
  rewrite IH. destruct (Ascii.eqb a c); eauto.
Qed.

Lemma split_on_no_sep (c : ascii) (s : string) :
  Str.has_char c s = false -> Str.split_on c s = [s].
Proof.
  induction s as [|a s IH]; cbn [Str.split_on Str.has_char]; [reflexivity |].
  intros Hno. apply orb_false_iff in Hno as [Ha Hs].
  rewrite Ha, (IH Hs). reflexivity.
Qed.

Lemma split_on_sep (c : ascii) (s : string) :
  Str.has_char c s = true ->
  exists h t pre,
    Str.split_on c s = h :: t /\ t <> [] /\
    s = pre +:+ String c (List.last (Str.split_on c s) EmptyString).
Proof.
  induction s as [|a s IH]; cbn [Str.split_on Str.has_char]; [discriminate |].
  intros Hhas. destruct (Ascii.eqb_spec a c) as [->|Hac].
  - destruct (Str.has_char c s) eqn:Hs.
    + destruct (IH eq_refl) as (h & t & pre & Hsplit & Ht & Hpre).
      exists EmptyString, (h :: t), (String c pre). rewrite Hsplit in *.
      split; [reflexivity |]. split; [discriminate |].
      rewrite append_cons. rewrite Hpre at 1. reflexivity.
    + rewrite (split_on_no_sep c s Hs).
      exists EmptyString, [s], EmptyString. repeat split; discriminate.
  - cbn [orb] in Hhas. destruct (IH Hhas) as (h & t & pre & Hsplit & Ht & Hpre).
    rewrite Hsplit in *. exists (String a h), t, (String a pre).
    split; [reflexivity |]. split; [exact Ht |].
    rewrite append_cons. rewrite Hpre at 1.
    destruct t; [congruence | reflexivity].
Qed.

Lemma split_on_parts (c : ascii) (s : string) :
  Forall (fun p => Str.has_char c p = false) (Str.split_on c s).
Proof.
  induction s as [|a s IH]; cbn [Str.split_on].
  - repeat constructor.
  - destruct (Ascii.eqb a c) eqn:Hac.
    + apply List.Forall_cons; [reflexivity | exact IH].
    + destruct (Str.split_on c s) as [|h t]; [repeat constructor; cbn; rewrite Hac; auto |].
      inversion IH as [|? ? Hh Ht]; subst.
      apply List.Forall_cons; [| exact Ht]. cbn. rewrite Hac. exact Hh.
Qed.

Lemma last_has_no_sep (c : ascii) (s : string) :
  Str.has_char c (List.last (Str.split_on c s) EmptyString) = false.
Proof.
  pose proof (split_on_parts c s) as Hparts.
  induction Hparts as [|p [|q l] Hp Hl IH]; [reflexivity | exact Hp | exact IH].
Qed.

Lemma split_on_app (c : ascii) (a b : string) :
  Str.has_char c a = false ->
  Str.split_on c (a +:+ String c b) = a :: Str.split_on c b.
Proof.
  induction a as [|x a IH]; norm_append; cbn [Str.split_on Str.has_char].
  - intros _. rewrite Ascii.eqb_refl. reflexivity.
  - intros Hno. apply orb_false_iff in Hno as [Hx Ha].
    rewrite Hx, (IH Ha). reflexivity.
Qed.

Lemma last_split_on_app (c : ascii) (a b : string) :
  List.last (Str.split_on c (a +:+ String c b)) EmptyString
  = List.last (Str.split_on c b) EmptyString.
Proof.
  induction a as [|x a IH]; norm_append; cbn [Str.split_on].
  - rewrite Ascii.eqb_refl. destruct (split_on_cons c b) as (h & t & ->). reflexivity.
  - assert (Str.has_char c (a +:+ String c b) = true) as Hhas.
    { clear IH. induction a as [|y a IHa]; norm_append; cbn [Str.has_char].
      - rewrite Ascii.eqb_refl. reflexivity.
      - rewrite IHa. apply orb_true_r. }
    destruct (split_on_sep c _ Hhas) as (h & t & _ & Hsplit & Ht & _).
    rewrite Hsplit in *. rewrite <- IH.
    destruct (Ascii.eqb x c); destruct t; try congruence; reflexivity.
Qed.

Lemma append_assoc (a b c : string) : (a +:+ b) +:+ c = a +:+ (b +:+ c).
Proof.
  induction a as [|x a IH]; norm_append; [reflexivity |]. rewrite IH. reflexivity.
Qed.

Lemma endswith_sep_split (a : string) :
  Path.endswith_sep a = true -> exists d, a = d +:+ "/".
Proof.
  induction a as [|x a IH]; [discriminate |].
  destruct a as [|y a].
  - cbn. intros Hx. apply Ascii.eqb_eq in Hx. subst x. exists EmptyString. reflexivity.
  - intros Hend. destruct (IH Hend) as [d Hd]. exists (String x d).
    rewrite append_cons, <- Hd. reflexivity.
Qed.

(** [basename(join(dir, name)) = name] for a name without a slash. *)
Lemma basename_join (dir name : string) :
  Str.has_char "/" name = false -> Str.basename (Path.join dir name) = name.
Proof.
  intros Hname. unfold Str.basename, Path.join.
  assert (Path.startswith_sep name = false) as ->.
  { destruct name as [|x name]; [reflexivity |].
    cbn in Hname |- *. apply orb_false_iff in Hname as [Hx _]. exact Hx. }
  assert (List.last (Str.split_on "/" name) EmptyString = name) as Hbase.
  { rewrite (split_on_no_sep _ _ Hname). reflexivity. }
  destruct (String.eqb_spec dir EmptyString) as [->|Hdir]; cbn [orb].
  - exact Hbase.
  - destruct (Path.endswith_sep dir) eqn:Hend.
    + destruct (endswith_sep_split dir Hend) as [d ->].
      rewrite append_assoc. norm_append.
      rewrite last_split_on_app. exact Hbase.
    + norm_append. rewrite last_split_on_app. exact Hbase.
Qed.

Lemma prefix_refl (s : string) : String.prefix s s = true.
Proof.
  induction s as [|a s IH]; cbn; [reflexivity |].
  destruct (ascii_dec a a); [exact IH | congruence].
Qed.

Lemma replace_from_skip_all (old new s : string) (skip : nat) :
  (String.length s <= skip)%nat -> Str.replace_from old new s skip = EmptyString.
Proof.
  revert skip. induction s as [|a s IH]; intros skip Hlen; [reflexivity |].
  cbn in Hlen. destruct skip as [|k]; [lia |].
  cbn [Str.replace_from]. apply IH. lia.
Qed.

(** Deleting [.fmt] from [stem.fmt] leaves [stem], for a stem without a dot. *)
Lemma replace_extension (stem fmt : string) :
  Str.has_char "." stem = false ->
  Str.replace ("." +:+ fmt) EmptyString (stem +:+ "." +:+ fmt) = stem.
Proof.
  unfold Str.replace. intros Hstem.
  induction stem as [|a stem IH].
  - norm_append. cbn [Str.replace_from]. rewrite prefix_refl.
    norm_append. apply replace_from_skip_all. cbn [String.length]. lia.
  - cbn [Str.has_char] in Hstem. apply orb_false_iff in Hstem as [Ha Hstem].
    norm_append. cbn [Str.replace_from String.prefix].
    destruct (ascii_dec "." a) as [<-|_]; [discriminate Ha |].
    f_equal. norm_append. exact (IH Hstem).
Qed.

(** X16: [get_image_file] raises ValueError exactly when the base name of
    the image path has no dot; otherwise it returns the path and the
    memory-map flag as given, and as format the text after the last dot of
    the base name (itself without a dot), the image being a mosaic
    exactly when that format is [yml]. *)
Theorem get_image_file_format (args : Input.cli_args) :
  let base := Str.basename (Input.image_path args) in
  (Str.has_char "." base = false -> Input.get_image_file args = Raise ValueError) /\
  (Str.has_char "." base = true ->
   exists name fmt pre,
     Input.get_image_file args
     = Ok (Input.image_path args, name, fmt, String.eqb fmt "yml", Input.mmap args) /\
     base = pre +:+ "." +:+ fmt /\ Str.has_char "." fmt = false).
Proof.
  intros base. unfold Input.get_image_file. fold base. split; intros Hdot.
  - rewrite (split_on_no_sep _ _ Hdot). reflexivity.
  - destruct (split_on_sep _ _ Hdot) as (h & t & pre & Hsplit & Ht & Hpre).
    assert ((length (Str.split_on "." base) =? 1)%nat = false) as ->.
    { rewrite Hsplit. destruct t; [congruence | reflexivity]. }
    eexists _, _, pre. split; [reflexivity |].
    split; [exact Hpre | apply last_has_no_sep].
Qed.

Lemma get_image_file_format_witness :
  Input.get_image_file
    (Input.CliArgs "/data/brain" (1 # 1000) 1 None [5 # 4] false None None true
       (878 # 1000) 1 (692 # 1000) (692 # 1000) (2612 # 1000) 1 0 0 None None 6)
  = Raise ValueError.
Proof.
  apply (proj1 (get_image_file_format
                  (Input.CliArgs "/data/brain" (1 # 1000) 1 None [5 # 4] false None None
                     true (878 # 1000) 1 (692 # 1000) (692 # 1000) (2612 # 1000)
                     1 0 0 None None 6))).
  reflexivity.
Defined.

(** X17: for an image stored as [stem.fmt] in a directory, where neither
    part has a slash or a dot, [get_image_file] gives back the stem as the
    image name and [fmt] as the format. *)
Theorem get_image_file_round_trip (args : Input.cli_args) (dir stem fmt : string) :
  Input.image_path args = Path.join dir (stem +:+ "." +:+ fmt) ->
  Str.has_char "/" stem = false -> Str.has_char "." stem = false ->
  Str.has_char "/" fmt = false -> Str.has_char "." fmt = false ->
  Input.get_image_file args
  = Ok (Input.image_path args, stem, fmt, String.eqb fmt "yml", Input.mmap args).
Proof.
  intros Hpath Hstem_sl Hstem_dot Hfmt_sl Hfmt_dot.
  assert (Str.has_char "/" (stem +:+ "." +:+ fmt) = false) as Hname.
  { clear -Hstem_sl Hfmt_sl. induction stem as [|a stem IH].
    - norm_append. cbn. exact Hfmt_sl.
    - norm_append. cbn [Str.has_char] in *.
      apply orb_false_iff in Hstem_sl as [Ha Hs]. rewrite Ha. exact (IH Hs). }
  assert (Str.basename (Input.image_path args) = stem +:+ "." +:+ fmt) as Hbase.
  { rewrite Hpath. apply basename_join, Hname. }
  pose proof (replace_extension stem fmt Hstem_dot) as Hname'.
  unfold Input.get_image_file. rewrite !Hbase. norm_append.
  rewrite (split_on_app "." stem fmt Hstem_dot), (split_on_no_sep "." fmt Hfmt_dot).
  cbn [length Nat.eqb List.last]. norm_append.
  rewrite Hname'. reflexivity.
Qed.

Lemma get_image_file_round_trip_witness :
  Input.get_image_file
    (Input.CliArgs "/data/brain.yml" (1 # 1000) 1 None [5 # 4] false None None true
       (878 # 1000) 1 (692 # 1000) (692 # 1000) (2612 # 1000) 1 0 0 None None 6)
  = Ok ("/data/brain.yml", "brain", "yml", true, true).
Proof.
  apply (get_image_file_round_trip
           (Input.CliArgs "/data/brain.yml" (1 # 1000) 1 None [5 # 4] false None None true
              (878 # 1000) 1 (692 # 1000) (692 # 1000) (2612 # 1000) 1 0 0 None None 6)
           "/data" "brain" "yml"); reflexivity.
Defined.

(** ** input.py: shape and configuration *)

(** X18: called without a channel axis, as the pipeline does,
    [get_image_info] takes a four-axis image as (Z,C,Y,X) when it is a
    mosaic and as (Z,Y,X,C) otherwise, and returns its three spatial axes
    with the fiber channel as given; a three-axis image keeps its shape
    and has no fiber channel; the physical shape is the pixel shape times
    the pixel size, axis by axis. A shape of one axis is broadcast, any
    other is a ValueError. *)
Theorem get_image_info_axes {img_t : Type} (shape_of : img_t -> list Z)
    (get_item_bytes : img_t -> Z) (img : img_t) (px_size : Q * Q * Q)
    (ch_fiber : option Z) (mosaic : bool) :
  let um (z y x : Z) : list Q :=
    [inject_Z z * px_size.1.1; inject_Z y * px_size.1.2; inject_Z x * px_size.2]%Q in
  let run := Input.get_image_info img_t shape_of get_item_bytes img px_size ch_fiber
               mosaic None in
  match shape_of img with
  | [z; y; x] => run = Ok ([z; y; x], um z y x, get_item_bytes img, None)
  | [s0; s1; s2; s3] =>
      if mosaic
      then run = Ok ([s0; s2; s3], um s0 s2 s3, get_item_bytes img, ch_fiber)
      else run = Ok ([s0; s1; s2], um s0 s1 s2, get_item_bytes img, ch_fiber)
  | [s] => run = Ok ([s], um s s s, get_item_bytes img, ch_fiber)
  | _ => run = Raise ValueError
  end.
Proof.
  intros um run. subst um run. unfold Input.get_image_info.
  destruct px_size as [[pz py] px].
  destruct (shape_of img) as [|s0 [|s1 [|s2 [|s3 [|s4 rest]]]]];
    try destruct mosaic; reflexivity.
Qed.

Lemma int_of_quotient_defined (round : Q -> Z) (a b : Q) :
  ~ b == 0 -> Input.int_of_quotient round a b = inr (round (a / b)%Q).
Proof.
  intros Hb. unfold Input.int_of_quotient.
  destruct (Qeq_bool b 0) eqn:Hzero; [| reflexivity].
  apply Qeq_bool_eq in Hzero. contradiction.
Qed.

(** X19: [get_pipeline_config] returns a configuration exactly when the
    pixel size along z is not zero; with a zero pixel size the conversion
    of the forced z-range to pixels fails. *)
Theorem get_pipeline_config_needs_pixel_size
    (config_anisotropy_correction :
       Q * Q * Q -> Q * Q * Q -> bool -> option (list Q) * (Q * Q * Q))
    (get_output_prefix : list Q -> Q -> Q -> option Q -> string)
    (args : Input.cli_args) (vector : bool) (img_name : string) :
  (exists cfg, Input.get_pipeline_config config_anisotropy_correction get_output_prefix
                 args vector img_name = inr cfg)
  <-> ~ Input.px_size_z args == 0.
Proof.
  unfold Input.get_pipeline_config, Input.get_resolution. cbn [fst snd].
  split.
  - intros [cfg Hrun] Hzero. unfold Input.int_of_quotient in Hrun at 1.
    rewrite (Qeq_eq_bool _ _ Hzero) in Hrun.
    destruct (Qeq_bool (Input.z_min args) 0); discriminate Hrun.
  - intros Hpx. rewrite int_of_quotient_defined by exact Hpx.
    destruct (Input.z_max args) as [zm|].
    + rewrite int_of_quotient_defined by exact Hpx.
      destruct (config_anisotropy_correction _ _ _). eauto.
    + destruct (config_anisotropy_correction _ _ _). eauto.
Qed.

Lemma floor_quotient_below (a p : Q) :
  (0 < p)%Q -> (inject_Z (Qfloor (a / p)) * p <= a)%Q.
Proof.
  intros Hp. apply Qle_trans with ((a / p) * p)%Q.
  - apply Qmult_le_compat_r; [apply Qfloor_le | apply Qlt_le_weak, Hp].
  - unfold Qdiv. rewrite <- Qmult_assoc, (Qmult_comm (/ p)), Qmult_inv_r, Qmult_1_r.
    + apply Qle_refl.
    + intros Hzero. rewrite Hzero in Hp. discriminate Hp.
Qed.

Lemma ceiling_quotient_above (a p : Q) :
  (0 < p)%Q -> (a <= inject_Z (Qceiling (a / p)) * p)%Q.
Proof.
  intros Hp. apply Qle_trans with ((a / p) * p)%Q.
  - unfold Qdiv. rewrite <- Qmult_assoc, (Qmult_comm (/ p)), Qmult_inv_r, Qmult_1_r.
    + apply Qle_refl.
    + intros Hzero. rewrite Hzero in Hp. discriminate Hp.
  - apply Qmult_le_compat_r; [apply Qle_ceiling | apply Qlt_le_weak, Hp].
Qed.

Lemma floor_below_ceiling (a b p : Q) :
  (0 < p)%Q -> (a < b)%Q -> Qfloor (a / p) < Qceiling (b / p).
Proof.
  intros Hp Hab. rewrite Zlt_Qlt.
  apply Qle_lt_trans with (a / p)%Q; [apply Qfloor_le |].
  apply Qlt_le_trans with (b / p)%Q; [| apply Qle_ceiling].
  unfold Qdiv. apply Qmult_lt_compat_r; [apply Qinv_lt_0_compat, Hp | exact Hab].
Qed.

(** X20: for a positive pixel size along z, the z-range in pixels that
    [get_pipeline_config] returns covers the range forced in micrometres
    (the lower bound is rounded down, the upper bound up), and is not
    empty when the forced range is not; an upper bound that is not forced
    stays unset. *)
Theorem get_pipeline_config_z_range
    (config_anisotropy_correction :
       Q * Q * Q -> Q * Q * Q -> bool -> option (list Q) * (Q * Q * Q))
    (get_output_prefix : list Q -> Q -> Q -> option Q -> string)
    (args : Input.cli_args) (vector : bool) (img_name : string) :
  (0 < Input.px_size_z args)%Q ->
  exists cfg,
    Input.get_pipeline_config config_anisotropy_correction get_output_prefix
      args vector img_name = inr cfg /\
    (inject_Z (Input.cfg_z_min cfg) * Input.px_size_z args <= Input.z_min args)%Q /\
    match Input.z_max args with
    | None => Input.cfg_z_max cfg = None
    | Some z_max_um =>
        exists z_max,
          Input.cfg_z_max cfg = Some z_max /\
          (z_max_um <= inject_Z z_max * Input.px_size_z args)%Q /\
          ((Input.z_min args < z_max_um)%Q -> Input.cfg_z_min cfg < z_max)
    end.
Proof.
  intros Hpx.
  assert (~ Input.px_size_z args == 0) as Hnz.
  { intros Hzero. rewrite Hzero in Hpx. discriminate Hpx. }
  unfold Input.get_pipeline_config, Input.get_resolution. cbn [fst snd].
  rewrite int_of_quotient_defined by exact Hnz.
  destruct (Input.z_max args) as [zm|].
  - rewrite int_of_quotient_defined by exact Hnz.
    destruct (config_anisotropy_correction _ _ _) as [sigma iso].
    eexists. split; [reflexivity |]. cbn [Input.cfg_z_min Input.cfg_z_max].
    split; [apply floor_quotient_below, Hpx |].
    eexists. split; [reflexivity |].
    split; [apply ceiling_quotient_above, Hpx |].
    intros Hrange. apply floor_below_ceiling; assumption.
  - destruct (config_anisotropy_correction _ _ _) as [sigma iso].
    eexists. split; [reflexivity |]. cbn [Input.cfg_z_min Input.cfg_z_max].
    split; [apply floor_quotient_below, Hpx | reflexivity].
Qed.

Lemma get_pipeline_config_z_range_witness :
  exists cfg,
    Input.get_pipeline_config (fun px _ _ => (None, px)) (fun _ _ _ _ => "a_")
      (Input.CliArgs "/data/brain.tif" (1 # 1000) 1 None [5 # 4] false None None true
         (878 # 1000) 2 (692 # 1000) (692 # 1000) (2612 # 1000) 1 0 3 (Some 9%Q) None 6)
      false "brain" = inr cfg /\
    Input.cfg_z_min cfg = 1 /\ Input.cfg_z_max cfg = Some 5.
Proof.
  destruct (get_pipeline_config_z_range (fun px _ _ => (None, px)) (fun _ _ _ _ => "a_")
              (Input.CliArgs "/data/brain.tif" (1 # 1000) 1 None [5 # 4] false None None
                 true (878 # 1000) 2 (692 # 1000) (692 # 1000) (2612 # 1000)
                 1 0 3 (Some 9%Q) None 6)
              false "brain" eq_refl) as (cfg & Hrun & _).
  exists cfg. split; [exact Hrun |].
  vm_compute in Hrun. injection Hrun as <-. split; reflexivity.
Defined.

(** ** printing.py *)

(** X21: [print_volume_shape] deletes the channel axis before it reads the
    first three entries of the shape, so it prints the shape line only for
    a shape of at least four axes; on a shape of fewer axes, such as the
    (Z,Y,X) of its docstring, it raises IndexError. For four axes the
    line shows the spatial axes in micrometres: the channel axis is the
    second one for a mosaic and the last one otherwise. *)
Theorem print_volume_shape_needs_channel_axis (args : Input.cli_args)
    (volume_shape : list Z) (mosaic : bool) (out : Printing.console) :
  let run := Printing.print_volume_shape args volume_shape mosaic out in
  let line (z y x : Z) : string * list Q :=
    ("  Volume shape         [μm]: ({0:.1f}, {1:.1f}, {2:.1f})",
     [inject_Z z * Input.px_size_z args; inject_Z y * Input.px_size_xy args;
      inject_Z x * Input.px_size_xy args]%Q) in
  match volume_shape with
  | [s0; s1; s2; s3] =>
      exists header,
        run = (Ok tt, out ++ [header; if mosaic then line s0 s2 s3 else line s0 s1 s2])
  | _ => (length volume_shape < 4)%nat -> run.1 = Raise IndexError
  end.
Proof.
  intros run line. subst run line. unfold Printing.print_volume_shape.
  destruct volume_shape as [|s0 [|s1 [|s2 [|s3 [|s4 rest]]]]];
    try (destruct mosaic; intros _; reflexivity);
    try (cbn [length]; intros Hlen; lia).
  destruct mosaic; eexists.
  - change (Input.np_delete [s0; s1; s2; s3] 1) with (Ok [s0; s2; s3]).
    cbv [eff_bind eff_lift Printing.print eff_modify Printing.item].
    cbn. rewrite <- app_assoc. reflexivity.
  - change (Input.np_delete [s0; s1; s2; s3] (-1)) with (Ok [s0; s1; s2]).
    cbv [eff_bind eff_lift Printing.print eff_modify Printing.item].
    cbn. rewrite <- app_assoc. reflexivity.
Qed.

Lemma slice_le_volume (v s p : Q * Q * Q) :
  (0 < p.1.1)%Q -> (0 < p.1.2)%Q -> (0 < p.2)%Q ->
  (0 <= s.1.1 <= v.1.1)%Q -> (0 <= s.1.2 <= v.1.2)%Q -> (0 <= s.2 <= v.2)%Q ->
  (Printing.voxel_count s p <= Printing.voxel_count v p)%Q.
Proof.
  destruct v as [[v0 v1] v2], s as [[s0 s1] s2], p as [[p0 p1] p2]. cbn [fst snd].
  intros Hp0 Hp1 Hp2 H0 H1 H2. unfold Printing.voxel_count. cbn [fst snd].
  assert (forall a b q : Q, (0 < q)%Q -> (0 <= a <= b)%Q -> (0 <= a / q <= b / q)%Q) as Hdiv.
  { intros a b q Hq [Ha Hab]. unfold Qdiv.
    assert (0 <= / q)%Q as Hinv by (apply Qinv_le_0_compat, Qlt_le_weak, Hq).
    split; [apply Qmult_le_0_compat; assumption | apply Qmult_le_compat_r; assumption]. }
  pose proof (Hdiv _ _ _ Hp0 H0) as [? ?].
  pose proof (Hdiv _ _ _ Hp1 H1) as [? ?].
  pose proof (Hdiv _ _ _ Hp2 H2) as [? ?].
  apply Qmult_le_compat_nonneg; [split | split; assumption].
  - apply Qmult_le_0_compat; assumption.
  - apply Qmult_le_compat_nonneg; split; assumption.
Qed.

(** X22: for positive pixel sizes and shapes and item size that are not
    negative, [print_slicing_info] prints five lines, and the size of the
    basic slice it reports is never above the size of the whole volume:
    a slice shape that exceeds the volume along some axis is replaced by
    the volume shape. *)
Theorem print_slicing_info_slice_within_volume
    (volume_shape_um slice_shape_um px_size : Q * Q * Q) (volume_item_size : Z)
    (out : Printing.console) :
  (0 < px_size.1.1)%Q -> (0 < px_size.1.2)%Q -> (0 < px_size.2)%Q ->
  (0 <= slice_shape_um.1.1)%Q -> (0 <= slice_shape_um.1.2)%Q -> (0 <= slice_shape_um.2)%Q ->
  0 <= volume_item_size ->
  exists header shape_line slice_line t_volume t_slice (volume_mb slice_mb : Z),
    Printing.print_slicing_info volume_shape_um slice_shape_um px_size
      volume_item_size out
    = (Ok tt, out ++ [header; shape_line; (t_volume, [inject_Z volume_mb]);
                      slice_line; (t_slice, [inject_Z slice_mb])]) /\
    slice_mb <= volume_mb.
Proof.
  intros Hp0 Hp1 Hp2 Hs0 Hs1 Hs2 Hitem.
  unfold Printing.print_slicing_info.
  cbv [eff_bind eff_lift Printing.print eff_modify].
  do 7 eexists. split.
  { rewrite <- !app_assoc. cbn [app]. reflexivity. }
  apply Qceiling_resp_le. unfold Qdiv.
  apply Qmult_le_compat_r; [| vm_compute; discriminate].
  assert (0 <= inject_Z volume_item_size)%Q as Hitem'.
  { change 0%Q with (inject_Z 0). rewrite <- Zle_Qle. exact Hitem. }
  rewrite !(Qmult_comm (inject_Z volume_item_size)).
  apply Qmult_le_compat_r; [| exact Hitem'].
  destruct (Printing.any_less volume_shape_um slice_shape_um) eqn:Hless;
    [apply Qle_refl |].
  unfold Printing.any_less in Hless.
  apply orb_false_iff in Hless as [Hless H2]. apply orb_false_iff in Hless as [H0 H1].
  apply negb_false_iff, Qle_bool_iff in H0, H1, H2.
  apply slice_le_volume; try assumption; split; assumption.
Qed.

Lemma print_slicing_info_slice_within_volume_witness :
  exists header shape_line slice_line t_volume t_slice (volume_mb slice_mb : Z),
    Printing.print_slicing_info (100%Q, 2048%Q, 2048%Q) (200%Q, 512%Q, 512%Q)
      (2%Q, 1%Q, 1%Q) 1 []
    = (Ok tt, [header; shape_line; (t_volume, [inject_Z volume_mb]);
               slice_line; (t_slice, [inject_Z slice_mb])]) /\
    slice_mb <= volume_mb.
Proof.
  apply (print_slicing_info_slice_within_volume (100%Q, 2048%Q, 2048%Q)
           (200%Q, 512%Q, 512%Q) (2%Q, 1%Q, 1%Q) 1 []); vm_compute; congruence.
Defined.
